(** * A shallow embedding of the Bitcoin-Script stack simulator

    The development follows the JavaScript sources:
    - [src/utils.js]      : [Ok], [Err], [to_number]
    - [src/stack.js]      : the [Stack] class
    - [src/opcodes.js]    : [error], [opcodeList], [customOpcodeList]
    - [src/converter.js]  : [convertNop], [convertHash], [convertNumbers],
                            [convertOpcode]
    - [extension.js]      : [processLine] (the execution driver),
                            [handleScript], [parseCommentForStacks],
                            [processStack] (the editor loop)

    A text is a [string]: a sequence of characters with codes 0 to 255,
    each one code unit of the language's strings.  On these texts the
    white space of [trim], [Number] and the regular expressions is the
    set of [Lex.is_space], and [length] counts the characters.

    JavaScript numbers are IEEE-754 binary64 values.  They are modelled
    by [spec_float] at precision 53 and maximal exponent 1024, with the
    operations of the standard library's [SpecFloat]. *)

From Stdlib Require Import List String Ascii ZArith Lia Bool.
From Stdlib Require Import Floats.SpecFloat.
Import ListNotations.
Local Open Scope string_scope.
Local Open Scope list_scope.

(* ===================================================================== *)
(** ** JavaScript numbers *)
(* ===================================================================== *)

Module Num.

Definition prec : Z := 53.
Definition emax : Z := 1024.

Definition number : Type := spec_float.

(** The Number value of a mathematical integer (round to nearest, ties
    to even; overflow gives an infinity). *)
Definition of_Z (n : Z) : number := binary_normalize prec emax n 0 false.
Definition of_nat (n : nat) : number := of_Z (Z.of_nat n).

Definition NaN : number := S754_nan.
Definition Infinity : number := S754_infinity false.
Definition zero : number := S754_zero false.
Definition one : number := Eval vm_compute in of_Z 1.

Definition isNaN (x : number) : bool :=
  match x with S754_nan => true | _ => false end.

Definition add : number -> number -> number := SFadd prec emax.   (* x + y *)
Definition sub : number -> number -> number := SFsub prec emax.   (* x - y *)
Definition neg : number -> number := SFopp.                       (* -x *)
Definition abs : number -> number := SFabs.                       (* Math.abs *)

Definition eqb (x y : number) : bool := SFeqb x y.                (* x === y *)
Definition neqb (x y : number) : bool := negb (SFeqb x y).        (* x !== y *)
Definition ltb (x y : number) : bool := SFltb x y.                (* x < y *)
Definition leb (x y : number) : bool := SFleb x y.                (* x <= y *)
Definition gtb (x y : number) : bool := SFltb y x.                (* x > y *)
Definition geb (x y : number) : bool := SFleb y x.                (* x >= y *)

(** [Math.min(x, y)]: NaN if an argument is NaN; -0 is below +0. *)
Definition min (x y : number) : number :=
  if isNaN x || isNaN y then NaN
  else match x, y with
       | S754_zero sx, S754_zero sy => S754_zero (sx || sy)
       | _, _ => if ltb y x then y else x
       end.

(** [Math.max(x, y)]: NaN if an argument is NaN; +0 is above -0. *)
Definition max (x y : number) : number :=
  if isNaN x || isNaN y then NaN
  else match x, y with
       | S754_zero sx, S754_zero sy => S754_zero (sx && sy)
       | _, _ => if ltb x y then y else x
       end.

(** The mathematical integer denoted by a number, when it is one. *)
Definition to_integer (x : number) : option Z :=
  match x with
  | S754_zero _ => Some 0%Z
  | S754_finite s m e =>
      let v :=
        match e with
        | Z0 => Some (Zpos m)
        | Zpos k => Some (Z.shiftl (Zpos m) (Zpos k))
        | Zneg k =>
            if Z.eqb (Z.land (Zpos m) (Z.ones (Zpos k))) 0
            then Some (Z.shiftr (Zpos m) (Zpos k)) else None
        end in
      match v with
      | Some z => Some (if s then Z.opp z else z)
      | None => None
      end
  | _ => None
  end.

(** [x.toString(2).length] for the numbers a numeric literal can
    denote (non-negative integers and +Infinity); for the remaining
    numbers the sign and the digits of the integer part are counted. *)
Definition radix2_length (x : number) : Z :=
  match x with
  | S754_nan => 3                                   (* "NaN" *)
  | S754_infinity s => if s then 9 else 8           (* "-Infinity", "Infinity" *)
  | S754_zero _ => 1                                (* "0" *)
  | S754_finite s m e =>
      let int_digits := Z.max 1 (Z.add (Zpos (digits2_pos m)) e) in
      Z.add (if s then 1 else 0) int_digits
  end.

End Num.

Abbreviation number := Num.number.

(* ===================================================================== *)
(** ** Values, exceptions and results ([src/utils.js]) *)
(* ===================================================================== *)

(** What a stack cell can hold: the initial stacks hold strings, the
    opcodes push numbers and strings, and an out-of-range array read
    yields [undefined]. *)
Inductive Value : Type :=
| VNum (x : number)
| VStr (s : string)
| VUndefined.

(** [class ResultException extends Error] *)
Inductive Exception : Type :=
| ResultException (message : string).

(** The two conversions of the language that the opcodes call on stack
    values: [Number(s)] on a string and [String(x)] on a number. *)
Class Builtins : Type := {
  StringToNumber : string -> number;
  NumberToString : number -> string
}.

Section Utils.
Context {B : Builtins}.

(** [Number(value)] *)
Definition Number (value : Value) : number :=
  match value with
  | VNum x => x
  | VStr s => StringToNumber s
  | VUndefined => Num.NaN
  end.

(** [String(value)] *)
Definition String_ (value : Value) : string :=
  match value with
  | VNum x => NumberToString x
  | VStr s => s
  | VUndefined => "undefined"
  end.

(** [to_number]: throws "Invalid number" when the conversion is NaN. *)
Definition to_number (value : Value) : Exception + number :=
  let num := Number value in
  if Num.isNaN num then inl (ResultException "Invalid number")
  else inr num.

(** [a === b] on stack values. *)
Definition strict_equal (a b : Value) : bool :=
  match a, b with
  | VNum x, VNum y => Num.eqb x y
  | VStr s, VStr t => String.eqb s t
  | VUndefined, VUndefined => true
  | _, _ => false
  end.

End Utils.

(* ===================================================================== *)
(** ** The stack ([src/stack.js]) *)
(* ===================================================================== *)

Module Stack.

(** [this.items]: index 0 is the bottom, the last index is the top. *)
Definition t : Type := list Value.

Definition empty : t := [].

Definition size (items : t) : nat := List.length items.

Definition isEmpty (items : t) : bool := Nat.eqb (List.length items) 0.

Definition push (items : t) (val : Value) : t := items ++ [val].

(** [Err(msg)] throws a [ResultException]. *)
Definition pop (items : t) : Exception + (Value * t) :=
  if Nat.eqb (List.length items) 0
  then inl (ResultException "Oops, the stack is empty!")
  else inr (List.last items VUndefined, List.removelast items).

(** [items[k]] for a number [k]: an element for an integer index
    within the array, [undefined] otherwise. *)
Definition array_get (items : t) (k : number) : Value :=
  match Num.to_integer k with
  | Some z =>
      if (Z.leb 0 z && Z.ltb z (Z.of_nat (List.length items)))%bool
      then List.nth (Z.to_nat z) items VUndefined
      else VUndefined
  | None => VUndefined
  end.

Definition peek (items : t) : Exception + Value :=
  if Nat.eqb (List.length items) 0
  then inl (ResultException "Oops, the stack is empty!")
  else inr (array_get items (Num.sub (Num.of_nat (List.length items)) Num.one)).

Definition peekNth (items : t) (elem : number) : Exception + Value :=
  if Nat.eqb (List.length items) 0
  then inl (ResultException "Oops, the stack is empty!")
  else if Num.leb (Num.of_nat (List.length items)) elem
  then inl (ResultException "elem is not available")
  else inr (array_get items
              (Num.sub (Num.sub (Num.of_nat (List.length items)) Num.one) elem)).

End Stack.

(* ===================================================================== *)
(** ** Interpreter state and opcode results ([src/opcodes.js]) *)
(* ===================================================================== *)

(** [State]: the two stacks and the optional [if_result] property. *)
Record State : Type := mkState {
  main : Stack.t;
  alt : Stack.t;
  if_result : option bool
}.

(** The [error] property of a [StateError]: a message written in the
    table, or the exception caught by an opcode's [catch] clause. *)
Inductive ErrorValue : Type :=
| Message (msg : string)
| Caught (e : Exception).

(** An opcode function returns a [State] or a [StateError]. *)
Inductive OpResult : Type :=
| NewState (new_state : State)
| StateError (error : ErrorValue) (state : State).

(** [function error(message, state)] *)
Definition error (message : ErrorValue) (state : State) : OpResult :=
  StateError message state.

(** Modelled from the spec: [deepCopy] is imported from [./utils] by
    [src/opcodes.js] but its definition is not part of the sources.  The
    spec requires copy-on-transition: every opcode works on a fresh copy
    of its input, which is left unmodified.  States are values here, so
    the copy is the state itself. *)
Definition deepCopy (state : State) : State := state.

(** *** The body of a [try] block

    A [try] block runs on [new_state]; it either completes with a value
    and the updated [new_state], or throws. *)

Inductive Completion (A : Type) : Type :=
| Normal (a : A) (new_state : State)
| Throw (e : Exception).
Arguments Normal {A} a new_state.
Arguments Throw {A} e.

Definition Body (A : Type) : Type := State -> Completion A.

Definition ret {A} (a : A) : Body A := fun ns => Normal a ns.

Definition bind {A C} (c : Body A) (k : A -> Body C) : Body C :=
  fun ns =>
    match c ns with
    | Normal a ns' => k a ns'
    | Throw e => Throw e
    end.

Declare Scope body_scope.
Delimit Scope body_scope with body.
Notation "x <- c ;; k" := (bind c (fun x => k))
  (at level 61, c at next level, right associativity) : body_scope.
Notation "c ;; k" := (bind c (fun _ => k))
  (at level 61, right associativity) : body_scope.
Local Open Scope body_scope.

(** Lift a call that may throw. *)
Definition call {A} (r : Exception + A) : Body A :=
  fun ns => match r with inl e => Throw e | inr a => Normal a ns end.

(** [new_state.main.pop()] *)
Definition main_pop : Body Value :=
  fun ns =>
    match Stack.pop (main ns) with
    | inl e => Throw e
    | inr (v, items) => Normal v (mkState items (alt ns) (if_result ns))
    end.

(** [new_state.main.push(val)] *)
Definition main_push (val : Value) : Body unit :=
  fun ns => Normal tt (mkState (Stack.push (main ns) val) (alt ns) (if_result ns)).

(** [new_state.main.peek()] *)
Definition main_peek : Body Value :=
  fun ns => call (Stack.peek (main ns)) ns.

(** [new_state.main.peekNth(elem)] *)
Definition main_peekNth (elem : number) : Body Value :=
  fun ns => call (Stack.peekNth (main ns) elem) ns.

(** [new_state.main.size()] *)
Definition main_size : Body nat :=
  fun ns => Normal (Stack.size (main ns)) ns.

(** [new_state.alt.pop()] *)
Definition alt_pop : Body Value :=
  fun ns =>
    match Stack.pop (alt ns) with
    | inl e => Throw e
    | inr (v, items) => Normal v (mkState (main ns) items (if_result ns))
    end.

(** [new_state.alt.push(val)] *)
Definition alt_push (val : Value) : Body unit :=
  fun ns => Normal tt (mkState (main ns) (Stack.push (alt ns) val) (if_result ns)).

(** [new_state.if_result = b] *)
Definition set_if_result (b : bool) : Body unit :=
  fun ns => Normal tt (mkState (main ns) (alt ns) (Some b)).

(** [return new_state] *)
Definition return_new_state : Body OpResult :=
  fun ns => Normal (NewState ns) ns.

(** [try { body } catch (err) { return error(err, state) }], the body
    running on [new_state]. *)
Definition try_catch (state : State) (new_state : State)
    (body : Body OpResult) : OpResult :=
  match body new_state with
  | Normal r _ => r
  | Throw e => error (Caught e) state
  end.

(** [for (let i = 0; i < bound; i++) { acc = body(acc) }], started at
    [i].  Each loop of the table pops [main] once per round or runs as
    often as an earlier loop that did, and [pop] throws on an empty
    stack; the callers pass a [fuel] above the number of rounds that can
    complete, so the fuel never runs out ([popping_loop_fuel] and
    [roll_loops_fuel] below). *)
Fixpoint for_lt {A} (fuel i : nat) (bound : number)
    (body : A -> Body A) (acc : A) : Body A :=
  match fuel with
  | O => ret acc
  | S fuel' =>
      if Num.ltb (Num.of_nat i) bound
      then acc' <- body acc ;; for_lt fuel' (S i) bound body acc'
      else ret acc
  end.

(** [temp_stack.pop()] on a plain array: [undefined] when it is empty. *)
Definition array_pop (temp_stack : list Value) : Value * list Value :=
  match temp_stack with
  | [] => (VUndefined, [])
  | _ => (List.last temp_stack VUndefined, List.removelast temp_stack)
  end.

(** [cond ? 1 : 0] *)
Definition bool_number (cond : bool) : Value :=
  VNum (if cond then Num.one else Num.zero).

(* ===================================================================== *)
(** ** The opcode table ([opcodeList] of [src/opcodes.js]) *)
(* ===================================================================== *)

Section Opcodes.
Context {B : Builtins}.

(** [to_number(val)] inside a [try] block. *)
Definition num (val : Value) : Body number := call (to_number val).

Definition OP_0NOTEQUAL (state : State) : OpResult :=
  if Nat.ltb (Stack.size (main state)) 1
  then error (Message "Need one item for 0NOTEQUAL") state
  else
    let new_state := deepCopy state in
    try_catch state new_state
      (val <- main_pop ;;
       num_val <- num val ;;
       main_push (bool_number (Num.neqb num_val Num.zero)) ;;
       return_new_state).

Definition OP_1ADD (state : State) : OpResult :=
  let new_state := deepCopy state in
  try_catch state new_state
    (a <- main_pop ;;
     n <- num a ;;
     main_push (VNum (Num.add n Num.one)) ;;
     return_new_state).

Definition OP_1SUB (state : State) : OpResult :=
  let new_state := deepCopy state in
  try_catch state new_state
    (a <- main_pop ;;
     num_a <- num a ;;
     main_push (VNum (Num.sub num_a Num.one)) ;;
     return_new_state).

Definition OP_2DROP (state : State) : OpResult :=
  if Nat.ltb (Stack.size (main state)) 2
  then error (Message "Need two items for 2DROP") state
  else
    let new_state := deepCopy state in
    try_catch state new_state
      (main_pop ;;
       main_pop ;;
       return_new_state).

Definition OP_2DUP (state : State) : OpResult :=
  if Nat.ltb (Stack.size (main state)) 2
  then error (Message "requires two items for 2DUP") state
  else
    let new_state := deepCopy state in
    try_catch state new_state
      (a <- main_peek ;;
       b <- main_peekNth Num.one ;;
       main_push b ;;
       main_push a ;;
       return_new_state).

Definition OP_2OVER (state : State) : OpResult :=
  if Nat.ltb (Stack.size (main state)) 4
  then error (Message "requires four items for 2OVER") state
  else
    let new_state := deepCopy state in
    try_catch state new_state
      (third <- main_peekNth (Num.of_Z 2) ;;
       fourth <- main_peekNth (Num.of_Z 3) ;;
       main_push fourth ;;
       main_push third ;;
       return_new_state).

Definition OP_2ROT (state : State) : OpResult :=
  if Nat.ltb (Stack.size (main state)) 6
  then error (Message "Need six items for 2ROT") state
  else
    let new_state := deepCopy state in
    try_catch state new_state
      (a <- main_pop ;;
       b <- main_pop ;;
       c <- main_pop ;;
       d <- main_pop ;;
       e <- main_pop ;;
       f <- main_pop ;;
       main_push d ;;
       main_push c ;;
       main_push b ;;
       main_push a ;;
       main_push f ;;
       main_push e ;;
       return_new_state).

Definition OP_2SWAP (state : State) : OpResult :=
  if Nat.ltb (Stack.size (main state)) 4
  then error (Message "Need four items for 2SWAP") state
  else
    let new_state := deepCopy state in
    try_catch state new_state
      (a <- main_pop ;;
       b <- main_pop ;;
       c <- main_pop ;;
       d <- main_pop ;;
       main_push b ;;
       main_push a ;;
       main_push d ;;
       main_push c ;;
       return_new_state).

Definition OP_3DUP (state : State) : OpResult :=
  if Nat.ltb (Stack.size (main state)) 3
  then error (Message "Need three items for 3DUP") state
  else
    let new_state := deepCopy state in
    try_catch state new_state
      (a <- main_peek ;;
       b <- main_peekNth Num.one ;;
       c <- main_peekNth (Num.of_Z 2) ;;
       main_push c ;;
       main_push b ;;
       main_push a ;;
       return_new_state).

Definition OP_ABS (state : State) : OpResult :=
  if Nat.ltb (Stack.size (main state)) 1
  then error (Message "Need one item for ABS") state
  else
    let new_state := deepCopy state in
    try_catch state new_state
      (val <- main_pop ;;
       num_val <- num val ;;
       main_push (VNum (Num.abs num_val)) ;;
       return_new_state).

Definition OP_ADD (state : State) : OpResult :=
  if Nat.ltb (Stack.size (main state)) 2
  then error (Message "Need two items for ADD") state
  else
    let new_state := deepCopy state in
    try_catch state new_state
      (a <- main_pop ;;
       b <- main_pop ;;
       num_a <- num a ;;
       num_b <- num b ;;
       main_push (VNum (Num.add num_b num_a)) ;;
       return_new_state).

Definition OP_BOOLAND (state : State) : OpResult :=
  if Nat.ltb (Stack.size (main state)) 2
  then error (Message "Need two items for BOOLAND") state
  else
    let new_state := deepCopy state in
    try_catch state new_state
      (a <- main_pop ;;
       b <- main_pop ;;
       num_a <- num a ;;
       num_b <- num b ;;
       main_push (bool_number
                    (Num.neqb num_a Num.zero && Num.neqb num_b Num.zero)) ;;
       return_new_state).

Definition OP_BOOLOR (state : State) : OpResult :=
  if Nat.ltb (Stack.size (main state)) 2
  then error (Message "Need two items for BOOLOR") state
  else
    let new_state := deepCopy state in
    try_catch state new_state
      (a <- main_pop ;;
       b <- main_pop ;;
       num_a <- num a ;;
       num_b <- num b ;;
       main_push (bool_number
                    (Num.neqb num_a Num.zero || Num.neqb num_b Num.zero)) ;;
       return_new_state).

Definition OP_CAT (state : State) : OpResult :=
  if Nat.ltb (Stack.size (main state)) 2
  then error (Message "Need two items for CAT") state
  else
    let new_state := deepCopy state in
    try_catch state new_state
      (a <- main_pop ;;
       b <- main_pop ;;
       main_push (VStr (String_ a ++ "||" ++ String_ b)%string) ;;
       return_new_state).

(** The loop [for (let i = 0; i < count; i++) new_state.main.pop()]. *)
Definition pop_loop (count : number) : Body unit :=
  size <- main_size ;;
  for_lt (S size) 0 count (fun _ => main_pop ;; ret tt) tt.

(** The statements shared by [OP_CHECKMULTISIG] and
    [OP_CHECKMULTISIGVERIFY], up to the push of [1]; [k] is the rest
    of the [try] block. *)
Definition multisig_body (state : State) (k : Body OpResult) : Body OpResult :=
  n_pubkeys <- main_pop ;;
  num_pubkeys <- num n_pubkeys ;;
  size <- main_size ;;
  if Num.ltb (Num.of_nat size) num_pubkeys
  then ret (error (Message "Stack underflow: not enough pubkeys") state)
  else
    pop_loop num_pubkeys ;;
    size <- main_size ;;
    if Nat.ltb size 1
    then ret (error (Message "Need number of signatures") state)
    else
      n_sigs <- main_pop ;;
      num_sigs <- num n_sigs ;;
      size <- main_size ;;
      if Num.ltb (Num.of_nat size) num_sigs
      then ret (error (Message "Stack underflow: not enough signatures") state)
      else
        pop_loop num_sigs ;;
        size <- main_size ;;
        if Nat.ltb size 1
        then ret (error (Message "Need dummy element") state)
        else
          main_pop ;;
          main_push (VNum Num.one) ;;
          k.

Definition OP_CHECKMULTISIG (state : State) : OpResult :=
  if Nat.ltb (Stack.size (main state)) 1
  then error (Message "Need number of pubkeys for CHECKMULTISIG") state
  else
    let new_state := deepCopy state in
    try_catch state new_state
      (multisig_body state return_new_state).

(** [val = pop(); if (to_number(val) === 0) return error("Verification
    failed", state); return new_state] *)
Definition verify_top (state : State) : Body OpResult :=
  val <- main_pop ;;
  num_val <- num val ;;
  if Num.eqb num_val Num.zero
  then ret (error (Message "Verification failed") state)
  else return_new_state.

Definition OP_CHECKMULTISIGVERIFY (state : State) : OpResult :=
  if Nat.ltb (Stack.size (main state)) 1
  then error (Message "Need number of pubkeys for CHECKMULTISIGVERIFY") state
  else
    let new_state := deepCopy state in
    try_catch state new_state
      (multisig_body state (verify_top state)).

Definition OP_CHECKSIG (state : State) : OpResult :=
  if Nat.ltb (Stack.size (main state)) 2
  then error (Message "Need pubkey and signature for CHECKSIG") state
  else
    let new_state := deepCopy state in
    try_catch state new_state
      (main_pop ;;
       main_pop ;;
       main_push (VNum Num.one) ;;
       return_new_state).

Definition OP_CHECKSIGADD (state : State) : OpResult :=
  if Nat.ltb (Stack.size (main state)) 3
  then error (Message "Need number, pubkey, and signature for CHECKSIGADD") state
  else
    let new_state := deepCopy state in
    try_catch state new_state
      (main_pop ;;
       main_pop ;;
       n <- main_pop ;;
       num_n <- num n ;;
       main_push (VNum (Num.add num_n Num.one)) ;;
       return_new_state).

Definition OP_CHECKSIGVERIFY (state : State) : OpResult :=
  if Nat.ltb (Stack.size (main state)) 2
  then error (Message "Need pubkey and signature for CHECKSIGVERIFY") state
  else
    let new_state := deepCopy state in
    try_catch state new_state
      (main_pop ;;
       main_pop ;;
       main_push (VNum Num.one) ;;
       verify_top state).

Definition OP_DEPTH (state : State) : OpResult :=
  let new_state := deepCopy state in
  NewState (mkState
              (Stack.push (main new_state)
                 (VNum (Num.of_nat (Stack.size (main new_state)))))
              (alt new_state) (if_result new_state)).

Definition OP_DROP (state : State) : OpResult :=
  if Nat.ltb (Stack.size (main state)) 1
  then error (Message "Need one item for DROP") state
  else
    let new_state := deepCopy state in
    try_catch state new_state
      (main_pop ;;
       return_new_state).

Definition OP_DUP (state : State) : OpResult :=
  if Nat.eqb (Stack.size (main state)) 0
  then error (Message "Stack underflow") state
  else
    let new_state := deepCopy state in
    try_catch state new_state
      (val <- main_peek ;;
       main_push val ;;
       return_new_state).

Definition OP_ELSE (state : State) : OpResult :=
  match if_result state with
  | None => error (Message "ELSE without matching IF") state
  | Some b =>
      let new_state := deepCopy state in
      NewState (mkState (main new_state) (alt new_state) (Some (negb b)))
  end.

Definition OP_ENDIF (state : State) : OpResult :=
  let new_state := deepCopy state in
  NewState (mkState (main new_state) (alt new_state) None).

Definition OP_EQUAL (state : State) : OpResult :=
  if Nat.ltb (Stack.size (main state)) 2
  then error (Message "Need two items for EQUAL") state
  else
    let new_state := deepCopy state in
    try_catch state new_state
      (a <- main_pop ;;
       b <- main_pop ;;
       main_push (bool_number (strict_equal a b)) ;;
       return_new_state).

Definition OP_EQUALVERIFY (state : State) : OpResult :=
  if Nat.ltb (Stack.size (main state)) 2
  then error (Message "Need two items for EQUALVERIFY") state
  else
    let new_state := deepCopy state in
    try_catch state new_state
      (a <- main_pop ;;
       b <- main_pop ;;
       main_push (bool_number (strict_equal a b)) ;;
       verify_top state).

Definition OP_FROMALTSTACK (state : State) : OpResult :=
  if Nat.eqb (Stack.size (alt state)) 0
  then error (Message "Alt stack underflow") state
  else
    let new_state := deepCopy state in
    try_catch state new_state
      (val <- alt_pop ;;
       main_push val ;;
       return_new_state).

Definition OP_GREATERTHAN (state : State) : OpResult :=
  if Nat.ltb (Stack.size (main state)) 2
  then error (Message "Need two items for GREATERTHAN") state
  else
    let new_state := deepCopy state in
    try_catch state new_state
      (a <- main_pop ;;
       b <- main_pop ;;
       num_a <- num a ;;
       num_b <- num b ;;
       main_push (bool_number (Num.gtb num_b num_a)) ;;
       return_new_state).

Definition OP_GREATERTHANOREQUAL (state : State) : OpResult :=
  if Nat.ltb (Stack.size (main state)) 2
  then error (Message "Need two items for GREATERTHANOREQUAL") state
  else
    let new_state := deepCopy state in
    try_catch state new_state
      (a <- main_pop ;;
       b <- main_pop ;;
       num_a <- num a ;;
       num_b <- num b ;;
       main_push (bool_number (Num.geb num_b num_a)) ;;
       return_new_state).

Definition OP_HASH (state : State) : OpResult :=
  if Nat.ltb (Stack.size (main state)) 1
  then error (Message "Stack underflow") state
  else
    let new_state := deepCopy state in
    try_catch state new_state
      (val <- main_pop ;;
       main_push (VStr ("Hash(" ++ String_ val ++ ")")%string) ;;
       return_new_state).

Definition OP_IF (state : State) : OpResult :=
  if Nat.ltb (Stack.size (main state)) 1
  then error (Message "Need one item for IF") state
  else
    let new_state := deepCopy state in
    try_catch state new_state
      (condition <- main_pop ;;
       num_condition <- num condition ;;
       set_if_result (Num.neqb num_condition Num.zero) ;;
       return_new_state).

Definition OP_IFDUP (state : State) : OpResult :=
  if Nat.eqb (Stack.size (main state)) 0
  then error (Message "Need one item for IFDUP") state
  else
    let new_state := deepCopy state in
    try_catch state new_state
      (val <- main_peek ;;
       num_condition <- num val ;;
       (if Num.neqb num_condition Num.zero
        then main_push val
        else ret tt) ;;
       return_new_state).

Definition OP_LESSTHAN (state : State) : OpResult :=
  if Nat.ltb (Stack.size (main state)) 2
  then error (Message "Need two items for LESSTHAN") state
  else
    let new_state := deepCopy state in
    try_catch state new_state
      (a <- main_pop ;;
       b <- main_pop ;;
       num_a <- num a ;;
       num_b <- num b ;;
       main_push (bool_number (Num.ltb num_b num_a)) ;;
       return_new_state).

Definition OP_LESSTHANOREQUAL (state : State) : OpResult :=
  if Nat.ltb (Stack.size (main state)) 2
  then error (Message "Need two items for LESSTHANOREQUAL") state
  else
    let new_state := deepCopy state in
    try_catch state new_state
      (a <- main_pop ;;
       b <- main_pop ;;
       num_a <- num a ;;
       num_b <- num b ;;
       main_push (bool_number (Num.leb num_b num_a)) ;;
       return_new_state).

Definition OP_MAX (state : State) : OpResult :=
  if Nat.ltb (Stack.size (main state)) 2
  then error (Message "Need two items for MAX") state
  else
    let new_state := deepCopy state in
    try_catch state new_state
      (a <- main_pop ;;
       b <- main_pop ;;
       num_a <- num a ;;
       num_b <- num b ;;
       main_push (VNum (Num.max num_a num_b)) ;;
       return_new_state).

Definition OP_MIN (state : State) : OpResult :=
  if Nat.ltb (Stack.size (main state)) 2
  then error (Message "Need two items for MIN") state
  else
    let new_state := deepCopy state in
    try_catch state new_state
      (a <- main_pop ;;
       b <- main_pop ;;
       num_a <- num a ;;
       num_b <- num b ;;
       main_push (VNum (Num.min num_a num_b)) ;;
       return_new_state).

Definition OP_NEGATE (state : State) : OpResult :=
  if Nat.ltb (Stack.size (main state)) 1
  then error (Message "Need one item for NEGATE") state
  else
    let new_state := deepCopy state in
    try_catch state new_state
      (val <- main_pop ;;
       num_val <- num val ;;
       main_push (VNum (Num.neg num_val)) ;;
       return_new_state).

Definition OP_NIP (state : State) : OpResult :=
  if Nat.ltb (Stack.size (main state)) 2
  then error (Message "Need two items for NIP") state
  else
    let new_state := deepCopy state in
    try_catch state new_state
      (top <- main_pop ;;
       main_pop ;;
       main_push top ;;
       return_new_state).

Definition OP_NOP (state : State) : OpResult :=
  NewState state.

Definition OP_NOT (state : State) : OpResult :=
  if Nat.ltb (Stack.size (main state)) 1
  then error (Message "Need one item for NOT") state
  else
    let new_state := deepCopy state in
    try_catch state new_state
      (val <- main_pop ;;
       num_val <- num val ;;
       main_push (bool_number (Num.eqb num_val Num.zero)) ;;
       return_new_state).

Definition OP_NOTIF (state : State) : OpResult :=
  if Nat.ltb (Stack.size (main state)) 1
  then error (Message "Need one item for NOTIF") state
  else
    let new_state := deepCopy state in
    try_catch state new_state
      (condition <- main_pop ;;
       num_condition <- num condition ;;
       set_if_result (Num.eqb num_condition Num.zero) ;;
       return_new_state).

Definition OP_NUMEQUAL (state : State) : OpResult :=
  if Nat.ltb (Stack.size (main state)) 2
  then error (Message "Need two items for NUMEQUAL") state
  else
    let new_state := deepCopy state in
    try_catch state new_state
      (a <- main_pop ;;
       b <- main_pop ;;
       num_a <- num a ;;
       num_b <- num b ;;
       main_push (bool_number (Num.eqb num_b num_a)) ;;
       return_new_state).

Definition OP_NUMEQUALVERIFY (state : State) : OpResult :=
  if Nat.ltb (Stack.size (main state)) 2
  then error (Message "Need two items for NUMEQUALVERIFY") state
  else
    let new_state := deepCopy state in
    try_catch state new_state
      (a <- main_pop ;;
       b <- main_pop ;;
       num_a <- num a ;;
       num_b <- num b ;;
       main_push (bool_number (Num.eqb num_b num_a)) ;;
       verify_top state).

Definition OP_NUMNOTEQUAL (state : State) : OpResult :=
  if Nat.ltb (Stack.size (main state)) 2
  then error (Message "Need two items for NUMNOTEQUAL") state
  else
    let new_state := deepCopy state in
    try_catch state new_state
      (a <- main_pop ;;
       b <- main_pop ;;
       num_a <- num a ;;
       num_b <- num b ;;
       main_push (bool_number (Num.neqb num_b num_a)) ;;
       return_new_state).

Definition OP_OVER (state : State) : OpResult :=
  if Nat.ltb (Stack.size (main state)) 2
  then error (Message "Need two items for OVER") state
  else
    let new_state := deepCopy state in
    try_catch state new_state
      (second <- main_peekNth Num.one ;;
       main_push second ;;
       return_new_state).

Definition OP_PICK (state : State) : OpResult :=
  if Nat.ltb (Stack.size (main state)) 1
  then error (Message "Need index for PICK") state
  else
    let new_state := deepCopy state in
    try_catch state new_state
      (n <- main_pop ;;
       num_n <- num n ;;
       size <- main_size ;;
       if Num.ltb (Num.of_nat size) (Num.add num_n Num.one)
       then ret (error (Message "Stack too small for PICK") state)
       else
         item <- main_peekNth num_n ;;
         main_push item ;;
         return_new_state).

Definition OP_ROLL (state : State) : OpResult :=
  if Nat.ltb (Stack.size (main state)) 1
  then error (Message "Need index for ROLL") state
  else
    let new_state := deepCopy state in
    try_catch state new_state
      (n <- main_pop ;;
       num_n <- num n ;;
       size <- main_size ;;
       if Num.ltb (Num.of_nat size) (Num.add num_n Num.one)
       then ret (error (Message "Stack too small for ROLL") state)
       else
         temp_stack <-
           for_lt (S size) 0 num_n
             (fun temp_stack => v <- main_pop ;; ret (temp_stack ++ [v])) [] ;;
         element_to_top <- main_pop ;;
         for_lt (S (List.length temp_stack)) 0 num_n
           (fun temp_stack =>
              let (v, rest) := array_pop temp_stack in
              main_push v ;; ret rest) temp_stack ;;
         main_push element_to_top ;;
         return_new_state).

Definition OP_ROT (state : State) : OpResult :=
  if Nat.ltb (Stack.size (main state)) 3
  then error (Message "Need three items for ROT") state
  else
    let new_state := deepCopy state in
    try_catch state new_state
      (a <- main_pop ;;
       b <- main_pop ;;
       c <- main_pop ;;
       main_push b ;;
       main_push a ;;
       main_push c ;;
       return_new_state).

(** [val.length] is the number of code units of the text, one for each
    of its characters. *)
Definition OP_SIZE (state : State) : OpResult :=
  if Nat.ltb (Stack.size (main state)) 1
  then error (Message "Need one item for SIZE") state
  else
    let new_state := deepCopy state in
    try_catch state new_state
      (top <- main_peek ;;
       let val := String_ top in
       main_push (VNum (Num.of_nat (String.length val))) ;;
       return_new_state).

Definition OP_SUB (state : State) : OpResult :=
  if Nat.ltb (Stack.size (main state)) 2
  then error (Message "Need two items for SUB") state
  else
    let new_state := deepCopy state in
    try_catch state new_state
      (a <- main_pop ;;
       b <- main_pop ;;
       num_a <- num a ;;
       num_b <- num b ;;
       main_push (VNum (Num.sub num_b num_a)) ;;
       return_new_state).

Definition OP_SWAP (state : State) : OpResult :=
  if Nat.ltb (Stack.size (main state)) 2
  then error (Message "Need two items for SWAP") state
  else
    let new_state := deepCopy state in
    try_catch state new_state
      (a <- main_pop ;;
       b <- main_pop ;;
       main_push a ;;
       main_push b ;;
       return_new_state).

Definition OP_TOALTSTACK (state : State) : OpResult :=
  if Nat.eqb (Stack.size (main state)) 0
  then error (Message "Stack underflow") state
  else
    let new_state := deepCopy state in
    try_catch state new_state
      (val <- main_pop ;;
       alt_push val ;;
       return_new_state).

Definition OP_TUCK (state : State) : OpResult :=
  if Nat.ltb (Stack.size (main state)) 2
  then error (Message "Need two items for TUCK") state
  else
    let new_state := deepCopy state in
    try_catch state new_state
      (a <- main_pop ;;
       b <- main_pop ;;
       main_push a ;;
       main_push b ;;
       main_push a ;;
       return_new_state).

Definition OP_VERIFY (state : State) : OpResult :=
  if Nat.ltb (Stack.size (main state)) 1
  then error (Message "Need one item for VERIFY") state
  else
    let new_state := deepCopy state in
    try_catch state new_state
      (verify_top state).

Definition OP_WITHIN (state : State) : OpResult :=
  if Nat.ltb (Stack.size (main state)) 3
  then error (Message "Need three items for WITHIN") state
  else
    let new_state := deepCopy state in
    try_catch state new_state
      (max <- main_pop ;;
       min <- main_pop ;;
       x <- main_pop ;;
       num_max <- num max ;;
       num_min <- num min ;;
       num_x <- num x ;;
       main_push (bool_number (Num.geb num_x num_min && Num.ltb num_x num_max)) ;;
       return_new_state).

Definition OpcodeFunction : Type := State -> OpResult.

(** The object [opcodeList], as its list of own properties in source
    order. *)
Definition opcodeList : list (string * OpcodeFunction) :=
  [ ("OP_0NOTEQUAL", OP_0NOTEQUAL);
    ("OP_1ADD", OP_1ADD);
    ("OP_1SUB", OP_1SUB);
    ("OP_2DROP", OP_2DROP);
    ("OP_2DUP", OP_2DUP);
    ("OP_2OVER", OP_2OVER);
    ("OP_2ROT", OP_2ROT);
    ("OP_2SWAP", OP_2SWAP);
    ("OP_3DUP", OP_3DUP);
    ("OP_ABS", OP_ABS);
    ("OP_ADD", OP_ADD);
    ("OP_BOOLAND", OP_BOOLAND);
    ("OP_BOOLOR", OP_BOOLOR);
    ("OP_CAT", OP_CAT);
    ("OP_CHECKMULTISIG", OP_CHECKMULTISIG);
    ("OP_CHECKMULTISIGVERIFY", OP_CHECKMULTISIGVERIFY);
    ("OP_CHECKSIG", OP_CHECKSIG);
    ("OP_CHECKSIGADD", OP_CHECKSIGADD);
    ("OP_CHECKSIGVERIFY", OP_CHECKSIGVERIFY);
    ("OP_DEPTH", OP_DEPTH);
    ("OP_DROP", OP_DROP);
    ("OP_DUP", OP_DUP);
    ("OP_ELSE", OP_ELSE);
    ("OP_ENDIF", OP_ENDIF);
    ("OP_EQUAL", OP_EQUAL);
    ("OP_EQUALVERIFY", OP_EQUALVERIFY);
    ("OP_FROMALTSTACK", OP_FROMALTSTACK);
    ("OP_GREATERTHAN", OP_GREATERTHAN);
    ("OP_GREATERTHANOREQUAL", OP_GREATERTHANOREQUAL);
    ("OP_HASH", OP_HASH);
    ("OP_IF", OP_IF);
    ("OP_IFDUP", OP_IFDUP);
    ("OP_LESSTHAN", OP_LESSTHAN);
    ("OP_LESSTHANOREQUAL", OP_LESSTHANOREQUAL);
    ("OP_MAX", OP_MAX);
    ("OP_MIN", OP_MIN);
    ("OP_NEGATE", OP_NEGATE);
    ("OP_NIP", OP_NIP);
    ("OP_NOP", OP_NOP);
    ("OP_NOT", OP_NOT);
    ("OP_NOTIF", OP_NOTIF);
    ("OP_NUMEQUAL", OP_NUMEQUAL);
    ("OP_NUMEQUALVERIFY", OP_NUMEQUALVERIFY);
    ("OP_NUMNOTEQUAL", OP_NUMNOTEQUAL);
    ("OP_OVER", OP_OVER);
    ("OP_PICK", OP_PICK);
    ("OP_ROLL", OP_ROLL);
    ("OP_ROT", OP_ROT);
    ("OP_SIZE", OP_SIZE);
    ("OP_SUB", OP_SUB);
    ("OP_SWAP", OP_SWAP);
    ("OP_TOALTSTACK", OP_TOALTSTACK);
    ("OP_TUCK", OP_TUCK);
    ("OP_VERIFY", OP_VERIFY);
    ("OP_WITHIN", OP_WITHIN) ].

(** [customOpcodeList["OP_NUMBER"]] *)
Definition OP_NUMBER (n : number) : OpcodeFunction :=
  fun state =>
    let new_state := deepCopy state in
    NewState (mkState (Stack.push (main new_state) (VNum n))
                (alt new_state) (if_result new_state)).

(** The object [customOpcodeList]. *)
Definition customOpcodeList : list (string * (number -> OpcodeFunction)) :=
  [ ("OP_NUMBER", OP_NUMBER) ].

End Opcodes.

(** [table[key]]: the own property [key] of an object literal, or
    [undefined]. *)
Fixpoint lookup {A} (table : list (string * A)) (key : string) : option A :=
  match table with
  | [] => None
  | (k, v) :: rest => if String.eqb k key then Some v else lookup rest key
  end.

(* ===================================================================== *)
(** ** Tokens: the regular expressions and [eval] of a numeric literal *)
(* ===================================================================== *)

Module Lex.

Definition code (c : ascii) : nat := nat_of_ascii c.
Definition between (lo hi : nat) (c : ascii) : bool :=
  (Nat.leb lo (code c) && Nat.leb (code c) hi)%bool.

Definition is_digit : ascii -> bool := between 48 57.          (* \d, [0-9] *)
Definition is_octal : ascii -> bool := between 48 55.          (* [0-7] *)
Definition is_hex (c : ascii) : bool :=                        (* [0-9a-fA-F] *)
  (is_digit c || between 97 102 c || between 65 70 c)%bool.
Definition is_word (c : ascii) : bool :=                       (* \w *)
  (is_digit c || between 97 122 c || between 65 90 c || Nat.eqb (code c) 95)%bool.
Definition is_space (c : ascii) : bool :=              (* \s, and trimmed by trim() *)
  (between 9 13 c || Nat.eqb (code c) 32 || Nat.eqb (code c) 160)%bool.

(** The longest prefix of characters in a class, and the rest. *)
Fixpoint span (p : ascii -> bool) (l : list ascii) : list ascii * list ascii :=
  match l with
  | c :: rest =>
      if p c then let (taken, after) := span p rest in (c :: taken, after)
      else ([], l)
  | [] => ([], [])
  end.

(** [\b] between the character [prev] and the text [next]. *)
Definition word_boundary (prev : option ascii) (next : list ascii) : bool :=
  xorb (match prev with Some c => is_word c | None => false end)
       (match next with c :: _ => is_word c | [] => false end).

(** [OP_\w+] at the start of [l]. *)
Definition alt_mnemonic (l : list ascii) : option (list ascii) :=
  match l with
  | "O"%char :: "P"%char :: "_"%char :: rest =>
      match span is_word rest with
      | ([], _) => None
      | (w, _) => Some ("O"%char :: "P"%char :: "_"%char :: w)
      end
  | _ => None
  end.

(** [digit+\b] at the start of [l]: the digits are word characters, so
    the match exists exactly when the longest run of digits ends at a
    word boundary. *)
Definition digits_then_boundary (digit : ascii -> bool) (l : list ascii)
  : option (list ascii) :=
  match span digit l with
  | ([], _) => None
  | (ds, after) =>
      match after with
      | c :: _ => if is_word c then None else Some ds
      | [] => Some ds
      end
  end.

(** [0[pP]digit+\b] at the start of [l], with a leading [\b] when
    [lead] is set. *)
Definition alt_prefixed (lead : bool) (p : ascii) (digit : ascii -> bool)
    (prev : option ascii) (l : list ascii) : option (list ascii) :=
  match l with
  | "0"%char :: c :: rest =>
      if ((Ascii.eqb c p || Nat.eqb (code c + 32) (code p))
          && (negb lead || word_boundary prev l))%bool
      then match digits_then_boundary digit rest with
           | Some ds => Some ("0"%char :: c :: ds)
           | None => None
           end
      else None
  | _ => None
  end.

(** [\b\d+\b] at the start of [l]. *)
Definition alt_decimal (prev : option ascii) (l : list ascii)
  : option (list ascii) :=
  if word_boundary prev l then digits_then_boundary is_digit l else None.

Definition first_of {A} (x y : option A) : option A :=
  match x with Some _ => x | None => y end.

(** The leftmost match of a pattern, tried at every position. *)
Fixpoint search (alts : option ascii -> list ascii -> option (list ascii))
    (prev : option ascii) (l : list ascii) : option (list ascii) :=
  match alts prev l with
  | Some m => Some m
  | None =>
      match l with
      | c :: rest => search alts (Some c) rest
      | [] => None
      end
  end.

(** [/(OP_\w+|\b0[oO][0-7]+\b|\b0[xX][0-9a-fA-F]+\b|\b\d+\b)(?=,)?/]
    of [processLine]; the optional look-ahead constrains nothing. *)
Definition line_pattern (prev : option ascii) (l : list ascii) :=
  first_of (alt_mnemonic l)
    (first_of (alt_prefixed true "o" is_octal prev l)
       (first_of (alt_prefixed true "x" is_hex prev l)
          (alt_decimal prev l))).

(** [lineText.match(...)[0]], when there is a match. *)
Definition line_token (lineText : string) : option string :=
  match search line_pattern None (list_ascii_of_string lineText) with
  | Some m => Some (string_of_list_ascii m)
  | None => None
  end.

(** [opcode.match(/OP_\w+/)] as a condition. *)
Definition has_mnemonic (opcode : string) : bool :=
  match search (fun _ l => alt_mnemonic l) None (list_ascii_of_string opcode) with
  | Some _ => true
  | None => false
  end.

(** [/(0[oO][0-7]+\b|\b0[xX][0-9a-fA-F]+\b|\b\d+\b)(?=,)?/] of
    [convertNumbers]: the octal alternative has no leading [\b]. *)
Definition number_pattern (prev : option ascii) (l : list ascii) :=
  first_of (alt_prefixed false "o" is_octal prev l)
    (first_of (alt_prefixed true "x" is_hex prev l)
       (alt_decimal prev l)).

Definition has_number (opcode : string) : bool :=
  match search number_pattern None (list_ascii_of_string opcode) with
  | Some _ => true
  | None => false
  end.

(** [s.trim()]: the white space and line terminators of the language
    with a code below 256 are the tab, the four line and page breaks,
    the space and the no-break space. *)
Fixpoint drop_space (l : list ascii) : list ascii :=
  match l with
  | c :: rest => if is_space c then drop_space rest else l
  | [] => []
  end.

Definition trim (s : string) : string :=
  string_of_list_ascii
    (List.rev (drop_space (List.rev (drop_space (list_ascii_of_string s))))).

(** The value of a digit character in base 16 (and below). *)
Definition digit_value (c : ascii) : Z :=
  if is_digit c then Z.of_nat (code c - 48)
  else if between 97 102 c then Z.of_nat (code c - 87)
  else Z.of_nat (code c - 55).

Definition value_in_base (base : Z) (ds : list ascii) : Z :=
  List.fold_left (fun acc c => (acc * base + digit_value c)%Z) ds 0%Z.

(** The mathematical value of a text that is, as a whole, an integer
    literal of the language: [0x..], [0o..], decimal digits, or (the
    code is not strict) digits with a leading zero, read in base 8
    when all of them are octal digits. *)
Definition literal_value (s : string) : option Z :=
  match list_ascii_of_string s with
  | "0"%char :: c :: (d :: _) as ds =>
      if ((Ascii.eqb c "x" || Ascii.eqb c "X") && List.forallb is_hex ds)%bool
      then Some (value_in_base 16 ds)
      else if ((Ascii.eqb c "o" || Ascii.eqb c "O") && List.forallb is_octal ds)%bool
      then Some (value_in_base 8 ds)
      else if List.forallb is_octal (c :: ds)
      then Some (value_in_base 8 (c :: ds))
      else if List.forallb is_digit (c :: ds)
      then Some (value_in_base 10 (c :: ds))
      else None
  | "0"%char :: c :: [] =>
      if is_octal c then Some (digit_value c)
      else if is_digit c then Some (digit_value c)
      else None
  | c :: ds =>
      if List.forallb is_digit (c :: ds)
      then Some (value_in_base 10 (c :: ds))
      else None
  | [] => None
  end.

(** A name that starts with [OP_] and goes on with word characters: an
    identifier of the language that nothing binds, neither
    [converter.js] nor the global object. *)
Definition unbound_name (opcode : string) : bool :=
  match list_ascii_of_string opcode with
  | "O"%char :: "P"%char :: "_"%char :: w => List.forallb is_word w
  | _ => false
  end.

(** The error that [eval] throws for a name that is not bound. *)
Inductive EvalError : Type :=
| ReferenceError (message : string).

(** [eval(opcode)].  For an integer literal it returns the number
    nearest to its value; for an unbound name it throws
    [ReferenceError: <name> is not defined].  [None] stands for any
    other text, whose evaluation is outside this model; no token of
    [processLine] is such a text ([token_is_evaluated] below). *)
Definition eval (opcode : string) : option (EvalError + number) :=
  match literal_value opcode with
  | Some v => Some (inr (Num.of_Z v))
  | None =>
      if unbound_name opcode
      then Some (inl (ReferenceError (opcode ++ " is not defined")))
      else None
  end.

End Lex.

(* ===================================================================== *)
(** ** The opcode normalizer ([src/converter.js]) *)
(* ===================================================================== *)

(** [convertedOp]: [{ op, val }], [val] being optional. *)
Record convertedOp : Type := mkOp {
  op : string;
  val : option number
}.

(** [convertNop] *)
Definition convertNop (opcode : string) : string :=
  let t := Lex.trim opcode in
  if (String.eqb t "OP_CHECKLOCKTIMEVERIFY"
      || String.eqb t "OP_CHECKSEQUENCEVERIFY"
      || String.eqb t "OP_PUSHDATA1"
      || String.eqb t "OP_PUSHDATA2"
      || String.eqb t "OP_PUSHDATA4"
      || String.eqb t "OP_CODESEPARATOR")%bool
  then "OP_NOP"
  else opcode.

(** [convertHash] *)
Definition convertHash (opcode : string) : string :=
  let t := Lex.trim opcode in
  if (String.eqb t "OP_RIPEMD160"
      || String.eqb t "OP_SHA1"
      || String.eqb t "OP_SHA256"
      || String.eqb t "OP_HASH160"
      || String.eqb t "OP_HASH256")%bool
  then "OP_HASH"
  else opcode.

(** The [switch] of [convertNumbers] on the named constants. *)
Definition named_constants : list (string * Z) :=
  [ ("OP_0", 0); ("OP_FALSE", 0); ("OP_1NEGATE", -1); ("OP_1", 1);
    ("OP_TRUE", 1); ("OP_2", 2); ("OP_3", 3); ("OP_4", 4); ("OP_5", 5);
    ("OP_6", 6); ("OP_7", 7); ("OP_8", 8); ("OP_9", 9); ("OP_10", 10);
    ("OP_11", 11); ("OP_12", 12); ("OP_13", 13); ("OP_14", 14);
    ("OP_15", 15); ("OP_16", 16) ]%Z.

(** [convertNumbers]: [inr] is the object it returns, [inl] the error
    that [eval] throws, which nothing in the function catches.  The
    result is [None] when [eval] is reached on a text outside the model
    (see [Lex.eval]). *)
Definition convertNumbers (opcode : string)
  : option (Lex.EvalError + convertedOp) :=
  let named :=
    if Lex.has_mnemonic opcode then lookup named_constants opcode else None in
  match named with
  | Some n => Some (inr (mkOp "OP_NUMBER" (Some (Num.of_Z n))))
  | None =>
      if Lex.has_number opcode
      then match Lex.eval opcode with
           | Some (inr num) =>
               if Z.leb (Num.radix2_length num) 4160
               then Some (inr (mkOp "OP_PUSHBYTES" (Some num)))
               else Some (inr (mkOp opcode None))
           | Some (inl e) => Some (inl e)
           | None => None
           end
      else Some (inr (mkOp opcode None))
  end.

(** [convertOpcode] *)
Definition convertOpcode (opcode : string)
  : option (Lex.EvalError + convertedOp) :=
  convertNumbers (convertHash (convertNop opcode)).

(* ===================================================================== *)
(** ** The execution driver ([processLine] of [extension.js]) *)
(* ===================================================================== *)

(** [GlobalState] *)
Record GlobalState : Type := mkGlobal {
  shouldContinue : bool;
  shouldRender : bool;
  innerState : State
}.

(** [Ok(value)] builds [{ ok: true, value }]. *)
Inductive Result : Type :=
| Ok (value : bool).

(** A call of [processLine] returns a [Result], or [Err(error)] throws a
    [ResultException] made from the error of the opcode, or the error
    that [eval] throws in the normalizer passes through the call, which
    has no [try] around it. *)
Inductive Outcome : Type :=
| Returns (r : Result)
| Throws (error : ErrorValue)
| Propagates (e : Lex.EvalError).

Section Driver.
Context {B : Builtins}.

(** The statements after the [switch]: [newState] is the local
    variable ([None] while it is unassigned). *)
Definition finish (processed : bool) (newState : option OpResult)
    (g : GlobalState) : option (Outcome * GlobalState) :=
  if processed then
    match newState with
    | Some (StateError e _) =>
        Some (Throws e, mkGlobal false (shouldRender g) (innerState g))
    | Some (NewState s) =>
        Some (Returns (Ok true), mkGlobal (shouldContinue g) (shouldRender g) s)
    | None => None
    end
  else Some (Returns (Ok true), g).

(** [newState.if_result] read as a condition ([undefined] is falsy). *)
Definition if_result_flag (s : State) : bool :=
  match if_result s with Some b => b | None => false end.

(** The part of [processLine] that follows the normalization. *)
Definition dispatch (convertedOpcode : convertedOp) (globalState : GlobalState)
  : option (Outcome * GlobalState) :=
  let newState : option OpResult :=
    match val convertedOpcode with
    | Some v =>
        match lookup customOpcodeList (op convertedOpcode) with
        | Some opcodeFn => Some (opcodeFn v (innerState globalState))
        | None => None
        end
    | None => None
    end in
  match lookup opcodeList (op convertedOpcode) with
  | Some opcodeFn =>
      if (String.eqb (op convertedOpcode) "OP_IF"
          || String.eqb (op convertedOpcode) "OP_NOTIF")%bool
      then
        let newState := opcodeFn (innerState globalState) in
        let continue :=
          match newState with
          | NewState s => if_result_flag s
          | StateError _ _ => shouldContinue globalState
          end in
        finish true (Some newState)
          (mkGlobal continue false (innerState globalState))
      else if String.eqb (op convertedOpcode) "OP_ELSE"
      then
        finish false newState
          (mkGlobal (negb (shouldContinue globalState)) false
             (innerState globalState))
      else if String.eqb (op convertedOpcode) "OP_ENDIF"
      then
        let newState := opcodeFn (innerState globalState) in
        finish true (Some newState)
          (mkGlobal true false (innerState globalState))
      else
        if shouldContinue globalState
        then
          let newState := opcodeFn (innerState globalState) in
          finish true (Some newState)
            (mkGlobal (shouldContinue globalState) true (innerState globalState))
        else
          finish false newState
            (mkGlobal (shouldContinue globalState) true (innerState globalState))
  | None => finish false newState globalState
  end.

(** [processLine(lineText, globalState)]: the outcome and the global
    state as the call leaves it.  An error of the normalizer is thrown
    before the global state is touched.  [None] only when the
    normalizer leaves the model, which no line makes it do
    ([processLine_has_an_outcome] below). *)
Definition processLine (lineText : string) (globalState : GlobalState)
  : option (Outcome * GlobalState) :=
  match Lex.line_token lineText with
  | Some token =>
      match convertOpcode token with
      | Some (inr convertedOpcode) => dispatch convertedOpcode globalState
      | Some (inl e) => Some (Propagates e, globalState)
      | None => None
      end
  | None => Some (Returns (Ok true), globalState)
  end.

End Driver.

(* ===================================================================== *)
(** ** An instance of the conversions, for decimal integers *)
(* ===================================================================== *)

(** The theorems below hold for every pair of conversions.  To run the
    definitions on concrete stacks an instance is needed; this one agrees
    with the language on the texts and numbers used in this file.
    [Number(s)]: white space around the text is dropped; the empty text
    is 0; an optionally signed run of decimal digits (always read in
    base 10), ["Infinity"] with an optional sign, and the unsigned
    [0x], [0o] and [0b] notations have their value; a text that is not
    numeric gives NaN.  Decimal fractions and exponents are not covered.
    [String(x)]: NaN, the infinities and the integers below 10^21. *)

Definition decimal_digits (ds : list ascii) : option Z :=
  match ds with
  | [] => None
  | _ => if List.forallb Lex.is_digit ds
         then Some (Lex.value_in_base 10 ds) else None
  end.

Definition is_binary_digit : ascii -> bool := Lex.between 48 49.

Definition prefixed_digits (ds : list ascii) : option Z :=
  match ds with
  | "0"%char :: c :: (_ :: _) as digits =>
      if ((Ascii.eqb c "x" || Ascii.eqb c "X") && List.forallb Lex.is_hex digits)%bool
      then Some (Lex.value_in_base 16 digits)
      else if ((Ascii.eqb c "o" || Ascii.eqb c "O")
               && List.forallb Lex.is_octal digits)%bool
      then Some (Lex.value_in_base 8 digits)
      else if ((Ascii.eqb c "b" || Ascii.eqb c "B")
               && List.forallb is_binary_digit digits)%bool
      then Some (Lex.value_in_base 2 digits)
      else None
  | _ => None
  end.

Definition Number_of_decimal (s : string) : number :=
  let t := Lex.trim s in
  if String.eqb t "" then Num.zero
  else if (String.eqb t "Infinity" || String.eqb t "+Infinity")%bool
  then Num.Infinity
  else if String.eqb t "-Infinity" then Num.neg Num.Infinity
  else
    match prefixed_digits (list_ascii_of_string t) with
    | Some v => Num.of_Z v
    | None =>
        match list_ascii_of_string t with
        | "-"%char :: ds =>
            match decimal_digits ds with
            | Some v => Num.neg (Num.of_Z v)
            | None => Num.NaN
            end
        | "+"%char :: ds =>
            match decimal_digits ds with
            | Some v => Num.of_Z v
            | None => Num.NaN
            end
        | ds =>
            match decimal_digits ds with
            | Some v => Num.of_Z v
            | None => Num.NaN
            end
        end
    end.

Fixpoint decimal_text (fuel : nat) (n : Z) (acc : string) : string :=
  match fuel with
  | O => acc
  | S fuel' =>
      let d := ascii_of_nat (48 + Z.to_nat (n mod 10)) in
      if Z.ltb n 10 then String d acc
      else decimal_text fuel' (n / 10) (String d acc)
  end.

Definition String_of_integer (x : number) : string :=
  match x with
  | S754_nan => "NaN"
  | S754_infinity s => if s then "-Infinity" else "Infinity"
  | _ =>
      match Num.to_integer x with
      | Some z =>
          let digits := decimal_text 400 (Z.abs z) "" in
          if Z.ltb z 0 then String "-" digits else digits
      | None => "NaN"
      end
  end.

#[global] Instance decimal_integers : Builtins := {
  StringToNumber := Number_of_decimal;
  NumberToString := String_of_integer
}.

(* ===================================================================== *)
(** ** Operand counts and underflow reports *)
(* ===================================================================== *)

(** For each opcode that needs operands on [main]: the depth its guard
    asks for, and the error it reports below that depth.  [OP_1ADD] and
    [OP_1SUB] have no guard of their own; their [pop] throws on the empty
    stack and the [catch] clause reports the exception.  [OP_DEPTH],
    [OP_NOP], [OP_ELSE], [OP_ENDIF] and [OP_FROMALTSTACK] take nothing
    from [main]. *)
Definition stack_is_empty : ErrorValue :=
  Caught (ResultException "Oops, the stack is empty!").

Definition depth_guards : list (string * (nat * ErrorValue)) :=
  [ ("OP_0NOTEQUAL", (1, Message "Need one item for 0NOTEQUAL"));
    ("OP_1ADD", (1, stack_is_empty));
    ("OP_1SUB", (1, stack_is_empty));
    ("OP_2DROP", (2, Message "Need two items for 2DROP"));
    ("OP_2DUP", (2, Message "requires two items for 2DUP"));
    ("OP_2OVER", (4, Message "requires four items for 2OVER"));
    ("OP_2ROT", (6, Message "Need six items for 2ROT"));
    ("OP_2SWAP", (4, Message "Need four items for 2SWAP"));
    ("OP_3DUP", (3, Message "Need three items for 3DUP"));
    ("OP_ABS", (1, Message "Need one item for ABS"));
    ("OP_ADD", (2, Message "Need two items for ADD"));
    ("OP_BOOLAND", (2, Message "Need two items for BOOLAND"));
    ("OP_BOOLOR", (2, Message "Need two items for BOOLOR"));
    ("OP_CAT", (2, Message "Need two items for CAT"));
    ("OP_CHECKMULTISIG", (1, Message "Need number of pubkeys for CHECKMULTISIG"));
    ("OP_CHECKMULTISIGVERIFY",
      (1, Message "Need number of pubkeys for CHECKMULTISIGVERIFY"));
    ("OP_CHECKSIG", (2, Message "Need pubkey and signature for CHECKSIG"));
    ("OP_CHECKSIGADD",
      (3, Message "Need number, pubkey, and signature for CHECKSIGADD"));
    ("OP_CHECKSIGVERIFY",
      (2, Message "Need pubkey and signature for CHECKSIGVERIFY"));
    ("OP_DROP", (1, Message "Need one item for DROP"));
    ("OP_DUP", (1, Message "Stack underflow"));
    ("OP_EQUAL", (2, Message "Need two items for EQUAL"));
    ("OP_EQUALVERIFY", (2, Message "Need two items for EQUALVERIFY"));
    ("OP_GREATERTHAN", (2, Message "Need two items for GREATERTHAN"));
    ("OP_GREATERTHANOREQUAL",
      (2, Message "Need two items for GREATERTHANOREQUAL"));
    ("OP_HASH", (1, Message "Stack underflow"));
    ("OP_IF", (1, Message "Need one item for IF"));
    ("OP_IFDUP", (1, Message "Need one item for IFDUP"));
    ("OP_LESSTHAN", (2, Message "Need two items for LESSTHAN"));
    ("OP_LESSTHANOREQUAL", (2, Message "Need two items for LESSTHANOREQUAL"));
    ("OP_MAX", (2, Message "Need two items for MAX"));
    ("OP_MIN", (2, Message "Need two items for MIN"));
    ("OP_NEGATE", (1, Message "Need one item for NEGATE"));
    ("OP_NIP", (2, Message "Need two items for NIP"));
    ("OP_NOT", (1, Message "Need one item for NOT"));
    ("OP_NOTIF", (1, Message "Need one item for NOTIF"));
    ("OP_NUMEQUAL", (2, Message "Need two items for NUMEQUAL"));
    ("OP_NUMEQUALVERIFY", (2, Message "Need two items for NUMEQUALVERIFY"));
    ("OP_NUMNOTEQUAL", (2, Message "Need two items for NUMNOTEQUAL"));
    ("OP_OVER", (2, Message "Need two items for OVER"));
    ("OP_PICK", (1, Message "Need index for PICK"));
    ("OP_ROLL", (1, Message "Need index for ROLL"));
    ("OP_ROT", (3, Message "Need three items for ROT"));
    ("OP_SIZE", (1, Message "Need one item for SIZE"));
    ("OP_SUB", (2, Message "Need two items for SUB"));
    ("OP_SWAP", (2, Message "Need two items for SWAP"));
    ("OP_TOALTSTACK", (1, Message "Stack underflow"));
    ("OP_TUCK", (2, Message "Need two items for TUCK"));
    ("OP_VERIFY", (1, Message "Need one item for VERIFY"));
    ("OP_WITHIN", (3, Message "Need three items for WITHIN")) ].

(** The binary numeric opcodes, each with the operation the
    specification gives it, written with the left operand first. *)
Definition truth (cond : bool) : number := if cond then Num.one else Num.zero.

Definition binary_numeric : list (string * (number -> number -> number)) :=
  [ ("OP_ADD", fun l r => Num.add l r);
    ("OP_SUB", fun l r => Num.sub l r);
    ("OP_BOOLAND", fun l r => truth (Num.neqb l Num.zero && Num.neqb r Num.zero));
    ("OP_BOOLOR", fun l r => truth (Num.neqb l Num.zero || Num.neqb r Num.zero));
    ("OP_GREATERTHAN", fun l r => truth (Num.gtb l r));
    ("OP_GREATERTHANOREQUAL", fun l r => truth (Num.geb l r));
    ("OP_LESSTHAN", fun l r => truth (Num.ltb l r));
    ("OP_LESSTHANOREQUAL", fun l r => truth (Num.leb l r));
    ("OP_MIN", fun l r => Num.min l r);
    ("OP_MAX", fun l r => Num.max l r);
    ("OP_NUMEQUAL", fun l r => truth (Num.eqb l r));
    ("OP_NUMNOTEQUAL", fun l r => truth (Num.neqb l r)) ].

(* ===================================================================== *)
(** ** Frames, safe integers and sample inputs *)
(* ===================================================================== *)

(** A step of a [try] body that leaves [alt] as it is. *)
Definition keeps_alt {A} (c : Body A) : Prop :=
  forall ns a ns', c ns = Normal a ns' -> alt ns' = alt ns.

(** A [try] body whose returned state, if any, has the [alt] it
    started with. *)
Definition returns_alt (c : Body OpResult) : Prop :=
  forall ns r ns' s', c ns = Normal r ns' -> r = NewState s' -> alt s' = alt ns.


Module Safe.

Local Open Scope Z_scope.

(** [p * 2^k], by [k] doublings. *)
Definition shl (p : positive) (k : nat) : positive := Nat.iter k xO p.

Definition digits (p : positive) : Z := Zpos (digits2_pos p).

(** The binary64 representation of [(-1)^s * p] for [p] below [2^53]. *)
Definition canon (s : bool) (p : positive) : number :=
  S754_finite s (shl p (Z.to_nat (53 - digits p))) (digits p - 53).

(** The integers that binary64 represents without rounding. *)
Definition safe (n : Z) : Prop := Z.abs n < 2 ^ 53.

(** The integer of a sign and a magnitude. *)
Definition signed (s : bool) (p : positive) : Z := cond_Zopp s (Zpos p).

End Safe.

Definition zeros (n : nat) : string :=
  string_of_list_ascii (List.repeat "0"%char n).

(** The hexadecimal literal of [2^4160], a number of 4161 bits. *)
Definition literal_of_4161_bits : string := ("0x1" ++ zeros 1040)%string.


Definition state_of (main_items alt_items : list Value) : State :=
  mkState main_items alt_items None.

(** ELSE on a line, with no branch flag open. *)
Definition else_first : GlobalState :=
  mkGlobal true true (state_of [VStr "3"; VStr "4"] []).

(** ADD, push, SUB with [b = 1] and [a = 2^53]. *)
Definition beyond_safe : State :=
  state_of [VStr "1"; VStr "9007199254740992"] [].

Definition one_item : State := state_of [VStr "7"] [VStr "9"].

Definition ten_three : State := state_of [VStr "10"; VStr "3"] [].

Definition skipping : GlobalState :=
  mkGlobal false true (state_of [VStr "8"; VStr "0"] []).

Definition three_four : State := state_of [VStr "3"; VStr "4"] [].

Definition in_skipped_branch : GlobalState :=
  mkGlobal false false (mkState [VStr "1"] [] (Some false)).

Definition with_alt : State := state_of [VStr "3"] [VStr "9"].

Definition pick_minus_one : State := state_of [VStr "7"; VStr "-1"] [].


(* ===================================================================== *)
(** ** The numeric opcodes on integers *)
(* ===================================================================== *)

(** The binary numeric opcodes on integers: the operation on the second
    element (left) and the top (right), a truth value being 1 or 0. *)
Definition truth_Z (cond : bool) : Z := if cond then 1%Z else 0%Z.

Definition integer_binary : list (string * (Z -> Z -> Z)) :=
  [ ("OP_ADD", fun l r => l + r);
    ("OP_SUB", fun l r => l - r);
    ("OP_BOOLAND", fun l r => truth_Z (negb (l =? 0) && negb (r =? 0)));
    ("OP_BOOLOR", fun l r => truth_Z (negb (l =? 0) || negb (r =? 0)));
    ("OP_GREATERTHAN", fun l r => truth_Z (l >? r));
    ("OP_GREATERTHANOREQUAL", fun l r => truth_Z (l >=? r));
    ("OP_LESSTHAN", fun l r => truth_Z (l <? r));
    ("OP_LESSTHANOREQUAL", fun l r => truth_Z (l <=? r));
    ("OP_MIN", fun l r => Z.min l r);
    ("OP_MAX", fun l r => Z.max l r);
    ("OP_NUMEQUAL", fun l r => truth_Z (l =? r));
    ("OP_NUMNOTEQUAL", fun l r => truth_Z (negb (l =? r))) ]%Z.

(** The unary numeric opcodes on integers. *)
Definition integer_unary : list (string * (Z -> Z)) :=
  [ ("OP_1ADD", fun x => x + 1);
    ("OP_1SUB", fun x => x - 1);
    ("OP_NEGATE", fun x => - x);
    ("OP_ABS", fun x => Z.abs x);
    ("OP_NOT", fun x => truth_Z (x =? 0));
    ("OP_0NOTEQUAL", fun x => truth_Z (negb (x =? 0))) ]%Z.

(* ===================================================================== *)
(** ** What the opcodes leave alone *)
(* ===================================================================== *)

(** A [try] body whose returned error, if any, carries [state]. *)
Definition errs_with (state : State) (c : Body OpResult) : Prop :=
  forall ns r ns' e s', c ns = Normal r ns' -> r = StateError e s' -> s' = state.

(** A step of a [try] body that leaves [if_result] as it is, and a
    [try] body whose returned state, if any, has the [if_result] it
    started with. *)
Definition keeps_flag {A} (c : Body A) : Prop :=
  forall ns a ns', c ns = Normal a ns' -> if_result ns' = if_result ns.

Definition returns_flag (c : Body OpResult) : Prop :=
  forall ns r ns' s', c ns = Normal r ns' -> r = NewState s' ->
                      if_result s' = if_result ns.

(** The opcodes of the table that assign [if_result]. *)
Definition conditionals : list string :=
  [ "OP_IF"; "OP_NOTIF"; "OP_ELSE"; "OP_ENDIF" ].

(** A step of a [try] body that changes the depth of [main] by [d], and
    a [try] body whose returned state, if any, is [d] deeper than the
    state it started with. *)
Definition shifts {A} (d : Z) (c : Body A) : Prop :=
  forall ns a ns', c ns = Normal a ns' ->
    Z.of_nat (Stack.size (main ns')) = (Z.of_nat (Stack.size (main ns)) + d)%Z.

Definition returns_shifted (d : Z) (c : Body OpResult) : Prop :=
  forall ns r ns' s', c ns = Normal r ns' -> r = NewState s' ->
    Z.of_nat (Stack.size (main s')) = (Z.of_nat (Stack.size (main ns)) + d)%Z.

(** The opcodes whose effect on the depth of [main] is fixed, with that
    effect.  [OP_IFDUP], [OP_ROLL] and the two multi-signature checks
    depend on the values on the stack. *)
Definition stack_effect : list (string * Z) :=
  [ ("OP_0NOTEQUAL", 0); ("OP_1ADD", 0); ("OP_1SUB", 0); ("OP_2DROP", -2);
    ("OP_2DUP", 2); ("OP_2OVER", 2); ("OP_2ROT", 0); ("OP_2SWAP", 0);
    ("OP_3DUP", 3); ("OP_ABS", 0); ("OP_ADD", -1); ("OP_BOOLAND", -1);
    ("OP_BOOLOR", -1); ("OP_CAT", -1); ("OP_CHECKSIG", -1);
    ("OP_CHECKSIGADD", -2); ("OP_CHECKSIGVERIFY", -2); ("OP_DEPTH", 1);
    ("OP_DROP", -1); ("OP_DUP", 1); ("OP_ELSE", 0); ("OP_ENDIF", 0);
    ("OP_EQUAL", -1); ("OP_EQUALVERIFY", -2); ("OP_FROMALTSTACK", 1);
    ("OP_GREATERTHAN", -1); ("OP_GREATERTHANOREQUAL", -1); ("OP_HASH", 0);
    ("OP_IF", -1); ("OP_LESSTHAN", -1); ("OP_LESSTHANOREQUAL", -1);
    ("OP_MAX", -1); ("OP_MIN", -1); ("OP_NEGATE", 0); ("OP_NIP", -1);
    ("OP_NOP", 0); ("OP_NOT", 0); ("OP_NOTIF", -1); ("OP_NUMEQUAL", -1);
    ("OP_NUMEQUALVERIFY", -2); ("OP_NUMNOTEQUAL", -1); ("OP_OVER", 1);
    ("OP_PICK", 0); ("OP_ROT", 0); ("OP_SIZE", 1); ("OP_SUB", -1);
    ("OP_SWAP", 0); ("OP_TOALTSTACK", -1); ("OP_TUCK", 1); ("OP_VERIFY", -1);
    ("OP_WITHIN", -2) ]%Z.

(** The opcodes that end with a verification, each after the opcode
    whose result it verifies. *)
Definition verifying : list (string * string) :=
  [ ("OP_EQUAL", "OP_EQUALVERIFY");
    ("OP_NUMEQUAL", "OP_NUMEQUALVERIFY");
    ("OP_CHECKSIG", "OP_CHECKSIGVERIFY");
    ("OP_CHECKMULTISIG", "OP_CHECKMULTISIGVERIFY") ].

(** The names that [convertHash] and [convertNop] replace. *)
Definition hash_family : list string :=
  [ "OP_RIPEMD160"; "OP_SHA1"; "OP_SHA256"; "OP_HASH160"; "OP_HASH256" ].

Definition ignored_family : list string :=
  [ "OP_CHECKLOCKTIMEVERIFY"; "OP_CHECKSEQUENCEVERIFY"; "OP_PUSHDATA1";
    "OP_PUSHDATA2"; "OP_PUSHDATA4"; "OP_CODESEPARATOR" ].

(* ===================================================================== *)
(** ** The editor loop ([handleScript] of [extension.js]) *)
(* ===================================================================== *)

Module Header.

(** The stacks as [parseCommentForStacks] returns them: [{ main, alt }],
    two texts. *)
Record t : Type := mk {
  main : string;
  alt : string
}.

(** The first position of [l] at which [p] matches, with its result. *)
Fixpoint first_match {A} (p : list ascii -> option A) (l : list ascii)
  : option A :=
  match p l with
  | Some m => Some m
  | None =>
      match l with
      | _ :: rest => first_match p rest
      | [] => None
      end
  end.

Definition not_closing (c : ascii) : bool := negb (Ascii.eqb c "]").

(** An opening bracket, the characters up to the first closing bracket,
    and that bracket, at the start of [l] (the pattern of a stack in
    the three regular expressions): the text between the brackets and
    the text after the group. *)
Definition bracket_group (l : list ascii) : option (list ascii * list ascii) :=
  match l with
  | "["%char :: rest =>
      let (inner, after) := Lex.span not_closing rest in
      match after with
      | _ :: after' => Some (inner, after')
      | [] => None
      end
  | _ => None
  end.

Definition skip_space (l : list ascii) : list ascii :=
  snd (Lex.span Lex.is_space l).

Definition group_text (inner : list ascii) : string :=
  string_of_list_ascii ("["%char :: inner ++ ["]"%char]).

(** The pattern of two stacks at the start of [l]: white space, a
    stack, an optional comma, white space, a stack; the result is the
    two groups.  Each quantifier is followed by a character it cannot
    match, so giving back characters never opens another match. *)
Definition two_stacks_at (l : list ascii) : option (string * string) :=
  match bracket_group (skip_space l) with
  | Some (first, after) =>
      let after := match after with ","%char :: r => r | _ => after end in
      match bracket_group (skip_space after) with
      | Some (second, _) => Some (group_text first, group_text second)
      | None => None
      end
  | None => None
  end.

(** The pattern of a single stack at the start of [l]: white space and
    a stack. *)
Definition single_stack_at (l : list ascii) : option string :=
  match bracket_group (skip_space l) with
  | Some (first, _) => Some (group_text first)
  | None => None
  end.

(** The separator of [processStack] at the start of [l] (white space,
    a comma, white space): the number of characters matched. *)
Definition separator_length (l : list ascii) : option nat :=
  let (before, r) := Lex.span Lex.is_space l in
  match r with
  | ","%char :: r' =>
      let (after, _) := Lex.span Lex.is_space r' in
      Some (List.length before + 1 + List.length after)
  | _ => None
  end.

(** [text.split(separator)] on a text that is not empty: the text is
    read from the left; where the separator matches, the piece read so
    far is closed and the [skip] characters of the match are passed
    over; the last piece ends with the text.  [piece] holds the
    characters of the open piece, the last one first. *)
Fixpoint split_from (skip : nat) (piece : list ascii) (l : list ascii)
  : list string :=
  match l with
  | [] => [string_of_list_ascii (List.rev piece)]
  | c :: rest =>
      match skip with
      | S k => split_from k piece rest
      | O =>
          match separator_length l with
          | Some (S n) =>
              string_of_list_ascii (List.rev piece) :: split_from n [] rest
          | _ => split_from 0 (c :: piece) rest
          end
      end
  end.

Definition split (text : list ascii) : list string := split_from 0 [] text.

End Header.

(** [parseCommentForStacks] *)
Definition parseCommentForStacks (comment : string) : option Header.t :=
  let text := list_ascii_of_string comment in
  match Header.first_match Header.two_stacks_at text with
  | Some (mainStack, altStack) => Some (Header.mk mainStack altStack)
  | None =>
      match Header.first_match Header.single_stack_at text with
      | Some mainStack => Some (Header.mk mainStack "[]")
      | None => None
      end
  end.

(** [processStack]: the items are pushed as texts. *)
Definition processStack (stackStr : string) : Stack.t :=
  match Header.first_match Header.bracket_group (list_ascii_of_string stackStr)
  with
  | Some (content, _) =>
      if Nat.ltb 0 (String.length (Lex.trim (string_of_list_ascii content)))
      then
        List.fold_left
          (fun items item =>
             if Nat.ltb 0 (String.length (Lex.trim item))
             then Stack.push items (VStr (Lex.trim item))
             else items)
          (Header.split content) Stack.empty
      else Stack.empty
  | None => Stack.empty
  end.

(** A call of [addVirtualText(editor, line, hintText, color)]. *)
Inductive Color : Type := gray | red.

Record Decoration : Type := mkDecoration {
  line : nat;
  hintText : string;
  color : Color
}.

(** [str => !str.replace(/\s/g, '').length] *)
Definition isWhitespaceString (str : string) : bool :=
  List.forallb Lex.is_space (list_ascii_of_string str).

(** [err.message] of the [ResultException] that [Err(newState.error)]
    throws: the error itself when it is a text; for an exception that
    an opcode caught, its name and message. *)
Definition error_message (e : ErrorValue) : string :=
  match e with
  | Message msg => msg
  | Caught (ResultException msg) => ("ResultException: " ++ msg)%string
  end.

Section Editor.
Context {B : Builtins}.

(** An element as [Array.prototype.join] writes it: nothing for
    [undefined]. *)
Definition joined (v : Value) : string :=
  match v with
  | VUndefined => EmptyString
  | _ => String_ v
  end.

(** [Stack.print] *)
Definition print (items : Stack.t) : string :=
  ("[" ++ String.concat ", " (List.map joined items) ++ "]")%string.

(** The [for] loop of [handleScript] with [count] lines to go; the
    result is the list of the calls of [addVirtualText], in order.
    The [catch] clause shows the message of whatever was thrown.
    [None] when [document.lineAt] is asked for a line that the document
    does not have; [processLine] adds no other case
    ([processLine_has_an_outcome] below). *)
Fixpoint script_lines (document : list string) (count : nat) (current : nat)
    (globalState : GlobalState) : option (list Decoration) :=
  match count with
  | O => Some []
  | S count' =>
      match List.nth_error document current with
      | None => None
      | Some text =>
          let lineText := Lex.trim text in
          if (negb (String.prefix "//" lineText)
              && negb (isWhitespaceString lineText))%bool
          then
            match processLine lineText globalState with
            | Some (Returns (Ok _), globalState') =>
                let shown :=
                  if shouldContinue globalState'
                  then [mkDecoration current
                          (" =>  " ++ print (main (innerState globalState'))
                           ++ " " ++ print (alt (innerState globalState')))%string
                          gray]
                  else [] in
                match script_lines document count' (S current) globalState' with
                | Some more => Some (shown ++ more)
                | None => None
                end
            | Some (Throws e, _) =>
                Some [mkDecoration current
                        (" => " ++ error_message e ++ " ")%string red]
            | Some (Propagates (Lex.ReferenceError message), _) =>
                Some [mkDecoration current
                        (" => " ++ message ++ " ")%string red]
            | None => None
            end
          else script_lines document count' (S current) globalState
      end
  end.

(** [handleScript(editor, startLineNum, stopLineNum, offset)] on the
    lines of the document. *)
Definition handleScript (document : list string)
    (startLineNum stopLineNum offset : nat) : option (list Decoration) :=
  match List.nth_error document (startLineNum + offset) with
  | None => None
  | Some firstLine =>
      match parseCommentForStacks firstLine with
      | None => Some []
      | Some stacks =>
          let innerState :=
            mkState (processStack (Header.main stacks))
              (processStack (Header.alt stacks)) None in
          let globalState := mkGlobal true true innerState in
          script_lines document (stopLineNum - (startLineNum + 1 + offset))
            (startLineNum + 1 + offset) globalState
      end
  end.

(** [processBtcScript]: the whole document is one script. *)
Definition processBtcScript (document : list string)
  : option (list Decoration) :=
  handleScript document 0 (List.length document) 0.

End Editor.

(* ===================================================================== *)
(** ** Texts of printed stacks, and inputs *)
(* ===================================================================== *)

(** A text that stands for one item of a printed stack: it is not
    empty, has no white space at either end, and holds no comma and no
    closing bracket. *)
Definition plain (c : ascii) : bool :=
  (negb (Ascii.eqb c ",") && negb (Ascii.eqb c "]"))%bool.

Definition starts_bare (l : list ascii) : bool :=
  match l with
  | c :: _ => negb (Lex.is_space c)
  | [] => false
  end.

Definition item_text (s : string) : bool :=
  let l := list_ascii_of_string s in
  (starts_bare l && starts_bare (List.rev l) && List.forallb plain l)%bool.

Definition not_opening (c : ascii) : bool := negb (Ascii.eqb c "[").

Definition bracket_free (s : string) : bool :=
  List.forallb (fun c => (not_opening c && Header.not_closing c)%bool)
    (list_ascii_of_string s).

(** The number of opening brackets of a text. *)
Definition openings (l : list ascii) : nat :=
  List.length (List.filter (Ascii.eqb "["%char) l).

(** Inputs of the runs at the end of the file. *)
Definition three_items : Stack.t := [VStr "a"; VStr "b"; VStr "c"].

Definition one_two : list Value := [VStr "1"; VStr "2"].

Definition seven : State := state_of [VStr "7"] [].

Definition pick_second : State := state_of [VStr "a"; VStr "b"; VStr "1"] [].

Definition roll_second : State :=
  state_of [VStr "a"; VStr "b"; VStr "c"; VStr "1"] [].

(** A 2-of-3 check above one more element: the dummy, two signatures,
    their count, three keys, their count. *)
Definition two_of_three : State :=
  state_of
    [VStr "x"; VStr "0"; VStr "s1"; VStr "s2"; VStr "2";
     VStr "k1"; VStr "k2"; VStr "k3"; VStr "3"] [].

Definition five : State := state_of [VStr "5"] [].

Definition zero_on_top : State := state_of [VStr "0"] [].

Definition five_in_one_ten : State :=
  state_of [VStr "5"; VStr "1"; VStr "10"] [].

Definition two_texts : State := state_of [VStr "a"; VStr "b"] [].

Definition one_and_text : State := state_of [VStr "1"; VStr "x"] [].

Definition in_taken_branch : State := mkState [VStr "3"] [] (Some true).

Definition running (s : State) : GlobalState := mkGlobal true true s.

(** A script whose fourth line fails: the text [x] is not a number. *)
Definition failing_script : list string :=
  [ "[1,2,x]"; "// swap, then add"; "OP_SWAP"; "OP_ADD"; "OP_DUP" ].

Definition after_swap : Decoration :=
  mkDecoration 2 " =>  [1, x, 2] []" gray.

Definition failed_add : Decoration :=
  mkDecoration 3 " => ResultException: Invalid number " red.

Definition printed_items : list string := [ "a"; "b c"; "0x1f" ].

(** A name with an octal literal in it, in a branch that is not taken. *)
Definition octal_name_in_skipped_branch : list string :=
  [ "[0]"; "OP_IF"; "OP_0o7"; "OP_ENDIF" ].

(** ELSE as the first instruction. *)
Definition stray_else : list string := [ "[3,4]"; "OP_ELSE"; "OP_ADD" ].

(* ===================================================================== *)
(** ** Basic facts about the stack and the [try] bodies *)
(* ===================================================================== *)

Lemma length_snoc (l : list Value) (v : Value) :
  List.length (l ++ [v]) = S (List.length l).
Proof. rewrite length_app; simpl; lia. Qed.

Lemma pop_snoc (l : list Value) (v : Value) :
  Stack.pop (l ++ [v]) = inr (v, l).
Proof.
  unfold Stack.pop. rewrite length_snoc. simpl.
  now rewrite last_last, removelast_last.
Qed.

Lemma pop_empty :
  Stack.pop [] = inl (ResultException "Oops, the stack is empty!").
Proof. reflexivity. Qed.

Lemma main_pop_snoc (l al : Stack.t) (v : Value) (fl : option bool) :
  main_pop (mkState (l ++ [v]) al fl) = Normal v (mkState l al fl).
Proof. unfold main_pop; simpl. now rewrite pop_snoc. Qed.

Lemma state_eta (s : State) : mkState (main s) (alt s) (if_result s) = s.
Proof. now destruct s. Qed.

Lemma lookup_In {A} (table : list (string * A)) (key : string) (v : A) :
  lookup table key = Some v -> In (key, v) table.
Proof.
  induction table as [|[k w] rest IH]; simpl; [discriminate|].
  destruct (String.eqb_spec k key) as [->|_].
  - intros [= ->]. now left.
  - intro H. right. now apply IH.
Qed.

(* ===================================================================== *)
(** ** The fuel of the loops is never exhausted *)
(* ===================================================================== *)

Section Fuel.
Context {B : Builtins}.

Lemma main_pop_cases (ns : State) :
  (List.length (main ns) = 0
   /\ main_pop ns = Throw (ResultException "Oops, the stack is empty!"))
  \/ (exists v ns',
        main_pop ns = Normal v ns'
        /\ List.length (main ns) = S (List.length (main ns'))).
Proof.
  destruct ns as [m al fl]. induction m as [|x l _] using rev_ind.
  - left. split; reflexivity.
  - right. exists x, (mkState l al fl).
    rewrite main_pop_snoc. split; [reflexivity|]. simpl. apply length_snoc.
Qed.

Lemma for_lt_S {A} (fuel i : nat) (bound : number) (body : A -> Body A)
    (acc : A) :
  for_lt (S fuel) i bound body acc
  = if Num.ltb (Num.of_nat i) bound
    then bind (body acc) (fun acc' => for_lt fuel (S i) bound body acc')
    else ret acc.
Proof. reflexivity. Qed.

(** A loop whose rounds pop [main]: above the size of [main], more
    fuel changes nothing, because a round on the empty stack throws. *)
Lemma popping_loop_fuel {A} (g : A -> Value -> A) (bound : number) :
  forall (n fuel i : nat) (acc : A) (ns : State),
    List.length (main ns) = n -> n < fuel ->
    for_lt fuel i bound (fun acc => v <- main_pop ;; ret (g acc v)) acc ns
    = for_lt (S n) i bound (fun acc => v <- main_pop ;; ret (g acc v)) acc ns.
Proof.
  induction n as [|n IH]; intros fuel i acc ns Hlen Hfuel;
    (destruct fuel as [|fuel]; [lia|]); rewrite !for_lt_S;
    destruct (Num.ltb (Num.of_nat i) bound); try reflexivity;
    unfold bind;
    destruct (main_pop_cases ns) as [[H0 ->]|(v & ns' & -> & Hl)];
    try reflexivity; try lia.
  unfold ret at 1 3. apply IH; lia.
Qed.

(** A loop that runs exactly [m] more rounds: any fuel above [m] gives
    the result of fuel [m + 1]. *)
Lemma counted_loop_fuel {A} (body : A -> Body A) (bound : number) :
  forall (m fuel i : nat) (acc : A) (ns : State),
    (forall j, i <= j < i + m -> Num.ltb (Num.of_nat j) bound = true) ->
    Num.ltb (Num.of_nat (i + m)) bound = false ->
    m < fuel ->
    for_lt fuel i bound body acc ns = for_lt (S m) i bound body acc ns.
Proof.
  induction m as [|m IH]; intros fuel i acc ns Htrue Hfalse Hfuel;
    (destruct fuel as [|fuel]; [lia|]); rewrite !for_lt_S.
  - rewrite Nat.add_0_r in Hfalse. now rewrite Hfalse.
  - rewrite (Htrue i) by lia. unfold bind.
    destruct (body acc ns) as [acc' ns'|e]; [|reflexivity].
    apply IH; [| |lia].
    + intros j Hj. apply Htrue. lia.
    + now replace (S i + m) with (i + S m) by lia.
Qed.

(** The rounds of a popping loop that completes: the loop condition
    held for each of them and fails after the last. *)
Lemma popping_loop_rounds (bound : number) :
  forall (fuel i : nat) (acc temp : list Value) (ns ns' : State),
    for_lt fuel i bound
      (fun temp_stack => v <- main_pop ;; ret (temp_stack ++ [v])) acc ns
    = Normal temp ns' ->
    List.length (main ns) < fuel ->
    exists m,
      List.length temp = List.length acc + m
      /\ (forall j, i <= j < i + m -> Num.ltb (Num.of_nat j) bound = true)
      /\ Num.ltb (Num.of_nat (i + m)) bound = false.
Proof.
  induction fuel as [|fuel IH]; intros i acc temp ns ns' H Hfuel; [lia|].
  rewrite for_lt_S in H.
  destruct (Num.ltb (Num.of_nat i) bound) eqn:C.
  - unfold bind in H.
    destruct (main_pop_cases ns) as [[H0 E]|(v & ns1 & E & Hl)];
      rewrite E in H; [discriminate|].
    unfold ret at 1 in H. apply IH in H; [|lia].
    destruct H as (m & Hm & Ht & Hf). exists (S m).
    rewrite length_snoc in Hm. split; [lia|]. split.
    + intros j Hj. destruct (Nat.eq_dec j i) as [->|]; [exact C|].
      apply Ht. lia.
    + now replace (i + S m) with (S i + m) by lia.
  - injection H as <- <-. exists 0. split; [lia|]. split.
    + intros j Hj. lia.
    + now rewrite Nat.add_0_r.
Qed.

(** The two loops of [OP_ROLL]: when the first completes with
    [temp_stack], the second, given any fuel above the length of
    [temp_stack], does what it does with the fuel the opcode passes. *)
Lemma roll_loops_fuel (bound : number) (size fuel : nat)
    (temp_stack : list Value) (ns ns1 ns2 : State) (push_back : list Value -> Body (list Value)) :
  List.length (main ns) <= size ->
  for_lt (S size) 0 bound
    (fun temp_stack => v <- main_pop ;; ret (temp_stack ++ [v])) [] ns
  = Normal temp_stack ns1 ->
  List.length temp_stack < fuel ->
  for_lt fuel 0 bound push_back temp_stack ns2
  = for_lt (S (List.length temp_stack)) 0 bound push_back temp_stack ns2.
Proof.
  intros Hsize H Hfuel.
  apply popping_loop_rounds in H; [|lia].
  destruct H as (m & Hm & Ht & Hf). simpl in Hm. subst m.
  now apply counted_loop_fuel.
Qed.

End Fuel.

(* ===================================================================== *)
(** ** Underflow leaves the state untouched *)
(* ===================================================================== *)

Section Underflow.
Context {B : Builtins}.

Ltac take_guard :=
  match goal with
  | |- context [Nat.ltb ?a ?b] =>
      destruct (Nat.ltb_spec a b); [reflexivity | lia]
  | |- context [Nat.eqb ?a ?b] =>
      destruct (Nat.eqb_spec a b); [reflexivity | lia]
  end.

Lemma empty_main_pop_throws (state : State) (k : Value -> Body OpResult) :
  List.length (main state) < 1 ->
  try_catch state (deepCopy state) (bind main_pop k)
  = StateError stack_is_empty state.
Proof.
  intro H. unfold try_catch, bind, main_pop, deepCopy.
  destruct (main state) as [|v l]; [reflexivity | simpl in H; lia].
Qed.

(** Every opcode of the table has an entry in [depth_guards], apart from
    the five that take nothing from [main]. *)
Lemma depth_guards_cover :
  List.forallb
    (fun entry : string * OpcodeFunction =>
       match lookup depth_guards (fst entry) with
       | Some _ => true
       | None =>
           List.existsb (String.eqb (fst entry))
             ["OP_DEPTH"; "OP_NOP"; "OP_ELSE"; "OP_ENDIF"; "OP_FROMALTSTACK"]
       end)
    opcodeList
  = true.
Proof. reflexivity. Qed.

(** C1.  An opcode applied below the depth it requires reports its
    underflow error and hands back the very state it was given. *)
Theorem underflow_preserves_state
    (name : string) (f : OpcodeFunction) (n : nat) (e : ErrorValue)
    (state : State) :
  lookup opcodeList name = Some f ->
  lookup depth_guards name = Some (n, e) ->
  List.length (main state) < n ->
  f state = StateError e state.
Proof.
  intros Hf Hg Hlen.
  apply lookup_In in Hg.
  unfold depth_guards in Hg.
  repeat (destruct Hg as [Hg | Hg];
          [ injection Hg as <- <- <-;
            injection Hf as <-;
            first [ apply empty_main_pop_throws; exact Hlen
                  | unfold OP_0NOTEQUAL, OP_2DROP, OP_2DUP, OP_2OVER, OP_2ROT,
                      OP_2SWAP, OP_3DUP, OP_ABS, OP_ADD, OP_BOOLAND, OP_BOOLOR,
                      OP_CAT, OP_CHECKMULTISIG, OP_CHECKMULTISIGVERIFY,
                      OP_CHECKSIG, OP_CHECKSIGADD, OP_CHECKSIGVERIFY, OP_DROP,
                      OP_DUP, OP_EQUAL, OP_EQUALVERIFY, OP_GREATERTHAN,
                      OP_GREATERTHANOREQUAL, OP_HASH, OP_IF, OP_IFDUP,
                      OP_LESSTHAN, OP_LESSTHANOREQUAL, OP_MAX, OP_MIN,
                      OP_NEGATE, OP_NIP, OP_NOT, OP_NOTIF, OP_NUMEQUAL,
                      OP_NUMEQUALVERIFY, OP_NUMNOTEQUAL, OP_OVER, OP_PICK,
                      OP_ROLL, OP_ROT, OP_SIZE, OP_SUB, OP_SWAP,
                      OP_TOALTSTACK, OP_TUCK, OP_VERIFY, OP_WITHIN,
                      Stack.size, error;
                    take_guard ]
          | ]).
  destruct Hg.
Qed.

End Underflow.

(* ===================================================================== *)
(** ** The alt stack is a frame of the main-stack opcodes *)
(* ===================================================================== *)

Section AltFrame.
Context {B : Builtins}.

Lemma keeps_alt_ret {A} (a : A) : keeps_alt (ret a).
Proof. intros ns a' ns' [= _ <-]. reflexivity. Qed.

Lemma keeps_alt_bind {A C} (c : Body A) (k : A -> Body C) :
  keeps_alt c -> (forall a, keeps_alt (k a)) -> keeps_alt (bind c k).
Proof.
  intros Hc Hk ns x ns'. unfold bind.
  destruct (c ns) as [a ns1|e] eqn:E; [|discriminate].
  intro H. apply Hk in H. apply Hc in E. congruence.
Qed.

Lemma keeps_alt_call {A} (r : Exception + A) : keeps_alt (call r).
Proof. intros ns a ns'. unfold call. destruct r; [discriminate|]. now intros [= _ <-]. Qed.

Lemma keeps_alt_main_pop : keeps_alt main_pop.
Proof.
  intros ns a ns'. unfold main_pop.
  destruct (Stack.pop (main ns)) as [e|[v items]]; [discriminate|].
  now intros [= _ <-].
Qed.

Lemma keeps_alt_main_push (v : Value) : keeps_alt (main_push v).
Proof. intros ns a ns'. unfold main_push. now intros [= _ <-]. Qed.

Lemma keeps_alt_main_peek : keeps_alt main_peek.
Proof. intros ns a ns'. unfold main_peek. apply keeps_alt_call. Qed.

Lemma keeps_alt_main_peekNth (k : number) : keeps_alt (main_peekNth k).
Proof. intros ns a ns'. unfold main_peekNth. apply keeps_alt_call. Qed.

Lemma keeps_alt_main_size : keeps_alt main_size.
Proof. intros ns a ns'. unfold main_size. now intros [= _ <-]. Qed.

Lemma keeps_alt_set_if_result (b : bool) : keeps_alt (set_if_result b).
Proof. intros ns a ns'. unfold set_if_result. now intros [= _ <-]. Qed.

Lemma keeps_alt_num (v : Value) : keeps_alt (num v).
Proof. apply keeps_alt_call. Qed.

Lemma keeps_alt_for_lt {A} (body : A -> Body A) (bound : number) :
  (forall acc, keeps_alt (body acc)) ->
  forall fuel i acc, keeps_alt (for_lt fuel i bound body acc).
Proof.
  intros Hb. induction fuel as [|fuel IH]; intros i acc; simpl.
  - apply keeps_alt_ret.
  - destruct (Num.ltb (Num.of_nat i) bound).
    + apply keeps_alt_bind; [apply Hb | intro; apply IH].
    + apply keeps_alt_ret.
Qed.

Lemma returns_alt_bind {A} (c : Body A) (k : A -> Body OpResult) :
  keeps_alt c -> (forall a, returns_alt (k a)) -> returns_alt (bind c k).
Proof.
  intros Hc Hk ns r ns' s'. unfold bind.
  destruct (c ns) as [a ns1|e] eqn:E; [|discriminate].
  intros H Hr. apply Hc in E. rewrite <- E. eapply Hk; eauto.
Qed.

Lemma returns_alt_error (e : ErrorValue) (state : State) :
  returns_alt (ret (error e state)).
Proof. intros ns r ns' s' [= <- _]. discriminate. Qed.

Lemma returns_alt_new_state : returns_alt return_new_state.
Proof. intros ns r ns' s' [= <- _] [= <-]. reflexivity. Qed.

Lemma try_catch_alt (state new_state s' : State) (body : Body OpResult) :
  returns_alt body ->
  try_catch state new_state body = NewState s' ->
  alt s' = alt new_state.
Proof.
  intros Hb. unfold try_catch.
  destruct (body new_state) as [r ns'|e] eqn:E; [|discriminate].
  intros ->. eapply Hb; eauto.
Qed.

Create HintDb alt_frame.
Hint Resolve keeps_alt_ret keeps_alt_call keeps_alt_main_pop
  keeps_alt_main_push keeps_alt_main_peek keeps_alt_main_peekNth
  keeps_alt_main_size keeps_alt_set_if_result keeps_alt_num
  returns_alt_error returns_alt_new_state : alt_frame.

Ltac frame :=
  repeat first
    [ solve [auto with alt_frame]
    | apply returns_alt_bind; [|intro]
    | apply keeps_alt_bind; [|intro]
    | apply keeps_alt_for_lt; intro
    | match goal with
      | |- returns_alt (if ?c then _ else _) => destruct c
      | |- keeps_alt (if ?c then _ else _) => destruct c
      | |- keeps_alt (let (_, _) := ?p in _) => destruct p
      end ].

Lemma returns_alt_verify_top (state : State) : returns_alt (verify_top state).
Proof. unfold verify_top. frame. Qed.

Lemma keeps_alt_pop_loop (count : number) : keeps_alt (pop_loop count).
Proof. unfold pop_loop. frame. Qed.

Lemma returns_alt_multisig (state : State) (k : Body OpResult) :
  returns_alt k -> returns_alt (multisig_body state k).
Proof.
  intro Hk. unfold multisig_body.
  pose proof keeps_alt_pop_loop. frame.
Qed.

Hint Resolve returns_alt_verify_top keeps_alt_pop_loop returns_alt_multisig
  : alt_frame.

(** C9.  Apart from [OP_TOALTSTACK] and [OP_FROMALTSTACK], an opcode of
    the table that succeeds returns a state with the alt stack of its
    input. *)
Theorem alt_stack_unchanged
    (name : string) (f : OpcodeFunction) (state new_state : State) :
  lookup opcodeList name = Some f ->
  name <> "OP_TOALTSTACK" ->
  name <> "OP_FROMALTSTACK" ->
  f state = NewState new_state ->
  alt new_state = alt state.
Proof.
  intros Hf Hto Hfrom.
  apply lookup_In in Hf. unfold opcodeList in Hf.
  repeat (destruct Hf as [Hf | Hf];
          [ injection Hf as <- <-;
            first
              [ contradiction
              | unfold OP_0NOTEQUAL, OP_1ADD, OP_1SUB, OP_2DROP, OP_2DUP,
                  OP_2OVER, OP_2ROT, OP_2SWAP, OP_3DUP, OP_ABS, OP_ADD,
                  OP_BOOLAND, OP_BOOLOR, OP_CAT, OP_CHECKMULTISIG,
                  OP_CHECKMULTISIGVERIFY, OP_CHECKSIG, OP_CHECKSIGADD,
                  OP_CHECKSIGVERIFY, OP_DEPTH, OP_DROP, OP_DUP, OP_ELSE,
                  OP_ENDIF, OP_EQUAL, OP_EQUALVERIFY, OP_GREATERTHAN,
                  OP_GREATERTHANOREQUAL, OP_HASH, OP_IF, OP_IFDUP,
                  OP_LESSTHAN, OP_LESSTHANOREQUAL, OP_MAX, OP_MIN, OP_NEGATE,
                  OP_NIP, OP_NOP, OP_NOT, OP_NOTIF, OP_NUMEQUAL,
                  OP_NUMEQUALVERIFY, OP_NUMNOTEQUAL, OP_OVER, OP_PICK,
                  OP_ROLL, OP_ROT, OP_SIZE, OP_SUB, OP_SWAP, OP_TUCK,
                  OP_VERIFY, OP_WITHIN, error, deepCopy;
                repeat match goal with
                  | |- context [if ?c then StateError _ _ else _] => destruct c
                  | |- context [match if_result ?s with _ => _ end] =>
                      destruct (if_result s)
                  end;
                first
                  [ discriminate
                  | now intros [= <-]
                  | apply try_catch_alt; frame ] ]
          | ]).
  destruct Hf.
Qed.

End AltFrame.

(* ===================================================================== *)
(** ** Running single opcodes *)
(* ===================================================================== *)

Section Runs.
Context {B : Builtins}.

Lemma to_number_not_NaN (v : Value) (x : number) :
  to_number v = inr x -> Num.isNaN x = false.
Proof.
  unfold to_number. destruct (Num.isNaN (Number v)) eqn:E; [discriminate|].
  now intros [= <-].
Qed.

Lemma num_run (v : Value) (x : number) (ns : State) :
  to_number v = inr x -> num v ns = Normal x ns.
Proof. unfold num, call. now intros ->. Qed.

Lemma guard_passes (l : list Value) (v : Value) :
  Nat.ltb (Stack.size (l ++ [v])) 1 = false.
Proof. unfold Stack.size. rewrite length_snoc. reflexivity. Qed.

Lemma guard2_passes (l : list Value) (v w : Value) :
  Nat.ltb (Stack.size (l ++ [v; w])) 2 = false.
Proof.
  unfold Stack.size. rewrite length_app. simpl.
  apply Nat.ltb_ge. lia.
Qed.

Lemma main_pop_snoc2 (l al : Stack.t) (v w : Value) (fl : option bool) :
  main_pop (mkState (l ++ [v; w]) al fl) = Normal w (mkState (l ++ [v]) al fl).
Proof.
  replace (l ++ [v; w]) with ((l ++ [v]) ++ [w])
    by (rewrite <- app_assoc; reflexivity).
  apply main_pop_snoc.
Qed.

(** [OP_IF] and [OP_NOTIF] on a stack with a numeric top. *)
Lemma OP_IF_run (state : State) (rest : list Value) (v : Value) (x : number) :
  main state = rest ++ [v] ->
  to_number v = inr x ->
  OP_IF state
  = NewState (mkState rest (alt state) (Some (Num.neqb x Num.zero))).
Proof.
  intros Hm Hx. destruct state as [m al fl]; simpl in *; subst m.
  unfold OP_IF; simpl main. rewrite guard_passes.
  unfold try_catch, deepCopy, bind.
  rewrite main_pop_snoc, (num_run _ _ _ Hx). reflexivity.
Qed.

Lemma OP_NOTIF_run (state : State) (rest : list Value) (v : Value) (x : number) :
  main state = rest ++ [v] ->
  to_number v = inr x ->
  OP_NOTIF state
  = NewState (mkState rest (alt state) (Some (Num.eqb x Num.zero))).
Proof.
  intros Hm Hx. destruct state as [m al fl]; simpl in *; subst m.
  unfold OP_NOTIF; simpl main. rewrite guard_passes.
  unfold try_catch, deepCopy, bind.
  rewrite main_pop_snoc, (num_run _ _ _ Hx). reflexivity.
Qed.

(** C5.  [OP_VERIFY] on a one-element stack: an element that converts
    to 5 is consumed and the stack is left empty; an element that
    converts to zero makes the opcode fail with "Verification failed",
    and the state handed back still holds that element. *)
Theorem verify_scenario (v : Value) (al : Stack.t) (fl : option bool) :
  (to_number v = inr (Num.of_Z 5) ->
   OP_VERIFY (mkState [v] al fl) = NewState (mkState [] al fl))
  /\
  (forall sign : bool,
     to_number v = inr (S754_zero sign) ->
     OP_VERIFY (mkState [v] al fl)
     = StateError (Message "Verification failed") (mkState [v] al fl)
     /\ main (mkState [v] al fl) = [v]).
Proof.
  split.
  - intro Hx. unfold OP_VERIFY, try_catch, deepCopy, verify_top, bind.
    simpl. unfold num, call. rewrite Hx. reflexivity.
  - intros sign Hx. split; [|reflexivity].
    unfold OP_VERIFY, try_catch, deepCopy, verify_top, bind.
    simpl. unfold num, call. rewrite Hx. now destruct sign.
Qed.

End Runs.

(* ===================================================================== *)
(** ** The branch rules of the driver *)
(* ===================================================================== *)

Section Branches.
Context {B : Builtins}.

Lemma table_OP_IF : lookup opcodeList "OP_IF" = Some OP_IF.
Proof. reflexivity. Qed.

Lemma table_OP_NOTIF : lookup opcodeList "OP_NOTIF" = Some OP_NOTIF.
Proof. reflexivity. Qed.

Lemma table_OP_ELSE : lookup opcodeList "OP_ELSE" = Some OP_ELSE.
Proof. reflexivity. Qed.

(** C3.  A line whose token normalizes to [OP_IF] or [OP_NOTIF] runs
    the opcode whatever [shouldContinue] is: the top of [main] is
    popped and converted, the branch flag becomes [value !== 0] for IF
    and [value === 0] for NOTIF, and [shouldContinue] takes the value
    of the new flag. *)
Theorem if_notif_run_unconditionally
    (lineText token : string) (c : convertedOp) (g : GlobalState)
    (is_if : bool) (rest : list Value) (v : Value) (x : number) :
  Lex.line_token lineText = Some token ->
  convertOpcode token = Some (inr c) ->
  op c = (if is_if then "OP_IF" else "OP_NOTIF") ->
  main (innerState g) = rest ++ [v] ->
  to_number v = inr x ->
  let flag := if is_if then Num.neqb x Num.zero else Num.eqb x Num.zero in
  processLine lineText g
  = Some (Returns (Ok true),
          mkGlobal flag false
            (mkState rest (alt (innerState g)) (Some flag))).
Proof.
  intros Htok Hconv Hop Hm Hx flag.
  unfold processLine. rewrite Htok, Hconv. unfold dispatch. rewrite Hop.
  destruct is_if; subst flag.
  - rewrite table_OP_IF. simpl orb. cbv iota.
    rewrite (OP_IF_run _ _ _ _ Hm Hx). reflexivity.
  - rewrite table_OP_NOTIF. simpl orb. cbv iota.
    rewrite (OP_NOTIF_run _ _ _ _ Hm Hx). reflexivity.
Qed.

(** C4, as the code has it.  The opcode function [OP_ELSE] applied to a
    state without a branch flag fails with "ELSE without matching IF"
    and hands back its input, whatever the stacks hold.  The driver
    does not call that function: on a line that normalizes to
    [OP_ELSE] it inverts [shouldContinue], leaves the interpreter
    state alone and returns [Ok(true)]. *)
Theorem else_without_if
    (lineText token : string) (c : convertedOp) (g : GlobalState)
    (state : State) :
  if_result state = None ->
  Lex.line_token lineText = Some token ->
  convertOpcode token = Some (inr c) ->
  op c = "OP_ELSE" ->
  OP_ELSE state = StateError (Message "ELSE without matching IF") state
  /\ processLine lineText g
     = Some (Returns (Ok true),
             mkGlobal (negb (shouldContinue g)) false (innerState g)).
Proof.
  intros Hfl Htok Hconv Hop. split.
  - unfold OP_ELSE. now rewrite Hfl.
  - unfold processLine. rewrite Htok, Hconv. unfold dispatch. rewrite Hop.
    rewrite table_OP_ELSE. reflexivity.
Qed.

(** C8, as the code has it.  The normalizer runs on the token of a line
    before the driver looks at [shouldContinue].  While
    [shouldContinue] is false: when the normalizer returns anything
    but IF, NOTIF, ELSE and ENDIF, the line returns [Ok(true)] and
    leaves the interpreter state and [shouldContinue] as they were;
    when the normalizer throws (its [eval] applied to a name such as
    [OP_0o7], in which the pattern of a number finds an octal literal),
    the line throws that error instead of being skipped. *)
Theorem skipped_unless_normalizer_throws
    (lineText token : string) (g : GlobalState) :
  shouldContinue g = false ->
  Lex.line_token lineText = Some token ->
  (forall c : convertedOp,
     convertOpcode token = Some (inr c) ->
     op c <> "OP_IF" -> op c <> "OP_NOTIF" ->
     op c <> "OP_ELSE" -> op c <> "OP_ENDIF" ->
     exists render : bool,
       processLine lineText g
       = Some (Returns (Ok true), mkGlobal false render (innerState g)))
  /\ (forall e : Lex.EvalError,
        convertOpcode token = Some (inl e) ->
        processLine lineText g = Some (Propagates e, g)).
Proof.
  intros Hc Htok. split.
  - intros c Hconv Hif Hnotif Helse Hendif.
    unfold processLine. rewrite Htok, Hconv. unfold dispatch.
    destruct (lookup opcodeList (op c)) as [f|].
    + apply String.eqb_neq in Hif, Hnotif, Helse, Hendif.
      rewrite Hif, Hnotif, Helse, Hendif, Hc. simpl.
      exists true. reflexivity.
    + exists (shouldRender g). unfold finish.
      destruct g as [sc sr inner]; simpl in *; subst sc. reflexivity.
  - intros e Hconv. unfold processLine. now rewrite Htok, Hconv.
Qed.

End Branches.

(* ===================================================================== *)
(** ** Order facts about numbers *)
(* ===================================================================== *)

Module NumFacts.

Lemma compare_antisym (x y : number) :
  SFcompare y x = option_map CompOpp (SFcompare x y).
Proof.
  destruct x as [sx|sx| |sx mx ex], y as [sy|sy| |sy my ey]; simpl;
    try reflexivity;
    try (destruct sx; reflexivity);
    try (destruct sy; reflexivity);
    try (destruct sx, sy; reflexivity).
  destruct sx, sy; try reflexivity;
    rewrite (Z.compare_antisym ex ey);
    destruct (Z.compare ex ey); simpl; try reflexivity;
    change (Pos.compare_cont Eq my mx) with (Pos.compare my mx);
    change (Pos.compare_cont Eq mx my) with (Pos.compare mx my);
    rewrite (Pos.compare_antisym mx my);
    destruct (Pos.compare mx my); reflexivity.
Qed.

(** Numbers that compare equal are the same, or are both zeros. *)
Lemma compare_Eq (x y : number) :
  SFcompare x y = Some Eq ->
  x = y \/ (exists sx sy, x = S754_zero sx /\ y = S754_zero sy).
Proof.
  destruct x as [sx|sx| |sx mx ex], y as [sy|sy| |sy my ey]; simpl;
    try discriminate;
    try (destruct sx; discriminate);
    try (destruct sy; discriminate).
  - intros _. right. eauto.
  - destruct sx, sy; try discriminate; now left.
  - destruct sx, sy; try discriminate;
      destruct (Z.compare_spec ex ey) as [->| |]; try discriminate;
      change (Pos.compare_cont Eq mx my) with (Pos.compare mx my);
      destruct (Pos.compare_spec mx my) as [->| |]; try discriminate;
      now left.
Qed.

Lemma ltb_asym (x y : number) : Num.ltb x y = true -> Num.ltb y x = false.
Proof.
  unfold Num.ltb, SFltb. rewrite (compare_antisym x y).
  destruct (SFcompare x y) as [[]|]; simpl; congruence.
Qed.

Lemma not_lt_either (x y : number) :
  Num.isNaN x = false -> Num.isNaN y = false ->
  Num.ltb x y = false -> Num.ltb y x = false ->
  x = y \/ (exists sx sy, x = S754_zero sx /\ y = S754_zero sy).
Proof.
  intros Hx Hy. unfold Num.ltb, SFltb. rewrite (compare_antisym x y).
  destruct (SFcompare x y) as [[]|] eqn:E; simpl; try discriminate.
  - intros _ _. now apply compare_Eq.
  - destruct x, y; simpl in *; discriminate.
Qed.

Lemma min_comm (x y : number) :
  Num.isNaN x = false -> Num.isNaN y = false -> Num.min x y = Num.min y x.
Proof.
  intros Hx Hy. unfold Num.min. rewrite Hx, Hy. simpl.
  assert (H : (if Num.ltb y x then y else x) = (if Num.ltb x y then x else y)
              \/ (exists sx sy, x = S754_zero sx /\ y = S754_zero sy)).
  { destruct (Num.ltb y x) eqn:Eyx.
    - left. now rewrite (ltb_asym _ _ Eyx).
    - destruct (Num.ltb x y) eqn:Exy; [now left|].
      destruct (not_lt_either x y Hx Hy Exy Eyx) as [->|H]; auto. }
  destruct H as [H|(sx & sy & -> & ->)].
  - destruct x, y; try exact H. now rewrite orb_comm.
  - now rewrite orb_comm.
Qed.

Lemma max_comm (x y : number) :
  Num.isNaN x = false -> Num.isNaN y = false -> Num.max x y = Num.max y x.
Proof.
  intros Hx Hy. unfold Num.max. rewrite Hx, Hy. simpl.
  assert (H : (if Num.ltb x y then y else x) = (if Num.ltb y x then x else y)
              \/ (exists sx sy, x = S754_zero sx /\ y = S754_zero sy)).
  { destruct (Num.ltb x y) eqn:Exy.
    - left. now rewrite (ltb_asym _ _ Exy).
    - destruct (Num.ltb y x) eqn:Eyx; [now left|].
      destruct (not_lt_either x y Hx Hy Exy Eyx) as [->|H]; auto. }
  destruct H as [H|(sx & sy & -> & ->)].
  - destruct x, y; try exact H. now rewrite andb_comm.
  - now rewrite andb_comm.
Qed.

End NumFacts.

(* ===================================================================== *)
(** ** Operand order of the binary numeric opcodes *)
(* ===================================================================== *)

Section OperandOrder.
Context {B : Builtins}.

(** C2.  A binary numeric opcode applied to a stack whose top converts
    to [a] and whose second element converts to [b] replaces the two
    by the result of its operation with [b] on the left and [a] on the
    right; for [OP_SUB] that is [b - a]. *)
Theorem binary_numeric_operand_order
    (name : string) (operation : number -> number -> number)
    (f : OpcodeFunction) (state : State)
    (rest : list Value) (va vb : Value) (a b : number) :
  In (name, operation) binary_numeric ->
  lookup opcodeList name = Some f ->
  main state = rest ++ [vb; va] ->
  to_number va = inr a ->
  to_number vb = inr b ->
  f state
  = NewState (mkState (rest ++ [VNum (operation b a)])
                (alt state) (if_result state)).
Proof.
  intros Hin Hf Hm Ha Hb.
  pose proof (to_number_not_NaN _ _ Ha) as Na.
  pose proof (to_number_not_NaN _ _ Hb) as Nb.
  destruct state as [m al fl]; simpl in *; subst m.
  repeat (destruct Hin as [Hin | Hin];
          [ injection Hin as <- <-; injection Hf as <-;
            unfold OP_ADD, OP_SUB, OP_BOOLAND, OP_BOOLOR, OP_GREATERTHAN,
              OP_GREATERTHANOREQUAL, OP_LESSTHAN, OP_LESSTHANOREQUAL,
              OP_MIN, OP_MAX, OP_NUMEQUAL, OP_NUMNOTEQUAL;
            simpl main; rewrite guard2_passes;
            unfold try_catch, deepCopy, bind;
            rewrite main_pop_snoc2, main_pop_snoc,
              (num_run _ _ _ Ha), (num_run _ _ _ Hb);
            unfold main_push, return_new_state, Stack.push, bool_number,
              truth; simpl;
            first [ reflexivity
                  | now rewrite andb_comm
                  | now rewrite orb_comm
                  | now rewrite (NumFacts.min_comm a b Na Nb)
                  | now rewrite (NumFacts.max_comm a b Na Nb) ]
          | ]).
  destruct Hin.
Qed.

End OperandOrder.

(* ===================================================================== *)
(** ** Exact arithmetic on safe integers *)
(* ===================================================================== *)

Module Exact.

Import Safe.
Local Open Scope Z_scope.

Lemma shl_S (p : positive) (k : nat) : shl p (S k) = xO (shl p k).
Proof. reflexivity. Qed.

Lemma shl_shl (p : positive) (a b : nat) : shl (shl p a) b = shl p (a + b)%nat.
Proof. unfold shl. now rewrite Nat.add_comm, Nat.iter_add. Qed.

Lemma Zpos_shl (p : positive) (k : nat) :
  Zpos (shl p k) = Zpos p * 2 ^ Z.of_nat k.
Proof.
  induction k as [|k IH].
  - simpl. lia.
  - rewrite shl_S, Pos2Z.inj_xO, IH, Nat2Z.inj_succ, Z.pow_succ_r; lia.
Qed.

Lemma digits_shl (p : positive) (k : nat) :
  digits (shl p k) = digits p + Z.of_nat k.
Proof.
  unfold digits. induction k as [|k IH].
  - simpl. lia.
  - rewrite shl_S. simpl digits2_pos. rewrite Pos2Z.inj_succ, IH. lia.
Qed.

Lemma digits_size (p : positive) : digits2_pos p = Pos.size p.
Proof. induction p; simpl; congruence. Qed.

Lemma digits_pos (p : positive) : 1 <= digits p.
Proof. unfold digits. lia. Qed.

Lemma digits_bound (p : positive) : Zpos p < 2 ^ 53 -> digits p <= 53.
Proof.
  intro H. unfold digits. rewrite digits_size.
  pose proof (Pos.size_le p) as L.
  assert (E : Zpos (2 ^ Pos.size p) = 2 ^ Zpos (Pos.size p))
    by apply Pos2Z.inj_pow.
  assert (2 ^ Zpos (Pos.size p) < 2 ^ 54).
  { rewrite <- E. change (2 ^ 54) with (2 * 2 ^ 53). lia. }
  apply Z.pow_lt_mono_r_iff in H0; lia.
Qed.

Lemma iter_pos_nat {A} (f : A -> A) (p : positive) (x : A) :
  iter_pos f p x = Nat.iter (Pos.to_nat p) f x.
Proof.
  assert (E : forall q y, iter_pos f q y = Pos.iter f y q).
  { induction q as [q IH|q IH|]; intro y; simpl.
    - rewrite !IH. now rewrite !Pos.iter_swap.
    - now rewrite !IH.
    - reflexivity. }
  rewrite E. apply Pos2Nat.inj_iter.
Qed.

Lemma shr_shl (q : positive) (k : nat) :
  Nat.iter k shr_1 (Build_shr_record (Zpos (shl q k)) false false)
  = Build_shr_record (Zpos q) false false.
Proof.
  induction k as [|k IH]; [reflexivity|].
  rewrite Nat.iter_succ_r, shl_S. simpl shr_1. exact IH.
Qed.

Lemma fexp_normal (e : Z) : -1021 <= e -> fexp 53 1024 e = e - 53.
Proof. unfold fexp, emin. lia. Qed.

Lemma shr_exact (q : positive) (k : nat) (e : Z) :
  shr (Build_shr_record (Zpos (shl q k)) false false) (e - Z.of_nat k)
    (Z.of_nat k)
  = (Build_shr_record (Zpos q) false false, e).
Proof.
  unfold shr. destruct (Z.of_nat k) as [|j|j] eqn:E; try lia.
  - assert (k = 0%nat) as -> by lia. simpl. f_equal. lia.
  - rewrite iter_pos_nat.
    assert (Pos.to_nat j = k) as -> by lia.
    rewrite shr_shl. f_equal. lia.
Qed.

Lemma round_aux_exact (s : bool) (q : positive) (k : nat) (e : Z) :
  digits q = 53 -> -1074 <= e <= 971 ->
  binary_round_aux 53 1024 s (Zpos (shl q k)) (e - Z.of_nat k) loc_Exact
  = S754_finite s q e.
Proof.
  intros Hd He. unfold binary_round_aux, shr_fexp.
  change (Zdigits2 (Zpos (shl q k))) with (digits (shl q k)).
  rewrite digits_shl, Hd.
  replace (53 + Z.of_nat k + (e - Z.of_nat k)) with (53 + e) by lia.
  rewrite fexp_normal by lia.
  replace (53 + e - 53 - (e - Z.of_nat k)) with (Z.of_nat k) by lia.
  simpl shr_record_of_loc. rewrite shr_exact.
  simpl shr_m. simpl loc_of_shr_record. simpl round_nearest_even.
  change (Zdigits2 (Zpos q)) with (digits q). rewrite Hd.
  rewrite fexp_normal by lia.
  replace (53 + e - 53 - e) with 0 by lia.
  simpl. destruct (Z.leb_spec e 971); [reflexivity | lia].
Qed.

Lemma shl_align_down (mx : positive) (ex ex' : Z) :
  ex' <= ex ->
  shl_align mx ex ex' = (shl mx (Z.to_nat (ex - ex')), ex').
Proof.
  intro H. unfold shl_align.
  destruct (ex' - ex) as [|d|d] eqn:E; try lia.
  - assert (ex' = ex) as -> by lia. now rewrite Z.sub_diag.
  - rewrite Pos2Nat.inj_iter. f_equal. unfold shl, Nat.iter.
    f_equal. lia.
Qed.

Lemma shl_align_up (mx : positive) (ex ex' : Z) :
  ex <= ex' -> shl_align mx ex ex' = (mx, ex).
Proof.
  intro H. unfold shl_align.
  destruct (ex' - ex) as [|d|d] eqn:E; try lia; reflexivity.
Qed.

(** Rounding [p * 2^k * 2^-k] gives the representation of [p]. *)
Lemma round_exact (s : bool) (p : positive) (k : nat) :
  digits p <= 53 ->
  binary_round 53 1024 s (shl p k) (- Z.of_nat k) = canon s p.
Proof.
  intro Hd. pose proof (digits_pos p) as Hp.
  unfold binary_round, canon.
  change (Zpos (digits2_pos (shl p k))) with (digits (shl p k)).
  rewrite digits_shl.
  replace (digits p + Z.of_nat k + - Z.of_nat k) with (digits p) by lia.
  rewrite fexp_normal by lia.
  set (q := shl p (Z.to_nat (53 - digits p))).
  assert (Hq : digits q = 53) by (unfold q; rewrite digits_shl; lia).
  destruct (Z.le_gt_cases (digits p + Z.of_nat k) 53) as [Hle|Hgt].
  - rewrite shl_align_down by lia. rewrite shl_shl.
    replace (k + Z.to_nat (- Z.of_nat k - (digits p - 53)))%nat
      with (Z.to_nat (53 - digits p)) by lia.
    fold q.
    replace (digits p - 53) with (digits p - 53 - Z.of_nat 0) at 1
      by (simpl; lia).
    change q with (shl q 0) at 1.
    apply round_aux_exact; [exact Hq | lia].
  - rewrite shl_align_up by lia.
    set (j := Z.to_nat (digits p + Z.of_nat k - 53)).
    replace (shl p k) with (shl q j)
      by (unfold q, j; rewrite shl_shl; f_equal; lia).
    replace (- Z.of_nat k) with (digits p - 53 - Z.of_nat j)
      by (unfold j; lia).
    apply round_aux_exact; [exact Hq | lia].
Qed.

Lemma of_Z_pos (p : positive) :
  Zpos p < 2 ^ 53 -> Num.of_Z (Zpos p) = canon false p.
Proof.
  intro H. apply digits_bound in H.
  unfold Num.of_Z, binary_normalize, Num.prec, Num.emax.
  exact (round_exact false p 0 H).
Qed.

Lemma of_Z_neg (p : positive) :
  Zpos p < 2 ^ 53 -> Num.of_Z (Zneg p) = canon true p.
Proof.
  intro H. apply digits_bound in H.
  unfold Num.of_Z, binary_normalize, Num.prec, Num.emax.
  exact (round_exact true p 0 H).
Qed.

(** Normalizing [n * 2^k * 2^-k] gives the number of [n]. *)
Lemma normalize_exact (n : Z) (k : nat) :
  safe n ->
  binary_normalize 53 1024 (n * 2 ^ Z.of_nat k) (- Z.of_nat k) false
  = Num.of_Z n.
Proof.
  unfold safe. intro H. destruct n as [|p|p].
  - reflexivity.
  - rewrite <- Zpos_shl. simpl binary_normalize.
    rewrite of_Z_pos by lia. apply round_exact, digits_bound. lia.
  - replace (Z.neg p * 2 ^ Z.of_nat k) with (Z.neg (shl p k))
      by (rewrite <- Pos2Z.opp_pos, Zpos_shl; lia).
    simpl binary_normalize.
    rewrite of_Z_neg by lia. apply round_exact, digits_bound. lia.
Qed.

Lemma of_Z_zero : Num.of_Z 0 = S754_zero false.
Proof. reflexivity. Qed.

Lemma of_Z_signed (s : bool) (p : positive) :
  Zpos p < 2 ^ 53 -> Num.of_Z (signed s p) = canon s p.
Proof. destruct s; [apply of_Z_neg | apply of_Z_pos]. Qed.

Lemma aligned (s : bool) (p : positive) (ez : Z) :
  digits p <= 53 -> ez <= digits p - 53 ->
  cond_Zopp s
    (Zpos (fst (shl_align (shl p (Z.to_nat (53 - digits p)))
                  (digits p - 53) ez)))
  = signed s p * 2 ^ Z.of_nat (Z.to_nat (- ez)).
Proof.
  intros Hd He. rewrite shl_align_down by exact He. cbn [fst].
  rewrite shl_shl, Zpos_shl.
  replace (Z.to_nat (53 - digits p) + Z.to_nat (digits p - 53 - ez))%nat
    with (Z.to_nat (- ez)) by lia.
  unfold signed, cond_Zopp.
  destruct s; [symmetry; apply Z.mul_opp_l | reflexivity].
Qed.

Lemma add_canon (sx sy : bool) (px py : positive) :
  digits px <= 53 -> digits py <= 53 ->
  safe (signed sx px + signed sy py) ->
  Num.add (canon sx px) (canon sy py)
  = Num.of_Z (signed sx px + signed sy py).
Proof.
  intros Hx Hy Hs. unfold Num.add, canon, SFadd, Num.prec, Num.emax.
  set (ez := Z.min (digits px - 53) (digits py - 53)).
  rewrite !aligned by (unfold ez; lia).
  rewrite <- Z.mul_add_distr_r.
  pose proof (normalize_exact _ (Z.to_nat (- ez)) Hs) as N.
  replace (- Z.of_nat (Z.to_nat (- ez))) with ez in N by (unfold ez; lia).
  exact N.
Qed.

Lemma sub_canon (sx sy : bool) (px py : positive) :
  digits px <= 53 -> digits py <= 53 ->
  safe (signed sx px - signed sy py) ->
  Num.sub (canon sx px) (canon sy py)
  = Num.of_Z (signed sx px - signed sy py).
Proof.
  intros Hx Hy Hs. unfold Num.sub, canon, SFsub, Num.prec, Num.emax.
  set (ez := Z.min (digits px - 53) (digits py - 53)).
  rewrite !aligned by (unfold ez; lia).
  rewrite <- Z.mul_sub_distr_r.
  pose proof (normalize_exact _ (Z.to_nat (- ez)) Hs) as N.
  replace (- Z.of_nat (Z.to_nat (- ez))) with ez in N by (unfold ez; lia).
  exact N.
Qed.

(** Every non-zero integer is a sign and a magnitude. *)
Lemma signed_cases (n : Z) :
  n = 0 \/ exists s p, n = signed s p /\ Zpos p = Z.abs n.
Proof.
  destruct n as [|p|p]; [now left | right | right].
  - exists false, p. split; reflexivity.
  - exists true, p. split; reflexivity.
Qed.

(** Addition of safe integers with a safe sum is exact. *)
Lemma add_exact (x y : Z) :
  safe x -> safe y -> safe (x + y) ->
  Num.add (Num.of_Z x) (Num.of_Z y) = Num.of_Z (x + y).
Proof.
  unfold safe. intros Hx Hy Hs.
  destruct (signed_cases x) as [->|(sx & px & -> & Px)];
    destruct (signed_cases y) as [->|(sy & py & -> & Py)].
  - reflexivity.
  - rewrite Z.add_0_l, of_Z_zero, of_Z_signed by lia. reflexivity.
  - rewrite Z.add_0_r, of_Z_zero, of_Z_signed by lia. reflexivity.
  - rewrite !of_Z_signed by lia.
    apply add_canon; try (apply digits_bound; lia). exact Hs.
Qed.

(** Subtraction of safe integers with a safe difference is exact. *)
Lemma sub_exact (x y : Z) :
  safe x -> safe y -> safe (x - y) ->
  Num.sub (Num.of_Z x) (Num.of_Z y) = Num.of_Z (x - y).
Proof.
  unfold safe. intros Hx Hy Hs.
  destruct (signed_cases x) as [->|(sx & px & -> & Px)];
    destruct (signed_cases y) as [->|(sy & py & -> & Py)].
  - reflexivity.
  - replace (0 - signed sy py) with (signed (negb sy) py)
      by (destruct sy; reflexivity).
    rewrite of_Z_zero, !of_Z_signed by lia. reflexivity.
  - rewrite Z.sub_0_r, of_Z_zero, of_Z_signed by lia. reflexivity.
  - rewrite !of_Z_signed by lia.
    apply sub_canon; try (apply digits_bound; lia). exact Hs.
Qed.

(** The number of a safe integer denotes that integer. *)
Lemma to_integer_exact (n : Z) :
  safe n -> Num.to_integer (Num.of_Z n) = Some n.
Proof.
  unfold safe. intro H.
  destruct (signed_cases n) as [->|(s & p & -> & Pn)]; [reflexivity|].
  rewrite of_Z_signed by lia.
  assert (Hd : digits p <= 53) by (apply digits_bound; lia).
  pose proof (digits_pos p) as Hp.
  unfold canon, Num.to_integer.
  destruct (digits p - 53) as [|k|k] eqn:E; try lia.
  - replace (53 - digits p) with 0 by lia. reflexivity.
  - replace (53 - digits p) with (Zpos k) by lia.
    rewrite Zpos_shl, Z2Nat.id by lia.
    rewrite Z.land_ones by lia.
    rewrite Z.mod_mul by lia.
    rewrite Z.shiftr_div_pow2 by lia.
    rewrite Z.div_mul by lia.
    destruct s; reflexivity.
Qed.
End Exact.

(* ===================================================================== *)
(** ** ADD followed by SUB *)
(* ===================================================================== *)

Section RoundTrip.
Context {B : Builtins}.

Lemma OP_ADD_run (state : State) (rest : list Value) (va vb : Value)
    (a b : number) :
  main state = rest ++ [vb; va] ->
  to_number va = inr a ->
  to_number vb = inr b ->
  OP_ADD state
  = NewState (mkState (rest ++ [VNum (Num.add b a)])
                (alt state) (if_result state)).
Proof.
  intros Hm Ha Hb. destruct state as [m al fl]; simpl in *; subst m.
  unfold OP_ADD; simpl main. rewrite guard2_passes.
  unfold try_catch, deepCopy, bind.
  rewrite main_pop_snoc2, main_pop_snoc, (num_run _ _ _ Ha), (num_run _ _ _ Hb).
  reflexivity.
Qed.

Lemma OP_SUB_run (state : State) (rest : list Value) (va vb : Value)
    (a b : number) :
  main state = rest ++ [vb; va] ->
  to_number va = inr a ->
  to_number vb = inr b ->
  OP_SUB state
  = NewState (mkState (rest ++ [VNum (Num.sub b a)])
                (alt state) (if_result state)).
Proof.
  intros Hm Ha Hb. destruct state as [m al fl]; simpl in *; subst m.
  unfold OP_SUB; simpl main. rewrite guard2_passes.
  unfold try_catch, deepCopy, bind.
  rewrite main_pop_snoc2, main_pop_snoc, (num_run _ _ _ Ha), (num_run _ _ _ Hb).
  reflexivity.
Qed.

Lemma of_Z_not_NaN (n : Z) : Safe.safe n -> Num.isNaN (Num.of_Z n) = false.
Proof.
  intro H. destruct (Exact.signed_cases n) as [->|(s & p & -> & Pn)].
  - reflexivity.
  - unfold Safe.safe in H. rewrite Exact.of_Z_signed by lia. reflexivity.
Qed.

Lemma to_number_VNum (n : Z) :
  Safe.safe n -> to_number (VNum (Num.of_Z n)) = inr (Num.of_Z n).
Proof.
  intro H. unfold to_number, Number. now rewrite (of_Z_not_NaN n H).
Qed.

(** C7, as the code has it.  On a stack whose top converts to the
    integer [a] and whose second element converts to the integer [b],
    where [a], [b] and [b + a] are safe integers (below [2^53] in
    magnitude), [OP_ADD], then a push of [a], then [OP_SUB] leave [b]
    on top of the stack. *)
Theorem add_then_sub_restores_safe_integer
    (state : State) (rest : list Value) (va vb : Value) (a b : Z) :
  main state = rest ++ [vb; va] ->
  to_number va = inr (Num.of_Z a) ->
  to_number vb = inr (Num.of_Z b) ->
  Safe.safe a -> Safe.safe b -> Safe.safe (b + a) ->
  exists s1 s2 : State,
    OP_ADD state = NewState s1
    /\ OP_NUMBER (Num.of_Z a) s1 = NewState s2
    /\ OP_SUB s2
       = NewState (mkState (rest ++ [VNum (Num.of_Z b)])
                     (alt state) (if_result state)).
Proof.
  intros Hm Ha Hb Sa Sb Sab.
  eexists. eexists. split; [|split].
  - exact (OP_ADD_run _ _ _ _ _ _ Hm Ha Hb).
  - reflexivity.
  - rewrite (OP_SUB_run _ rest (VNum (Num.of_Z a)) (VNum (Num.add (Num.of_Z b) (Num.of_Z a)))
               (Num.of_Z a) (Num.add (Num.of_Z b) (Num.of_Z a))).
    + simpl. rewrite Exact.add_exact by assumption.
      rewrite Exact.sub_exact; try assumption.
      * now replace (b + a - a)%Z with b by lia.
      * now replace (b + a - a)%Z with b by lia.
    + simpl. unfold Stack.push. now rewrite <- app_assoc.
    + now apply to_number_VNum.
    + rewrite Exact.add_exact by assumption. now apply to_number_VNum.
Qed.

End RoundTrip.

(* ===================================================================== *)
(** ** PICK with a negative index *)
(* ===================================================================== *)

Section NegativePick.
Context {B : Builtins}.

Lemma one_is_of_Z : Num.one = Num.of_Z 1.
Proof. reflexivity. Qed.

Lemma of_nat_positive (n : nat) :
  (Z.of_nat (S n) < 2 ^ 53)%Z ->
  exists p, Num.of_nat (S n) = Safe.canon false p.
Proof.
  intro H. unfold Num.of_nat.
  destruct (Z.of_nat (S n)) as [|p|p] eqn:E; try lia.
  exists p. now apply Exact.of_Z_pos.
Qed.

(** C10.  [OP_PICK] with a popped index of -1 on a stack that keeps at
    least one element (and stays within the length of an array): the
    depth guard passes, the index that [peekNth] reads is the length of
    the array, one past the top, and the opcode succeeds, pushing
    [undefined]. *)
Theorem pick_negative_index_pushes_undefined
    (state : State) (rest : list Value) (x v : Value) :
  main state = rest ++ [x; v] ->
  to_number v = inr (Num.of_Z (-1)) ->
  (Z.of_nat (List.length (rest ++ [x])) < 2 ^ 32)%Z ->
  let size := List.length (rest ++ [x]) in
  Num.ltb (Num.of_nat size) (Num.add (Num.of_Z (-1)) Num.one) = false
  /\ Num.sub (Num.sub (Num.of_nat size) Num.one) (Num.of_Z (-1))
     = Num.of_nat size
  /\ Stack.array_get (rest ++ [x]) (Num.of_nat size) = VUndefined
  /\ OP_PICK state
     = NewState (mkState (rest ++ [x; VUndefined])
                   (alt state) (if_result state)).
Proof.
  intros Hm Hv Hlen size.
  assert (Hsize : size = S (List.length rest))
    by (unfold size; apply length_snoc).
  assert (Hsafe : (0 < Z.of_nat size < 2 ^ 32)%Z) by (fold size in Hlen; lia).
  assert (Hpow : (2 ^ 32 < 2 ^ 53)%Z) by reflexivity.
  destruct (of_nat_positive (List.length rest)) as [p Hp]; [lia|].
  rewrite <- Hsize in Hp.
  assert (G : Num.ltb (Num.of_nat size) (Num.add (Num.of_Z (-1)) Num.one) = false).
  { rewrite Hp. reflexivity. }
  assert (I : Num.sub (Num.sub (Num.of_nat size) Num.one) (Num.of_Z (-1))
              = Num.of_nat size).
  { unfold Num.of_nat. rewrite one_is_of_Z.
    rewrite Exact.sub_exact by (unfold Safe.safe; lia).
    rewrite Exact.sub_exact by (unfold Safe.safe; lia).
    f_equal. lia. }
  assert (A : Stack.array_get (rest ++ [x]) (Num.of_nat size) = VUndefined).
  { unfold Stack.array_get, Num.of_nat.
    rewrite Exact.to_integer_exact by (unfold Safe.safe; lia).
    fold size. rewrite Z.ltb_irrefl, andb_false_r. reflexivity. }
  repeat split; try assumption.
  destruct state as [m al fl]; cbn [main alt if_result] in *; subst m.
  unfold OP_PICK; cbn [main].
  replace (Nat.ltb (Stack.size (rest ++ [x; v])) 1) with false
    by (unfold Stack.size; rewrite length_app; simpl; symmetry;
        apply Nat.ltb_ge; lia).
  unfold try_catch, deepCopy, bind.
  rewrite main_pop_snoc2, (num_run _ _ _ Hv).
  unfold main_size, Stack.size. cbn [main]. fold size. rewrite G.
  unfold main_peekNth, call, Stack.peekNth. cbn [main]. fold size.
  replace (Nat.eqb size 0) with false by (rewrite Hsize; reflexivity).
  replace (Num.leb (Num.of_nat size) (Num.of_Z (-1))) with false
    by (rewrite Hp; reflexivity).
  rewrite I, A.
  unfold main_push, return_new_state, Stack.push. cbn [main alt if_result].
  rewrite <- app_assoc. reflexivity.
Qed.

End NegativePick.

(* ===================================================================== *)
(** ** The length of a rounded number in base 2 *)
(* ===================================================================== *)

Module Rounded.

Local Open Scope Z_scope.

Lemma digits2_nonneg (m : Z) : 0 <= Zdigits2 m.
Proof. destruct m; simpl; lia. Qed.

Lemma shr_1_digits (r : shr_record) :
  Zdigits2 (shr_m (shr_1 r)) <= Z.max 0 (Zdigits2 (shr_m r) - 1).
Proof.
  destruct r as [m r s].
  destruct m as [|[p|p|]|[p|p|]]; cbn [shr_1 shr_m Zdigits2 digits2_pos];
    rewrite ?Pos2Z.inj_succ; lia.
Qed.

Lemma shr_n_digits (k : nat) (r : shr_record) :
  Zdigits2 (shr_m (Nat.iter k shr_1 r))
  <= Z.max 0 (Zdigits2 (shr_m r) - Z.of_nat k).
Proof.
  induction k as [|k IH].
  - simpl. pose proof (digits2_nonneg (shr_m r)). lia.
  - rewrite Nat.iter_succ.
    pose proof (shr_1_digits (Nat.iter k shr_1 r)). lia.
Qed.

Lemma shr_record_of_loc_m (m : Z) (l : location) :
  shr_m (shr_record_of_loc m l) = m.
Proof. destruct l as [|[]]; reflexivity. Qed.

(** After [shr_fexp] a mantissa has at most 53 digits. *)
Lemma shr_fexp_digits (m e : Z) (l : location) :
  Zdigits2 (shr_m (fst (shr_fexp 53 1024 m e l))) <= 53.
Proof.
  unfold shr_fexp, shr.
  destruct (fexp 53 1024 (Zdigits2 m + e) - e) as [|k|k] eqn:E;
    cbn [fst]; unfold fexp, emin in E.
  - rewrite shr_record_of_loc_m. lia.
  - rewrite Exact.iter_pos_nat.
    pose proof (shr_n_digits (Pos.to_nat k) (shr_record_of_loc m l)) as H.
    rewrite shr_record_of_loc_m in H. lia.
  - rewrite shr_record_of_loc_m. lia.
Qed.

Lemma round_aux_length (s : bool) (m e : Z) (l : location) :
  Num.radix2_length (binary_round_aux 53 1024 s m e l) <= 1025.
Proof.
  unfold binary_round_aux.
  destruct (shr_fexp 53 1024 m e l) as [mrs' e'].
  pose proof (shr_fexp_digits
                (round_nearest_even (shr_m mrs') (loc_of_shr_record mrs'))
                e' loc_Exact) as H.
  destruct (shr_fexp 53 1024
              (round_nearest_even (shr_m mrs') (loc_of_shr_record mrs'))
              e' loc_Exact) as [mrs'' e''].
  cbn [fst] in H.
  destruct (shr_m mrs'') as [|p|p]; cbn [Zdigits2] in H.
  - simpl. lia.
  - destruct (Z.leb_spec e'' (1024 - 53)); unfold Num.radix2_length;
      destruct s; lia.
  - simpl. lia.
Qed.

(** The text in base 2 of the number of any integer has at most 1025
    characters: the guard of [convertNumbers] holds for every literal. *)
Lemma of_Z_length (n : Z) : Num.radix2_length (Num.of_Z n) <= 1025.
Proof.
  unfold Num.of_Z, binary_normalize, binary_round, Num.prec, Num.emax.
  destruct n as [|p|p].
  - simpl. lia.
  - destruct (shl_align p 0 (fexp 53 1024 (Z.pos (digits2_pos p) + 0))).
    apply round_aux_length.
  - destruct (shl_align p 0 (fexp 53 1024 (Z.pos (digits2_pos p) + 0))).
    apply round_aux_length.
Qed.

Lemma guard_never_rejects (opcode : string) (num : number) :
  Lex.eval opcode = Some (inr num) ->
  Z.leb (Num.radix2_length num) 4160 = true.
Proof.
  unfold Lex.eval. destruct (Lex.literal_value opcode) as [v|].
  - intros [= <-]. apply Z.leb_le. pose proof (of_Z_length v). lia.
  - destruct (Lex.unbound_name opcode); discriminate.
Qed.

(** X30.  The normalizer never lets a token with a number in it pass
    through unchanged: it becomes a named constant or [OP_PUSHBYTES]. *)
Lemma number_never_passes_through (opcode : string) (c : convertedOp) :
  convertNumbers opcode = Some (inr c) ->
  Lex.has_number opcode = true ->
  (exists n, c = mkOp "OP_NUMBER" (Some n))
  \/ (exists num, Lex.eval opcode = Some (inr num)
                  /\ c = mkOp "OP_PUSHBYTES" (Some num)).
Proof.
  unfold convertNumbers. intros H Hn. rewrite Hn in H.
  destruct (if Lex.has_mnemonic opcode then lookup named_constants opcode
            else None) as [n|].
  - left. exists (Num.of_Z n). now injection H as <-.
  - right. destruct (Lex.eval opcode) as [[e|num]|] eqn:E; try discriminate.
    rewrite (guard_never_rejects opcode num E) in H.
    exists num. split; [reflexivity|]. now injection H as <-.
Qed.

End Rounded.

(* ===================================================================== *)
(** ** Numeric literals and the 4160-bit guard *)
(* ===================================================================== *)

(** C6.  The token ["0x1f"] normalizes to [OP_PUSHBYTES] with 31.  The
    literal of [2^4160] exceeds the bound of 4160 bits, and still
    normalizes to [OP_PUSHBYTES]: [eval] yields [Infinity], whose text in
    base 2 has 8 characters, so the guard lets it through. *)
Theorem oversized_literal_passes_guard :
  convertOpcode "0x1f"
  = Some (inr (mkOp "OP_PUSHBYTES" (Some (Num.of_Z 31))))
  /\ Lex.literal_value literal_of_4161_bits = Some (2 ^ 4160)%Z
  /\ (Z.log2 (2 ^ 4160) + 1 = 4161)%Z
  /\ Lex.eval literal_of_4161_bits = Some (inr Num.Infinity)
  /\ Num.radix2_length Num.Infinity = 8%Z
  /\ convertOpcode literal_of_4161_bits
     = Some (inr (mkOp "OP_PUSHBYTES" (Some Num.Infinity))).
Proof.
  split; [vm_compute; reflexivity|].
  split; [vm_compute; reflexivity|].
  split; [vm_compute; reflexivity|].
  split; [vm_compute; reflexivity|].
  split; vm_compute; reflexivity.
Qed.

(* ===================================================================== *)
(** ** Concrete runs *)
(* ===================================================================== *)

(** *** Runs on which the code and the specification part ways *)

Lemma else_line_without_if_returns_ok :
  if_result (innerState else_first) = None
  /\ processLine "OP_ELSE" else_first
     = Some (Returns (Ok true), mkGlobal false false (innerState else_first))
  /\ ~ (exists e g, processLine "OP_ELSE" else_first = Some (Throws e, g)).
Proof.
  split; [reflexivity|]. split; [reflexivity|].
  intros (e & g & H). vm_compute in H. discriminate H.
Qed.

Lemma add_then_sub_loses_one :
  to_number (VStr "9007199254740992") = inr (Num.of_Z (2 ^ 53))
  /\ to_number (VStr "1") = inr (Num.of_Z 1)
  /\ OP_ADD beyond_safe = NewState (state_of [VNum (Num.of_Z (2 ^ 53))] [])
  /\ OP_NUMBER (Num.of_Z (2 ^ 53)) (state_of [VNum (Num.of_Z (2 ^ 53))] [])
     = NewState (state_of [VNum (Num.of_Z (2 ^ 53)); VNum (Num.of_Z (2 ^ 53))] [])
  /\ OP_SUB (state_of [VNum (Num.of_Z (2 ^ 53)); VNum (Num.of_Z (2 ^ 53))] [])
     = NewState (state_of [VNum (Num.of_Z 0)] [])
  /\ Num.eqb (Num.of_Z 0) (Num.of_Z 1) = false.
Proof.
  split; [vm_compute; reflexivity|].
  split; [vm_compute; reflexivity|].
  split; [vm_compute; reflexivity|].
  split; [vm_compute; reflexivity|].
  split; vm_compute; reflexivity.
Qed.

(** A stray ELSE raises nothing: it switches the rest of the script
    off, and no hint is shown for any line. *)
Lemma stray_else_switches_the_script_off :
  handleScript stray_else 0 3 0 = Some [].
Proof. vm_compute. reflexivity. Qed.

(** A line in a branch that is not taken is not always skipped: the
    normalizer evaluates the name [OP_0o7], the error passes through
    [processLine], and [handleScript] shows it and stops. *)
Lemma skipped_line_shows_an_error :
  handleScript octal_name_in_skipped_branch 0 4 0
  = Some [mkDecoration 2 " => OP_0o7 is not defined " red].
Proof. vm_compute. reflexivity. Qed.

(** *** The theorems at concrete inputs *)

Lemma underflow_preserves_state_witness :
  lookup opcodeList "OP_ADD" = Some OP_ADD
  /\ lookup depth_guards "OP_ADD" = Some (2, Message "Need two items for ADD")
  /\ List.length (main one_item) < 2
  /\ OP_ADD one_item = StateError (Message "Need two items for ADD") one_item.
Proof.
  split; [reflexivity|]. split; [reflexivity|].
  split; [simpl; lia|].
  apply (underflow_preserves_state "OP_ADD" OP_ADD 2); [reflexivity | reflexivity |].
  simpl; lia.
Defined.

Lemma binary_numeric_operand_order_witness :
  In ("OP_SUB", fun l r => Num.sub l r) binary_numeric
  /\ to_number (VStr "3") = inr (Num.of_Z 3)
  /\ to_number (VStr "10") = inr (Num.of_Z 10)
  /\ OP_SUB ten_three
     = NewState (mkState ([] ++ [VNum (Num.sub (Num.of_Z 10) (Num.of_Z 3))])
                   [] None).
Proof.
  assert (Hin : In ("OP_SUB", fun l r => Num.sub l r) binary_numeric)
    by (right; left; reflexivity).
  split; [exact Hin|]. split; [reflexivity|]. split; [reflexivity|].
  apply (binary_numeric_operand_order "OP_SUB" (fun l r => Num.sub l r) OP_SUB
           ten_three [] (VStr "3") (VStr "10") (Num.of_Z 3) (Num.of_Z 10));
    [exact Hin | reflexivity | reflexivity | reflexivity | reflexivity].
Defined.

Lemma if_notif_run_unconditionally_witness :
  Lex.line_token "OP_NOTIF" = Some "OP_NOTIF"
  /\ convertOpcode "OP_NOTIF" = Some (inr (mkOp "OP_NOTIF" None))
  /\ to_number (VStr "0") = inr (Num.of_Z 0)
  /\ processLine "OP_NOTIF" skipping
     = Some (Returns (Ok true),
             mkGlobal true false (mkState [VStr "8"] [] (Some true))).
Proof.
  split; [reflexivity|]. split; [reflexivity|]. split; [reflexivity|].
  apply (if_notif_run_unconditionally "OP_NOTIF" "OP_NOTIF" (mkOp "OP_NOTIF" None)
           skipping false [VStr "8"] (VStr "0") (Num.of_Z 0));
    reflexivity.
Defined.

Lemma else_without_if_witness :
  if_result (innerState else_first) = None
  /\ Lex.line_token "OP_ELSE" = Some "OP_ELSE"
  /\ convertOpcode "OP_ELSE" = Some (inr (mkOp "OP_ELSE" None))
  /\ OP_ELSE (innerState else_first)
     = StateError (Message "ELSE without matching IF") (innerState else_first)
  /\ processLine "OP_ELSE" else_first
     = Some (Returns (Ok true), mkGlobal false false (innerState else_first)).
Proof.
  split; [reflexivity|]. split; [reflexivity|]. split; [reflexivity|].
  apply (else_without_if "OP_ELSE" "OP_ELSE" (mkOp "OP_ELSE" None) else_first
           (innerState else_first));
    reflexivity.
Defined.

Lemma verify_scenario_witness :
  to_number (VStr "5") = inr (Num.of_Z 5)
  /\ OP_VERIFY (mkState [VStr "5"] [] None) = NewState (mkState [] [] None)
  /\ to_number (VStr "0") = inr (S754_zero false)
  /\ OP_VERIFY (mkState [VStr "0"] [] None)
     = StateError (Message "Verification failed") (mkState [VStr "0"] [] None).
Proof.
  split; [reflexivity|].
  split; [apply (proj1 (verify_scenario (VStr "5") [] None)); reflexivity|].
  split; [reflexivity|].
  apply (proj2 (verify_scenario (VStr "0") [] None) false). reflexivity.
Defined.

Lemma add_then_sub_restores_safe_integer_witness :
  to_number (VStr "4") = inr (Num.of_Z 4)
  /\ to_number (VStr "3") = inr (Num.of_Z 3)
  /\ Safe.safe 4 /\ Safe.safe 3 /\ Safe.safe (3 + 4)
  /\ exists s1 s2 : State,
       OP_ADD three_four = NewState s1
       /\ OP_NUMBER (Num.of_Z 4) s1 = NewState s2
       /\ OP_SUB s2 = NewState (mkState ([] ++ [VNum (Num.of_Z 3)]) [] None).
Proof.
  split; [reflexivity|]. split; [reflexivity|].
  split; [reflexivity|]. split; [reflexivity|]. split; [reflexivity|].
  apply (add_then_sub_restores_safe_integer three_four [] (VStr "4") (VStr "3") 4 3);
    reflexivity.
Defined.

Lemma skipped_unless_normalizer_throws_witness :
  shouldContinue in_skipped_branch = false
  /\ Lex.line_token "OP_0o7" = Some "OP_0o7"
  /\ convertOpcode "OP_0o7"
     = Some (inl (Lex.ReferenceError "OP_0o7 is not defined"))
  /\ processLine "OP_0o7" in_skipped_branch
     = Some (Propagates (Lex.ReferenceError "OP_0o7 is not defined"),
             in_skipped_branch).
Proof.
  split; [reflexivity|]. split; [reflexivity|]. split; [reflexivity|].
  apply (proj2 (skipped_unless_normalizer_throws "OP_0o7" "OP_0o7"
                  in_skipped_branch eq_refl eq_refl)).
  reflexivity.
Defined.

Lemma alt_stack_unchanged_witness :
  lookup opcodeList "OP_DUP" = Some OP_DUP
  /\ OP_DUP with_alt = NewState (state_of [VStr "3"; VStr "3"] [VStr "9"])
  /\ alt (state_of [VStr "3"; VStr "3"] [VStr "9"]) = alt with_alt.
Proof.
  split; [reflexivity|]. split; [reflexivity|].
  apply (alt_stack_unchanged "OP_DUP" OP_DUP with_alt
           (state_of [VStr "3"; VStr "3"] [VStr "9"]));
    try reflexivity; discriminate.
Defined.

Lemma pick_negative_index_pushes_undefined_witness :
  to_number (VStr "-1") = inr (Num.of_Z (-1))
  /\ (Z.of_nat (List.length ([] ++ [VStr "7"])) < 2 ^ 32)%Z
  /\ OP_PICK pick_minus_one
     = NewState (mkState ([] ++ [VStr "7"; VUndefined]) [] None).
Proof.
  split; [reflexivity|]. split; [reflexivity|].
  apply (pick_negative_index_pushes_undefined pick_minus_one [] (VStr "7") (VStr "-1"));
    reflexivity.
Defined.

(* ===================================================================== *)
(** ** The order of safe integers *)
(* ===================================================================== *)

Module SafeOrder.

Import Safe.
Local Open Scope Z_scope.

Lemma digits_lower (p : positive) : 2 ^ (digits p - 1) <= Zpos p.
Proof.
  unfold digits. rewrite Exact.digits_size.
  pose proof (Pos.size_le p) as L.
  assert (E : Zpos (2 ^ Pos.size p) = 2 ^ Zpos (Pos.size p))
    by apply Pos2Z.inj_pow.
  assert (H : 2 ^ Zpos (Pos.size p) <= 2 * Zpos p) by (rewrite <- E; lia).
  replace (Zpos (Pos.size p)) with (Z.succ (Zpos (Pos.size p) - 1)) in H by lia.
  rewrite Z.pow_succ_r in H by lia. lia.
Qed.

Lemma digits_upper (p : positive) : Zpos p < 2 ^ digits p.
Proof.
  unfold digits. rewrite Exact.digits_size.
  pose proof (Pos.size_gt p) as L.
  assert (E : Zpos (2 ^ Pos.size p) = 2 ^ Zpos (Pos.size p))
    by apply Pos2Z.inj_pow.
  rewrite <- E. lia.
Qed.

Lemma digits_lt (p q : positive) : digits p < digits q -> Zpos p < Zpos q.
Proof.
  intro H. pose proof (digits_upper p). pose proof (digits_lower q).
  pose proof (Exact.digits_pos p).
  assert (2 ^ digits p <= 2 ^ (digits q - 1))
    by (apply Z.pow_le_mono_r; lia).
  lia.
Qed.

Lemma compare_shl (p q : positive) (k : nat) :
  Pos.compare_cont Eq (shl p k) (shl q k) = Pos.compare p q.
Proof.
  change (Pos.compare_cont Eq (shl p k) (shl q k))
    with (Z.compare (Zpos (shl p k)) (Zpos (shl q k))).
  rewrite !Exact.Zpos_shl.
  rewrite <- Zmult_compare_compat_r
    by (apply Z.lt_gt, Z.pow_pos_nonneg; lia).
  reflexivity.
Qed.

Lemma compare_canon_same_sign (p q : positive) :
  match Z.compare (digits p - 53) (digits q - 53) with
  | Lt => Lt
  | Gt => Gt
  | Eq => Pos.compare_cont Eq (shl p (Z.to_nat (53 - digits p)))
            (shl q (Z.to_nat (53 - digits q)))
  end = Pos.compare p q.
Proof.
  destruct (Z.compare_spec (digits p - 53) (digits q - 53)) as [E|L|G].
  - replace (digits q) with (digits p) by lia. apply compare_shl.
  - symmetry. apply Pos.compare_lt_iff.
    assert (Zpos p < Zpos q) by (apply digits_lt; lia). lia.
  - symmetry. apply Pos.compare_gt_iff.
    assert (Zpos q < Zpos p) by (apply digits_lt; lia). lia.
Qed.

Lemma compare_canon (sx sy : bool) (p q : positive) :
  SFcompare (canon sx p) (canon sy q) = Some (signed sx p ?= signed sy q).
Proof.
  unfold canon, SFcompare, signed, cond_Zopp.
  destruct sx, sy; try reflexivity.
  - change (- Zpos p ?= - Zpos q) with (CompOpp (Pos.compare p q)).
    rewrite <- (compare_canon_same_sign p q).
    now destruct (digits p - 53 ?= digits q - 53).
  - rewrite compare_canon_same_sign. reflexivity.
Qed.

(** Numbers of safe integers compare as the integers do. *)
Lemma compare_of_Z (x y : Z) :
  safe x -> safe y -> SFcompare (Num.of_Z x) (Num.of_Z y) = Some (x ?= y).
Proof.
  unfold safe. intros Hx Hy.
  destruct (Exact.signed_cases x) as [->|(sx & px & -> & Px)];
    destruct (Exact.signed_cases y) as [->|(sy & py & -> & Py)].
  - reflexivity.
  - rewrite Exact.of_Z_zero, Exact.of_Z_signed by lia. now destruct sy.
  - rewrite Exact.of_Z_zero, Exact.of_Z_signed by lia. now destruct sx.
  - rewrite !Exact.of_Z_signed by lia. apply compare_canon.
Qed.

Lemma ltb_of_Z (x y : Z) :
  safe x -> safe y -> Num.ltb (Num.of_Z x) (Num.of_Z y) = (x <? y).
Proof.
  intros Hx Hy. unfold Num.ltb, SFltb, Z.ltb.
  rewrite (compare_of_Z x y Hx Hy). now destruct (Z.compare x y).
Qed.

Lemma leb_of_Z (x y : Z) :
  safe x -> safe y -> Num.leb (Num.of_Z x) (Num.of_Z y) = (x <=? y).
Proof.
  intros Hx Hy. unfold Num.leb, SFleb, Z.leb.
  rewrite (compare_of_Z x y Hx Hy). now destruct (Z.compare x y).
Qed.

Lemma eqb_of_Z (x y : Z) :
  safe x -> safe y -> Num.eqb (Num.of_Z x) (Num.of_Z y) = (x =? y).
Proof.
  intros Hx Hy. unfold Num.eqb, SFeqb.
  rewrite (compare_of_Z x y Hx Hy).
  destruct (Z.compare_spec x y); destruct (Z.eqb_spec x y);
    try reflexivity; lia.
Qed.

End SafeOrder.

(* ===================================================================== *)
(** ** Reading the stack at an integer depth *)
(* ===================================================================== *)

Section StackReads.

Lemma of_nat_safe (k : nat) :
  (Z.of_nat k < 2 ^ 53)%Z -> Safe.safe (Z.of_nat k).
Proof. unfold Safe.safe. lia. Qed.

Lemma array_get_of_nat (items : Stack.t) (k : nat) :
  (Z.of_nat k < 2 ^ 53)%Z ->
  Stack.array_get items (Num.of_nat k) = List.nth k items VUndefined.
Proof.
  intro H. unfold Stack.array_get, Num.of_nat.
  rewrite Exact.to_integer_exact by now apply of_nat_safe.
  rewrite Nat2Z.id.
  destruct (Z.ltb_spec (Z.of_nat k) (Z.of_nat (List.length items))) as [L|L].
  - replace (0 <=? Z.of_nat k)%Z with true by (symmetry; apply Z.leb_le; lia).
    reflexivity.
  - rewrite andb_false_r. symmetry. apply nth_overflow. lia.
Qed.

Lemma index_from_top (size k : nat) :
  k < size -> (Z.of_nat size < 2 ^ 32)%Z ->
  Num.sub (Num.sub (Num.of_nat size) Num.one) (Num.of_nat k)
  = Num.of_nat (size - 1 - k).
Proof.
  intros Hk Hs. unfold Num.of_nat.
  change Num.one with (Num.of_Z 1).
  assert (2 ^ 32 < 2 ^ 53)%Z by reflexivity.
  rewrite Exact.sub_exact by (unfold Safe.safe; lia).
  rewrite Exact.sub_exact by (unfold Safe.safe; lia).
  f_equal. lia.
Qed.

(** [peekNth(k)] for an integer [k] within the stack: the element [k]
    places below the top. *)
Lemma peekNth_in_range (items : Stack.t) (k : nat) :
  k < List.length items -> (Z.of_nat (List.length items) < 2 ^ 32)%Z ->
  Stack.peekNth items (Num.of_nat k)
  = inr (List.nth (List.length items - 1 - k) items VUndefined).
Proof.
  intros Hk Hs. unfold Stack.peekNth.
  assert (2 ^ 32 < 2 ^ 53)%Z by reflexivity.
  destruct (Nat.eqb_spec (List.length items) 0); [lia|].
  unfold Num.of_nat at 1 2.
  rewrite SafeOrder.leb_of_Z by (unfold Safe.safe; lia).
  replace (Z.of_nat (List.length items) <=? Z.of_nat k)%Z with false
    by (symmetry; apply Z.leb_gt; lia).
  rewrite index_from_top by assumption.
  rewrite array_get_of_nat by lia. reflexivity.
Qed.

Lemma peek_in_range (items : Stack.t) :
  0 < List.length items -> (Z.of_nat (List.length items) < 2 ^ 32)%Z ->
  Stack.peek items = inr (List.nth (List.length items - 1) items VUndefined).
Proof.
  intros Hk Hs. unfold Stack.peek.
  assert (2 ^ 32 < 2 ^ 53)%Z by reflexivity.
  destruct (Nat.eqb_spec (List.length items) 0); [lia|].
  unfold Num.of_nat. change Num.one with (Num.of_Z 1).
  rewrite Exact.sub_exact by (unfold Safe.safe; lia).
  replace (Z.of_nat (List.length items) - 1)%Z
    with (Z.of_nat (List.length items - 1)) by lia.
  fold (Num.of_nat (List.length items - 1)).
  rewrite array_get_of_nat by lia. reflexivity.
Qed.

Lemma nth_snoc_top (m : list Value) (v : Value) :
  List.nth (List.length (m ++ [v]) - 1) (m ++ [v]) VUndefined = v.
Proof.
  rewrite length_snoc. replace (S (List.length m) - 1) with (List.length m) by lia.
  apply nth_middle.
Qed.

End StackReads.

(* ===================================================================== *)
(** ** The stack as a container *)
(* ===================================================================== *)

(** X1.  A pushed value is the next one popped, and the pop gives back
    the stack as it was before the push; the push adds one to the size. *)
Theorem push_then_pop (items : Stack.t) (v : Value) :
  Stack.pop (Stack.push items v) = inr (v, items)
  /\ Stack.size (Stack.push items v) = S (Stack.size items)
  /\ Stack.isEmpty (Stack.push items v) = false.
Proof.
  unfold Stack.push, Stack.size, Stack.isEmpty.
  rewrite pop_snoc, length_snoc. repeat split.
Qed.

(** [peekNth(k)] for a negative integer [k] on a stack that is not
    empty: the index read is past the top, and the result is
    [undefined]. *)
Lemma peekNth_negative (items : Stack.t) (k : Z) :
  0 < List.length items ->
  (Z.of_nat (List.length items) < 2 ^ 32)%Z ->
  (- 2 ^ 32 < k < 0)%Z ->
  Stack.peekNth items (Num.of_Z k) = inr VUndefined.
Proof.
  intros Hne Hs Hk. assert (2 ^ 32 < 2 ^ 53)%Z by reflexivity.
  unfold Stack.peekNth.
  destruct (Nat.eqb_spec (List.length items) 0); [lia|].
  unfold Num.of_nat. change Num.one with (Num.of_Z 1).
  rewrite SafeOrder.leb_of_Z by (unfold Safe.safe; lia).
  replace (Z.of_nat (List.length items) <=? k)%Z with false
    by (symmetry; apply Z.leb_gt; lia).
  rewrite Exact.sub_exact by (unfold Safe.safe; lia).
  rewrite Exact.sub_exact by (unfold Safe.safe; lia).
  unfold Stack.array_get.
  rewrite Exact.to_integer_exact by (unfold Safe.safe; lia).
  replace (Z.of_nat (List.length items) - 1 - k
           <? Z.of_nat (List.length items))%Z with false
    by (symmetry; apply Z.ltb_ge; lia).
  now rewrite andb_false_r.
Qed.

(** X2.  [peekNth(k)] for an integer [k]: on the empty stack it throws
    "Oops, the stack is empty!"; from the size of the stack on it throws
    "elem is not available"; for a negative [k] it returns [undefined],
    the index it reads being past the top; for the other [k] it returns
    the element [k] places under the top.  [peek()] is [peekNth(0)]. *)
Theorem peekNth_by_depth (items : Stack.t) (k : Z) :
  (Z.of_nat (List.length items) < 2 ^ 32)%Z ->
  (Z.abs k < 2 ^ 32)%Z ->
  Stack.peekNth items (Num.of_Z k)
  = (if Nat.eqb (List.length items) 0
     then inl (ResultException "Oops, the stack is empty!")
     else if (Z.of_nat (List.length items) <=? k)%Z
     then inl (ResultException "elem is not available")
     else if (k <? 0)%Z
     then inr VUndefined
     else inr (List.nth (List.length items - 1 - Z.to_nat k) items VUndefined))
  /\ Stack.peek items = Stack.peekNth items (Num.of_Z 0).
Proof.
  intros Hs Hk. assert (2 ^ 32 < 2 ^ 53)%Z by reflexivity. split.
  - destruct (Nat.eqb_spec (List.length items) 0) as [E|E].
    + unfold Stack.peekNth. now rewrite E.
    + destruct (Z.leb_spec (Z.of_nat (List.length items)) k) as [L|L].
      * unfold Stack.peekNth.
        destruct (Nat.eqb_spec (List.length items) 0); [lia|].
        unfold Num.of_nat.
        rewrite SafeOrder.leb_of_Z by (unfold Safe.safe; lia).
        now replace (Z.of_nat (List.length items) <=? k)%Z with true
          by (symmetry; apply Z.leb_le; lia).
      * destruct (Z.ltb_spec k 0) as [N|N].
        -- apply peekNth_negative; lia.
        -- replace (Num.of_Z k) with (Num.of_nat (Z.to_nat k))
             by (unfold Num.of_nat; now rewrite Z2Nat.id).
           apply peekNth_in_range; lia.
  - destruct (Nat.eqb_spec (List.length items) 0) as [E|E].
    + unfold Stack.peek, Stack.peekNth. now rewrite E.
    + change (Num.of_Z 0) with (Num.of_nat 0).
      rewrite peek_in_range, peekNth_in_range by lia.
      now rewrite Nat.sub_0_r.
Qed.

(* ===================================================================== *)
(** ** Running the statements of a [try] block *)
(* ===================================================================== *)

Section Steps.
Context {B : Builtins}.

Lemma run_pop {A} (k : Value -> Body A) (m al : Stack.t) (v : Value)
    (fl : option bool) :
  bind main_pop k (mkState (m ++ [v]) al fl) = k v (mkState m al fl).
Proof. unfold bind. now rewrite main_pop_snoc. Qed.

Lemma run_push {A} (k : unit -> Body A) (m al : Stack.t) (v : Value)
    (fl : option bool) :
  bind (main_push v) k (mkState m al fl) = k tt (mkState (m ++ [v]) al fl).
Proof. reflexivity. Qed.

Lemma run_num {A} (k : number -> Body A) (v : Value) (x : number) (ns : State) :
  to_number v = inr x -> bind (num v) k ns = k x ns.
Proof. intro H. unfold bind. now rewrite (num_run _ _ _ H). Qed.

Lemma run_size {A} (k : nat -> Body A) (ns : State) :
  bind main_size k ns = k (List.length (main ns)) ns.
Proof. reflexivity. Qed.

Lemma run_peek {A} (k : Value -> Body A) (m al : Stack.t) (v : Value)
    (fl : option bool) :
  (Z.of_nat (List.length (m ++ [v])) < 2 ^ 32)%Z ->
  bind main_peek k (mkState (m ++ [v]) al fl) = k v (mkState (m ++ [v]) al fl).
Proof.
  intro H. unfold bind, main_peek, call. cbn [main].
  rewrite peek_in_range, nth_snoc_top; [reflexivity | | exact H].
  rewrite length_snoc. lia.
Qed.

Lemma run_peekNth {A} (k : Value -> Body A) (m al : Stack.t) (n : nat)
    (fl : option bool) :
  n < List.length m -> (Z.of_nat (List.length m) < 2 ^ 32)%Z ->
  bind (main_peekNth (Num.of_nat n)) k (mkState m al fl)
  = k (List.nth (List.length m - 1 - n) m VUndefined) (mkState m al fl).
Proof.
  intros Hn H. unfold bind, main_peekNth, call. cbn [main].
  now rewrite peekNth_in_range.
Qed.

Lemma run_set_if_result {A} (k : unit -> Body A) (b : bool) (ns : State) :
  bind (set_if_result b) k ns = k tt (mkState (main ns) (alt ns) (Some b)).
Proof. reflexivity. Qed.

Lemma snoc_cons (l r : list Value) (x : Value) :
  l ++ x :: r = (l ++ [x]) ++ r.
Proof. now rewrite <- app_assoc. Qed.

End Steps.

(** Write a stack [rest ++ [a; b; c]] as [((rest ++ [a]) ++ [b]) ++ [c]]. *)
Ltac nest_stack :=
  repeat match goal with
         | |- context [?l ++ ?x :: ?y :: ?r] =>
             rewrite (snoc_cons l (y :: r) x)
         end.

Ltac flat_stack := rewrite <- ?app_assoc; cbn [app].

(** Take the branch of a depth guard that lets the opcode run. *)
Ltac pass_guard :=
  match goal with
  | |- context [Nat.ltb (Stack.size ?m) ?n] =>
      replace (Nat.ltb (Stack.size m) n) with false
        by (symmetry; apply Nat.ltb_ge; unfold Stack.size;
            rewrite ?length_app; cbn [List.length]; lia)
  | |- context [Nat.eqb (Stack.size ?m) 0] =>
      replace (Nat.eqb (Stack.size m) 0) with false
        by (symmetry; apply Nat.eqb_neq; unfold Stack.size;
            rewrite ?length_app; cbn [List.length]; lia)
  end.

Ltac run_steps :=
  unfold try_catch, deepCopy;
  repeat first
    [ rewrite run_pop
    | rewrite run_push
    | rewrite run_size
    | rewrite run_set_if_result
    | erewrite run_num by eassumption ];
  cbn [main alt if_result].

(* ===================================================================== *)
(** ** How the stack opcodes compose *)
(* ===================================================================== *)

Section Shuffles.
Context {B : Builtins}.

Ltac run_shuffle :=
  cbn [main]; pass_guard; nest_stack; run_steps;
  unfold return_new_state; flat_stack; reflexivity.

(** X3.  Swapping twice, rotating three times and swapping pairs twice
    give back the state they started from. *)
Theorem shuffles_cycle (rest al : list Value) (fl : option bool)
    (a b c d : Value) :
  (exists s1,
     OP_SWAP (mkState (rest ++ [a; b]) al fl) = NewState s1
     /\ OP_SWAP s1 = NewState (mkState (rest ++ [a; b]) al fl))
  /\ (exists s1 s2,
        OP_ROT (mkState (rest ++ [a; b; c]) al fl) = NewState s1
        /\ OP_ROT s1 = NewState s2
        /\ OP_ROT s2 = NewState (mkState (rest ++ [a; b; c]) al fl))
  /\ (exists s1,
        OP_2SWAP (mkState (rest ++ [a; b; c; d]) al fl) = NewState s1
        /\ OP_2SWAP s1 = NewState (mkState (rest ++ [a; b; c; d]) al fl)).
Proof.
  split; [|split].
  - eexists. split; [unfold OP_SWAP; run_shuffle | unfold OP_SWAP; run_shuffle].
  - eexists. eexists.
    split; [unfold OP_ROT; run_shuffle|].
    split; [unfold OP_ROT; run_shuffle | unfold OP_ROT; run_shuffle].
  - eexists. split; [unfold OP_2SWAP; run_shuffle | unfold OP_2SWAP; run_shuffle].
Qed.

(** X4.  [OP_TOALTSTACK] followed by [OP_FROMALTSTACK] gives back the
    state it started from, and so does [OP_FROMALTSTACK] followed by
    [OP_TOALTSTACK]. *)
Theorem alt_stack_round_trip (m al : list Value) (fl : option bool) (v : Value) :
  (exists s1,
     OP_TOALTSTACK (mkState (m ++ [v]) al fl) = NewState s1
     /\ alt s1 = al ++ [v]
     /\ OP_FROMALTSTACK s1 = NewState (mkState (m ++ [v]) al fl))
  /\ (exists s1,
        OP_FROMALTSTACK (mkState m (al ++ [v]) fl) = NewState s1
        /\ main s1 = m ++ [v]
        /\ OP_TOALTSTACK s1 = NewState (mkState m (al ++ [v]) fl)).
Proof.
  assert (Pa : forall m' al' fl',
             alt_pop (mkState m' (al' ++ [v]) fl') = Normal v (mkState m' al' fl')).
  { intros. unfold alt_pop. cbn [alt]. now rewrite pop_snoc. }
  split.
  - eexists. split; [|split].
    + unfold OP_TOALTSTACK. cbn [main]. pass_guard. run_steps.
      unfold bind, alt_push, return_new_state. reflexivity.
    + reflexivity.
    + unfold OP_FROMALTSTACK, Stack.push. cbn [main alt if_result].
      replace (Nat.eqb (Stack.size (al ++ [v])) 0) with false
        by (unfold Stack.size; rewrite length_snoc; reflexivity).
      unfold try_catch, deepCopy, bind. rewrite Pa. reflexivity.
  - eexists. split; [|split].
    + unfold OP_FROMALTSTACK. cbn [alt].
      replace (Nat.eqb (Stack.size (al ++ [v])) 0) with false
        by (unfold Stack.size; rewrite length_snoc; reflexivity).
      unfold try_catch, deepCopy, bind. rewrite Pa. reflexivity.
    + reflexivity.
    + unfold OP_TOALTSTACK, Stack.push. cbn [main alt if_result]. pass_guard.
      run_steps. unfold bind, alt_push, return_new_state. reflexivity.
Qed.

(** X5.  [OP_DUP] pushes a second copy of the top and [OP_2DUP] a
    second copy of the two top elements; [OP_DROP] undoes the first and
    [OP_2DROP] the second. *)
Theorem drop_undoes_dup (rest al : list Value) (fl : option bool) (a b : Value) :
  (Z.of_nat (List.length (rest ++ [a; b])) < 2 ^ 32)%Z ->
  OP_DUP (mkState (rest ++ [a; b]) al fl)
  = NewState (mkState (rest ++ [a; b; b]) al fl)
  /\ OP_DROP (mkState (rest ++ [a; b; b]) al fl)
     = NewState (mkState (rest ++ [a; b]) al fl)
  /\ OP_2DUP (mkState (rest ++ [a; b]) al fl)
     = NewState (mkState (rest ++ [a; b; a; b]) al fl)
  /\ OP_2DROP (mkState (rest ++ [a; b; a; b]) al fl)
     = NewState (mkState (rest ++ [a; b]) al fl).
Proof.
  intro Hs.
  assert (Hn : rest ++ [a; b] = (rest ++ [a]) ++ [b]) by apply snoc_cons.
  assert (Hl : List.length (rest ++ [a; b]) = S (S (List.length rest)))
    by (rewrite length_app; cbn [List.length]; lia).
  split; [|split; [|split]].
  - unfold OP_DUP. cbn [main]. pass_guard.
    unfold try_catch, deepCopy. rewrite Hn in *. rewrite run_peek by exact Hs.
    run_steps. unfold return_new_state. now flat_stack.
  - unfold OP_DROP. run_shuffle.
  - unfold OP_2DUP. cbn [main]. pass_guard.
    unfold try_catch, deepCopy. rewrite Hn in *. rewrite run_peek by exact Hs.
    change Num.one with (Num.of_nat 1).
    rewrite run_peekNth by (rewrite <- ?Hn, ?Hl in *; lia).
    rewrite <- Hn in Hl |- *. rewrite Hl.
    replace (List.nth (S (S (List.length rest)) - 1 - 1) (rest ++ [a; b]) VUndefined)
      with a
      by (replace (S (S (List.length rest)) - 1 - 1) with (List.length rest) by lia;
          now rewrite nth_middle).
    run_steps. unfold return_new_state. now flat_stack.
  - unfold OP_2DROP. run_shuffle.
Qed.

End Shuffles.

Section Compositions.
Context {B : Builtins}.

Ltac run_shuffle :=
  cbn [main]; pass_guard; nest_stack; run_steps;
  unfold return_new_state; flat_stack; reflexivity.

(** X6.  [OP_TUCK] does what [OP_SWAP] followed by [OP_OVER] does. *)
Theorem tuck_is_swap_over (rest al : list Value) (fl : option bool) (a b : Value) :
  (Z.of_nat (List.length (rest ++ [a; b])) < 2 ^ 32 - 1)%Z ->
  exists s1,
    OP_SWAP (mkState (rest ++ [a; b]) al fl) = NewState s1
    /\ OP_OVER s1 = OP_TUCK (mkState (rest ++ [a; b]) al fl)
    /\ OP_TUCK (mkState (rest ++ [a; b]) al fl)
       = NewState (mkState (rest ++ [b; a; b]) al fl).
Proof.
  intro Hs.
  assert (Hl : List.length (rest ++ [b; a]) = S (S (List.length rest)))
    by (rewrite length_app; cbn [List.length]; lia).
  assert (Hl' : List.length (rest ++ [a; b]) = S (S (List.length rest)))
    by (rewrite length_app; cbn [List.length]; lia).
  assert (Ht : OP_TUCK (mkState (rest ++ [a; b]) al fl)
               = NewState (mkState (rest ++ [b; a; b]) al fl))
    by (unfold OP_TUCK; run_shuffle).
  eexists. split; [unfold OP_SWAP; run_shuffle|]. split; [|exact Ht].
  rewrite Ht. unfold OP_OVER. cbn [main]. pass_guard.
  unfold try_catch, deepCopy. change Num.one with (Num.of_nat 1).
  rewrite run_peekNth by (rewrite Hl; lia).
  rewrite Hl.
  replace (S (S (List.length rest)) - 1 - 1) with (List.length rest) by lia.
  rewrite nth_middle. run_steps. unfold return_new_state. now flat_stack.
Qed.

Lemma to_number_bool (c : bool) :
  to_number (bool_number c) = inr (if c then Num.one else Num.zero).
Proof. now destruct c. Qed.

(** X7.  [OP_NOT] applied twice does what [OP_0NOTEQUAL] does: the top
    is replaced by 1 when it converts to a non-zero number, by 0 when it
    converts to zero. *)
Theorem not_not_is_0notequal (state : State) (rest : list Value) (v : Value)
    (x : number) :
  main state = rest ++ [v] ->
  to_number v = inr x ->
  exists s1,
    OP_NOT state = NewState s1
    /\ OP_NOT s1 = OP_0NOTEQUAL state
    /\ OP_0NOTEQUAL state
       = NewState (mkState (rest ++ [bool_number (Num.neqb x Num.zero)])
                     (alt state) (if_result state)).
Proof.
  intros Hm Hx. destruct state as [m al fl]; cbn [main alt if_result] in *.
  subst m.
  assert (H0 : OP_0NOTEQUAL (mkState (rest ++ [v]) al fl)
               = NewState (mkState (rest ++ [bool_number (Num.neqb x Num.zero)])
                             al fl)).
  { unfold OP_0NOTEQUAL. cbn [main]. pass_guard. run_steps.
    unfold return_new_state. reflexivity. }
  eexists. split; [|split; [|exact H0]].
  - unfold OP_NOT. cbn [main]. pass_guard. run_steps.
    unfold return_new_state. reflexivity.
  - rewrite H0. unfold OP_NOT. cbn [main]. pass_guard.
    unfold try_catch, deepCopy. rewrite run_pop.
    rewrite (run_num _ _ _ _ (to_number_bool _)). run_steps.
    unfold return_new_state, Num.neqb, Num.eqb.
    now destruct (SFeqb x Num.zero).
Qed.

(** X8.  [OP_IF] directly followed by [OP_ENDIF] leaves the stack
    without the condition, both stacks otherwise as they were, and no
    branch flag, whatever flag was open before. *)
Theorem if_then_endif (state : State) (rest : list Value) (v : Value)
    (x : number) :
  main state = rest ++ [v] ->
  to_number v = inr x ->
  exists s1,
    OP_IF state = NewState s1
    /\ if_result s1 = Some (Num.neqb x Num.zero)
    /\ OP_ENDIF s1 = NewState (mkState rest (alt state) None).
Proof.
  intros Hm Hx. eexists. split; [|split].
  - now apply (OP_IF_run state rest v x).
  - reflexivity.
  - reflexivity.
Qed.

End Compositions.

(* ===================================================================== *)
(** ** PICK and ROLL at an integer depth *)
(* ===================================================================== *)

Section Depths.
Context {B : Builtins}.

Lemma depth_guard_of_nat (size n : nat) :
  (Z.of_nat size < 2 ^ 32)%Z -> (Z.of_nat n < 2 ^ 32)%Z ->
  Num.ltb (Num.of_nat size) (Num.add (Num.of_nat n) Num.one)
  = Nat.leb size n.
Proof.
  intros Hs Hn. assert (2 ^ 32 < 2 ^ 53)%Z by reflexivity.
  unfold Num.of_nat. change Num.one with (Num.of_Z 1).
  rewrite Exact.add_exact by (unfold Safe.safe; lia).
  rewrite SafeOrder.ltb_of_Z by (unfold Safe.safe; lia).
  destruct (Nat.leb_spec size n); [apply Z.ltb_lt | apply Z.ltb_ge]; lia.
Qed.

Lemma depth_guard_of_Z (size : nat) (n : Z) :
  (Z.of_nat size < 2 ^ 32)%Z -> (Z.abs n < 2 ^ 32)%Z ->
  Num.ltb (Num.of_nat size) (Num.add (Num.of_Z n) Num.one)
  = (Z.of_nat size <? n + 1)%Z.
Proof.
  intros Hs Hn. assert (2 ^ 32 < 2 ^ 53)%Z by reflexivity.
  unfold Num.of_nat. change Num.one with (Num.of_Z 1).
  rewrite Exact.add_exact by (unfold Safe.safe; lia).
  now rewrite SafeOrder.ltb_of_Z by (unfold Safe.safe; lia).
Qed.

(** X9.  [OP_PICK] with an integer index [n] on top.  For [n] from 0
    on: when [n] is below the number of elements under the index, the
    element [n] places under the top of those is copied to the top, in
    place of the index; otherwise the opcode fails with "Stack too
    small for PICK" and hands back its input.  For a negative [n] the
    depth guard passes: with no element under the index the opcode
    fails with the exception of [peekNth], "Oops, the stack is empty!";
    with some element under it the index is replaced by [undefined]. *)
Theorem pick_by_depth (state : State) (rest : list Value) (index : Value)
    (n : Z) :
  main state = rest ++ [index] ->
  to_number index = inr (Num.of_Z n) ->
  (Z.of_nat (List.length rest) < 2 ^ 32)%Z ->
  (Z.abs n < 2 ^ 32)%Z ->
  OP_PICK state
  = if (n <? 0)%Z
    then
      if Nat.eqb (List.length rest) 0
      then StateError (Caught (ResultException "Oops, the stack is empty!"))
             state
      else NewState
             (mkState (rest ++ [VUndefined]) (alt state) (if_result state))
    else if Nat.ltb (Z.to_nat n) (List.length rest)
    then NewState
           (mkState
              (rest ++ [List.nth (List.length rest - 1 - Z.to_nat n) rest
                          VUndefined])
              (alt state) (if_result state))
    else StateError (Message "Stack too small for PICK") state.
Proof.
  intros Hm Hx Hs Hn. destruct state as [m al fl]; cbn [main alt if_result] in *.
  subst m. unfold OP_PICK. cbn [main]. pass_guard. run_steps.
  rewrite depth_guard_of_Z by assumption.
  destruct (Z.ltb_spec n 0) as [N|N].
  - replace (Z.of_nat (List.length rest) <? n + 1)%Z with false
      by (symmetry; apply Z.ltb_ge; lia).
    unfold bind, main_peekNth, call. cbn [main].
    destruct (Nat.eqb_spec (List.length rest) 0) as [E|E].
    + unfold Stack.peekNth. rewrite E. reflexivity.
    + rewrite peekNth_negative by lia. reflexivity.
  - destruct (Nat.ltb_spec (Z.to_nat n) (List.length rest)) as [L|L].
    + replace (Z.of_nat (List.length rest) <? n + 1)%Z with false
        by (symmetry; apply Z.ltb_ge; lia).
      replace (Num.of_Z n) with (Num.of_nat (Z.to_nat n))
        by (unfold Num.of_nat; now rewrite Z2Nat.id).
      rewrite run_peekNth by assumption. run_steps.
      unfold return_new_state. reflexivity.
    + replace (Z.of_nat (List.length rest) <? n + 1)%Z with true
        by (symmetry; apply Z.ltb_lt; lia).
      reflexivity.
Qed.

End Depths.

(* ===================================================================== *)
(** ** The loops of ROLL and CHECKMULTISIG *)
(* ===================================================================== *)

Section Loops.
Context {B : Builtins}.

Lemma loop_condition (i n : nat) :
  (Z.of_nat n < 2 ^ 32)%Z -> (Z.of_nat i < 2 ^ 32)%Z ->
  Num.ltb (Num.of_nat i) (Num.of_nat n) = Nat.ltb i n.
Proof.
  intros Hn Hi. assert (2 ^ 32 < 2 ^ 53)%Z by reflexivity.
  unfold Num.of_nat.
  rewrite SafeOrder.ltb_of_Z by (unfold Safe.safe; lia).
  destruct (Nat.ltb_spec i n); [apply Z.ltb_lt | apply Z.ltb_ge]; lia.
Qed.

(** A loop that pops up to the count [n]: it takes the [n - i] top
    elements, the top first. *)
Lemma popping_loop_run {A} (g : A -> Value -> A) (n : nat) (m al : Stack.t)
    (fl : option bool) :
  (Z.of_nat n < 2 ^ 32)%Z ->
  forall (taken : list Value) (fuel i : nat) (acc : A),
    i + List.length taken = n ->
    List.length taken < fuel ->
    for_lt fuel i (Num.of_nat n) (fun acc => v <- main_pop ;; ret (g acc v)) acc
      (mkState (m ++ taken) al fl)
    = Normal (List.fold_left g (List.rev taken) acc) (mkState m al fl).
Proof.
  intros Hn taken.
  induction taken as [|v taken IH] using rev_ind; intros fuel i acc Hi Hf;
    (destruct fuel as [|fuel]; [simpl in Hf; lia|]);
    rewrite for_lt_S, loop_condition by lia.
  - simpl in Hi. rewrite Nat.add_0_r in Hi. subst i.
    rewrite Nat.ltb_irrefl, app_nil_r. reflexivity.
  - rewrite length_snoc in Hi, Hf.
    replace (Nat.ltb i n) with true by (symmetry; apply Nat.ltb_lt; lia).
    rewrite app_assoc. unfold bind at 1. rewrite run_pop. unfold ret at 1.
    rewrite IH by lia. now rewrite rev_unit.
Qed.

(** The loop of [OP_ROLL] that pushes [temp_stack] back. *)
Lemma pushing_loop_run (n : nat) (al : Stack.t) (fl : option bool) :
  (Z.of_nat n < 2 ^ 32)%Z ->
  forall (temp : list Value) (m : Stack.t) (fuel i : nat),
    i + List.length temp = n ->
    List.length temp < fuel ->
    for_lt fuel i (Num.of_nat n)
      (fun temp_stack =>
         let (v, rest) := array_pop temp_stack in main_push v ;; ret rest)
      temp (mkState m al fl)
    = Normal [] (mkState (m ++ List.rev temp) al fl).
Proof.
  intros Hn temp.
  induction temp as [|v temp IH] using rev_ind; intros m fuel i Hi Hf;
    (destruct fuel as [|fuel]; [simpl in Hf; lia|]);
    rewrite for_lt_S, loop_condition by lia.
  - simpl in Hi. rewrite Nat.add_0_r in Hi. subst i.
    rewrite Nat.ltb_irrefl. simpl. now rewrite app_nil_r.
  - rewrite length_snoc in Hi, Hf.
    replace (Nat.ltb i n) with true by (symmetry; apply Nat.ltb_lt; lia).
    assert (Hp : array_pop (temp ++ [v]) = (v, temp)).
    { unfold array_pop. destruct (temp ++ [v]) eqn:E.
      - now destruct temp.
      - rewrite <- E. now rewrite last_last, removelast_last. }
    rewrite Hp. unfold bind at 1. rewrite run_push. unfold ret at 1.
    rewrite IH by lia. rewrite rev_unit. now rewrite <- app_assoc.
Qed.

(** X10.  [OP_ROLL] with an integer index [n] on top: the element [n]
    places under the top of the remaining stack is moved to the top, the
    elements above it keep their order, and the index is consumed. *)
Theorem roll_moves_to_top (state : State) (below above : list Value)
    (x index : Value) :
  main state = below ++ [x] ++ above ++ [index] ->
  to_number index = inr (Num.of_nat (List.length above)) ->
  (Z.of_nat (List.length (below ++ [x] ++ above)) < 2 ^ 32)%Z ->
  OP_ROLL state
  = NewState (mkState (below ++ above ++ [x]) (alt state) (if_result state)).
Proof.
  intros Hm Hx Hs. destruct state as [m al fl]; cbn [main alt if_result] in *.
  subst m. rewrite !length_app in Hs. cbn [List.length] in Hs.
  unfold OP_ROLL. cbn [main]. pass_guard.
  replace (below ++ [x] ++ above ++ [index])
    with ((below ++ [x] ++ above) ++ [index])
    by (now rewrite <- !app_assoc).
  run_steps.
  rewrite depth_guard_of_nat by (rewrite ?length_app; cbn [List.length]; lia).
  replace (Nat.leb (List.length (below ++ [x] ++ above)) (List.length above))
    with false
    by (symmetry; apply Nat.leb_gt; rewrite !length_app; cbn [List.length]; lia).
  replace (below ++ [x] ++ above) with ((below ++ [x]) ++ above)
    by (now rewrite <- app_assoc).
  unfold bind at 1.
  rewrite (popping_loop_run (fun temp v => temp ++ [v]) (List.length above))
    by (rewrite ?length_app; cbn [List.length]; lia).
  replace (List.fold_left (fun temp v => temp ++ [v]) (List.rev above) [])
    with (List.rev above).
  2:{ generalize (List.rev above). intro l.
      assert (G : forall acc, List.fold_left (fun temp v => temp ++ [v]) l acc
                              = acc ++ l).
      { induction l as [|a l IH]; intro acc; simpl.
        - now rewrite app_nil_r.
        - rewrite IH. now rewrite <- app_assoc. }
      now rewrite G. }
  rewrite run_pop. unfold bind at 1.
  rewrite (pushing_loop_run (List.length above))
    by (rewrite ?length_rev; lia).
  rewrite rev_involutive. run_steps. unfold return_new_state.
  now rewrite <- app_assoc.
Qed.

(** The loop that discards [count] elements. *)
Lemma pop_loop_run (m taken al : Stack.t) (fl : option bool) :
  (Z.of_nat (List.length (m ++ taken)) < 2 ^ 32)%Z ->
  pop_loop (Num.of_nat (List.length taken)) (mkState (m ++ taken) al fl)
  = Normal tt (mkState m al fl).
Proof.
  intro Hs. rewrite length_app in Hs. unfold pop_loop. rewrite run_size.
  rewrite (popping_loop_run (fun _ _ => tt) (List.length taken))
    by (cbn [main]; rewrite ?length_app; lia).
  f_equal. generalize (List.rev taken). intro l. now induction l.
Qed.

(** X11.  [OP_CHECKMULTISIG] on a well-formed stack (a dummy element, the
    signatures, their count, the public keys, their count on top)
    replaces all of them by 1, and [OP_CHECKMULTISIGVERIFY] removes them
    all: the simulated check never fails. *)
Theorem multisig_consumes_operands (state : State)
    (rest sigs keys : list Value) (dummy n_sigs n_keys : Value) :
  main state = rest ++ [dummy] ++ sigs ++ [n_sigs] ++ keys ++ [n_keys] ->
  to_number n_keys = inr (Num.of_nat (List.length keys)) ->
  to_number n_sigs = inr (Num.of_nat (List.length sigs)) ->
  (Z.of_nat (List.length (main state)) < 2 ^ 32)%Z ->
  OP_CHECKMULTISIG state
  = NewState (mkState (rest ++ [VNum Num.one]) (alt state) (if_result state))
  /\ OP_CHECKMULTISIGVERIFY state
     = NewState (mkState rest (alt state) (if_result state)).
Proof.
  intros Hm Hk Hg Hs. destruct state as [m al fl]; cbn [main alt if_result] in *.
  subst m. rewrite !length_app in Hs. cbn [List.length] in Hs.
  assert (Hbody : forall (st : State) (k : Body OpResult),
             multisig_body st k
               (mkState (rest ++ [dummy] ++ sigs ++ [n_sigs] ++ keys ++ [n_keys])
                  al fl)
             = k (mkState (rest ++ [VNum Num.one]) al fl)).
  { intros st k. unfold multisig_body.
    replace (rest ++ [dummy] ++ sigs ++ [n_sigs] ++ keys ++ [n_keys])
      with (((((rest ++ [dummy]) ++ sigs) ++ [n_sigs]) ++ keys) ++ [n_keys])
      by (now rewrite <- !app_assoc).
    run_steps.
    assert (C1 : Num.ltb
                   (Num.of_nat (List.length ((((rest ++ [dummy]) ++ sigs) ++ [n_sigs]) ++ keys)))
                   (Num.of_nat (List.length keys)) = false).
    { rewrite loop_condition by (rewrite ?length_app; cbn [List.length]; lia).
      apply Nat.ltb_ge. rewrite !length_app. lia. }
    rewrite C1. unfold bind at 1.
    rewrite pop_loop_run by (rewrite ?length_app; cbn [List.length]; lia).
    rewrite run_size. cbn [main].
    replace (Nat.ltb (List.length (((rest ++ [dummy]) ++ sigs) ++ [n_sigs])) 1)
      with false
      by (symmetry; apply Nat.ltb_ge; rewrite !length_app; cbn [List.length]; lia).
    run_steps.
    assert (C2 : Num.ltb
                   (Num.of_nat (List.length ((rest ++ [dummy]) ++ sigs)))
                   (Num.of_nat (List.length sigs)) = false).
    { rewrite loop_condition by (rewrite ?length_app; cbn [List.length]; lia).
      apply Nat.ltb_ge. rewrite !length_app. lia. }
    rewrite C2. unfold bind at 1.
    rewrite pop_loop_run by (rewrite ?length_app; cbn [List.length]; lia).
    rewrite run_size. cbn [main].
    replace (Nat.ltb (List.length (rest ++ [dummy])) 1) with false
      by (symmetry; apply Nat.ltb_ge; rewrite !length_app; cbn [List.length]; lia).
    run_steps. reflexivity. }
  split.
  - unfold OP_CHECKMULTISIG. cbn [main]. pass_guard.
    unfold try_catch, deepCopy. rewrite Hbody. reflexivity.
  - unfold OP_CHECKMULTISIGVERIFY. cbn [main]. pass_guard.
    unfold try_catch, deepCopy. rewrite Hbody.
    unfold verify_top. rewrite run_pop.
    replace (VNum Num.one) with (bool_number true) by reflexivity.
    rewrite (run_num _ _ _ _ (to_number_bool true)). reflexivity.
Qed.

End Loops.

(* ===================================================================== *)
(** ** The numeric opcodes on safe integers *)
(* ===================================================================== *)

Section Integers.
Context {B : Builtins}.

Lemma zero_is_of_Z : Num.zero = Num.of_Z 0.
Proof. reflexivity. Qed.

Lemma safe_0 : Safe.safe 0.
Proof. reflexivity. Qed.

Lemma truth_of_Z (c : bool) : truth c = Num.of_Z (truth_Z c).
Proof. now destruct c. Qed.

Lemma neqb_zero_of_Z (x : Z) :
  Safe.safe x -> Num.neqb (Num.of_Z x) Num.zero = negb (x =? 0)%Z.
Proof.
  intro H. unfold Num.neqb. fold (Num.eqb (Num.of_Z x) Num.zero).
  rewrite zero_is_of_Z, SafeOrder.eqb_of_Z; [reflexivity | exact H | exact safe_0].
Qed.

Lemma of_Z_zero_or_finite (x : Z) :
  Safe.safe x ->
  (x = 0%Z /\ Num.of_Z x = S754_zero false)
  \/ (x <> 0%Z /\ exists s m e, Num.of_Z x = S754_finite s m e).
Proof.
  intro H. destruct (Exact.signed_cases x) as [->|(s & p & -> & Px)].
  - left. split; reflexivity.
  - right. split; [destruct s; discriminate|].
    unfold Safe.safe in H. rewrite Exact.of_Z_signed by lia.
    unfold Safe.canon. eauto.
Qed.

Lemma min_of_Z (x y : Z) :
  Safe.safe x -> Safe.safe y ->
  Num.min (Num.of_Z x) (Num.of_Z y) = Num.of_Z (Z.min x y).
Proof.
  intros Hx Hy.
  assert (E : (if Num.ltb (Num.of_Z y) (Num.of_Z x) then Num.of_Z y else Num.of_Z x)
              = Num.of_Z (Z.min x y)).
  { rewrite SafeOrder.ltb_of_Z by assumption.
    destruct (Z.ltb_spec y x); f_equal; lia. }
  unfold Num.min. rewrite !of_Z_not_NaN by assumption. cbn [orb].
  destruct (of_Z_zero_or_finite x Hx) as [[-> Ex]|[Nx (sx & mx & ex & Ex)]];
    destruct (of_Z_zero_or_finite y Hy) as [[-> Ey]|[Ny (sy & my & ey & Ey)]];
    rewrite <- E; rewrite ?Ex, ?Ey; reflexivity.
Qed.

Lemma max_of_Z (x y : Z) :
  Safe.safe x -> Safe.safe y ->
  Num.max (Num.of_Z x) (Num.of_Z y) = Num.of_Z (Z.max x y).
Proof.
  intros Hx Hy.
  assert (E : (if Num.ltb (Num.of_Z x) (Num.of_Z y) then Num.of_Z y else Num.of_Z x)
              = Num.of_Z (Z.max x y)).
  { rewrite SafeOrder.ltb_of_Z by assumption.
    destruct (Z.ltb_spec x y); f_equal; lia. }
  unfold Num.max. rewrite !of_Z_not_NaN by assumption. cbn [orb].
  destruct (of_Z_zero_or_finite x Hx) as [[-> Ex]|[Nx (sx & mx & ex & Ex)]];
    destruct (of_Z_zero_or_finite y Hy) as [[-> Ey]|[Ny (sy & my & ey & Ey)]];
    rewrite <- E; rewrite ?Ex, ?Ey; reflexivity.
Qed.

Lemma binary_numeric_steps
    (name : string) (operation : number -> number -> number)
    (f : OpcodeFunction) (rest : list Value) (al : list Value) (fl : option bool)
    (va vb : Value) (a b : number) :
  In (name, operation) binary_numeric ->
  lookup opcodeList name = Some f ->
  to_number va = inr a ->
  to_number vb = inr b ->
  f (mkState (rest ++ [vb; va]) al fl)
  = NewState (mkState (rest ++ [VNum (operation b a)]) al fl).
Proof.
  intros Hin Hf Ha Hb.
  pose proof (to_number_not_NaN _ _ Ha) as Na.
  pose proof (to_number_not_NaN _ _ Hb) as Nb.
  repeat (destruct Hin as [Hin | Hin];
          [ injection Hin as <- <-; injection Hf as <-;
            unfold OP_ADD, OP_SUB, OP_BOOLAND, OP_BOOLOR, OP_GREATERTHAN,
              OP_GREATERTHANOREQUAL, OP_LESSTHAN, OP_LESSTHANOREQUAL,
              OP_MIN, OP_MAX, OP_NUMEQUAL, OP_NUMNOTEQUAL;
            cbn [main]; pass_guard; nest_stack; run_steps;
            unfold return_new_state, bool_number, truth; flat_stack;
            first [ reflexivity
                  | now rewrite andb_comm
                  | now rewrite orb_comm
                  | now rewrite (NumFacts.min_comm a b Na Nb)
                  | now rewrite (NumFacts.max_comm a b Na Nb) ]
          | ]).
  destruct Hin.
Qed.

Lemma integer_binary_sound (name : string) (operation : Z -> Z -> Z) :
  In (name, operation) integer_binary ->
  exists on_numbers,
    In (name, on_numbers) binary_numeric
    /\ forall l r, Safe.safe l -> Safe.safe r -> Safe.safe (operation l r) ->
         on_numbers (Num.of_Z l) (Num.of_Z r) = Num.of_Z (operation l r).
Proof.
  intro Hin.
  repeat (destruct Hin as [Hin | Hin];
          [ injection Hin as <- <-;
            eexists; split;
            [ unfold binary_numeric; cbn [In]; auto 20 | ];
            intros l r Sl Sr Sres; cbn beta;
            rewrite ?truth_of_Z;
            unfold Num.gtb, Num.geb;
            try fold (Num.ltb (Num.of_Z r) (Num.of_Z l));
            try fold (Num.leb (Num.of_Z r) (Num.of_Z l));
            rewrite ?neqb_zero_of_Z by assumption;
            try (unfold Num.neqb; fold (Num.eqb (Num.of_Z l) (Num.of_Z r)));
            rewrite ?SafeOrder.ltb_of_Z, ?SafeOrder.leb_of_Z,
              ?SafeOrder.eqb_of_Z, ?min_of_Z, ?max_of_Z by assumption;
            rewrite ?Z.gtb_ltb, ?Z.geb_leb;
            first [ reflexivity
                  | apply Exact.add_exact; assumption
                  | apply Exact.sub_exact; assumption ]
          | ]).
  destruct Hin.
Qed.

(** X12.  On a stack whose top converts to the safe integer [a] and
    whose second element converts to the safe integer [b], each binary
    numeric opcode pushes what integer arithmetic gives for [b] (left)
    and [a] (right), as long as that result is a safe integer too. *)
Theorem binary_numeric_on_integers
    (name : string) (operation : Z -> Z -> Z) (f : OpcodeFunction)
    (state : State) (rest : list Value) (va vb : Value) (a b : Z) :
  In (name, operation) integer_binary ->
  lookup opcodeList name = Some f ->
  main state = rest ++ [vb; va] ->
  to_number va = inr (Num.of_Z a) ->
  to_number vb = inr (Num.of_Z b) ->
  Safe.safe a -> Safe.safe b -> Safe.safe (operation b a) ->
  f state
  = NewState (mkState (rest ++ [VNum (Num.of_Z (operation b a))])
                (alt state) (if_result state)).
Proof.
  intros Hin Hf Hm Ha Hb Sa Sb Sr.
  destruct (integer_binary_sound _ _ Hin) as (on_numbers & Hn & Hsound).
  destruct state as [m al fl]; cbn [main alt if_result] in *. subst m.
  rewrite (binary_numeric_steps _ _ _ rest al fl _ _ _ _ Hn Hf Ha Hb).
  now rewrite Hsound.
Qed.

End Integers.

Section UnaryIntegers.
Context {B : Builtins}.

Lemma safe_1 : Safe.safe 1.
Proof. reflexivity. Qed.

Lemma neg_of_Z (x : Z) :
  Safe.safe x -> x <> 0%Z -> Num.neg (Num.of_Z x) = Num.of_Z (- x).
Proof.
  intros Hs Hx. unfold Safe.safe in Hs.
  destruct (Exact.signed_cases x) as [->|(s & p & -> & Px)]; [now contradiction Hx|].
  replace (- Safe.signed s p)%Z with (Safe.signed (negb s) p)
    by (destruct s; reflexivity).
  rewrite !Exact.of_Z_signed by lia. reflexivity.
Qed.

Lemma abs_of_Z (x : Z) :
  Safe.safe x -> Num.abs (Num.of_Z x) = Num.of_Z (Z.abs x).
Proof.
  intros Hs. unfold Safe.safe in Hs.
  destruct (Exact.signed_cases x) as [->|(s & p & -> & Px)]; [reflexivity|].
  replace (Z.abs (Safe.signed s p)) with (Safe.signed false p)
    by (destruct s; reflexivity).
  rewrite !Exact.of_Z_signed by lia. reflexivity.
Qed.

(** X13.  On a stack whose top converts to the safe integer [x], each
    unary numeric opcode replaces the top by what integer arithmetic
    gives, as long as that is a safe integer too.  [OP_NEGATE] is the
    exception at zero, where the number it pushes is the negative
    zero. *)
Theorem unary_numeric_on_integers
    (name : string) (operation : Z -> Z) (f : OpcodeFunction)
    (state : State) (rest : list Value) (v : Value) (x : Z) :
  In (name, operation) integer_unary ->
  lookup opcodeList name = Some f ->
  main state = rest ++ [v] ->
  to_number v = inr (Num.of_Z x) ->
  Safe.safe x -> Safe.safe (operation x) ->
  (name = "OP_NEGATE" -> x <> 0%Z) ->
  f state
  = NewState (mkState (rest ++ [VNum (Num.of_Z (operation x))])
                (alt state) (if_result state)).
Proof.
  intros Hin Hf Hm Hx Sx Sr Hneg.
  destruct state as [m al fl]; cbn [main alt if_result] in *. subst m.
  unfold integer_unary in Hin. cbn [In] in Hin.
  destruct Hin as [Hin|[Hin|[Hin|[Hin|[Hin|[Hin|[]]]]]]];
    injection Hin as <- <-; injection Hf as <-.
  - unfold OP_1ADD. unfold try_catch, deepCopy. run_steps.
    unfold return_new_state. change Num.one with (Num.of_Z 1).
    rewrite Exact.add_exact by (assumption || exact safe_1). reflexivity.
  - unfold OP_1SUB. unfold try_catch, deepCopy. run_steps.
    unfold return_new_state. change Num.one with (Num.of_Z 1).
    rewrite Exact.sub_exact by (assumption || exact safe_1). reflexivity.
  - unfold OP_NEGATE. cbn [main]. pass_guard. run_steps.
    unfold return_new_state. rewrite neg_of_Z by auto. reflexivity.
  - unfold OP_ABS. cbn [main]. pass_guard. run_steps.
    unfold return_new_state. rewrite abs_of_Z by assumption. reflexivity.
  - unfold OP_NOT. cbn [main]. pass_guard. run_steps.
    unfold return_new_state, bool_number.
    fold (truth (Num.eqb (Num.of_Z x) Num.zero)).
    rewrite truth_of_Z, zero_is_of_Z, SafeOrder.eqb_of_Z
      by (assumption || exact safe_0).
    reflexivity.
  - unfold OP_0NOTEQUAL. cbn [main]. pass_guard. run_steps.
    unfold return_new_state, bool_number.
    fold (truth (Num.neqb (Num.of_Z x) Num.zero)).
    rewrite truth_of_Z, neqb_zero_of_Z by assumption.
    reflexivity.
Qed.

(** X14.  [OP_NEGATE] flips the sign of a zero: on a top that converts
    to the zero of sign [s] it pushes the zero of the other sign. *)
Theorem negate_flips_the_sign_of_zero
    (state : State) (rest : list Value) (v : Value) (s : bool) :
  main state = rest ++ [v] ->
  to_number v = inr (S754_zero s) ->
  OP_NEGATE state
  = NewState (mkState (rest ++ [VNum (S754_zero (negb s))])
                (alt state) (if_result state)).
Proof.
  intros Hm Hx.
  destruct state as [m al fl]; cbn [main alt if_result] in *. subst m.
  unfold OP_NEGATE. cbn [main]. pass_guard. run_steps.
  unfold return_new_state. reflexivity.
Qed.

(** X15.  [OP_WITHIN] on safe integers: with [x] third from the top,
    the lower bound second and the upper bound on top, it replaces the
    three by 1 when [lower <= x < upper] and by 0 otherwise. *)
Theorem within_on_integers
    (state : State) (rest : list Value) (vx vmin vmax : Value)
    (x lower upper : Z) :
  main state = rest ++ [vx; vmin; vmax] ->
  to_number vx = inr (Num.of_Z x) ->
  to_number vmin = inr (Num.of_Z lower) ->
  to_number vmax = inr (Num.of_Z upper) ->
  Safe.safe x -> Safe.safe lower -> Safe.safe upper ->
  OP_WITHIN state
  = NewState (mkState
                (rest ++ [VNum (Num.of_Z
                                  (truth_Z ((lower <=? x)%Z && (x <? upper)%Z)))])
                (alt state) (if_result state)).
Proof.
  intros Hm Hx Hlo Hup Sx Slo Sup.
  destruct state as [m al fl]; cbn [main alt if_result] in *. subst m.
  unfold OP_WITHIN. cbn [main]. pass_guard. nest_stack. run_steps.
  unfold return_new_state, bool_number. flat_stack.
  fold (truth (Num.geb (Num.of_Z x) (Num.of_Z lower)
               && Num.ltb (Num.of_Z x) (Num.of_Z upper))).
  unfold Num.geb. fold (Num.leb (Num.of_Z lower) (Num.of_Z x)).
  rewrite truth_of_Z, SafeOrder.leb_of_Z, SafeOrder.ltb_of_Z by assumption.
  reflexivity.
Qed.

End UnaryIntegers.

Section Verifying.
Context {B : Builtins}.

Lemma verify_top_pushed (state : State) (m al : Stack.t) (fl : option bool)
    (v : Value) (x : number) :
  to_number v = inr x ->
  verify_top state (mkState (m ++ [v]) al fl)
  = Normal (if Num.eqb x Num.zero
            then error (Message "Verification failed") state
            else NewState (mkState m al fl))
      (mkState m al fl).
Proof.
  intro Hx. unfold verify_top. rewrite run_pop, (run_num _ _ _ _ Hx).
  now destruct (Num.eqb x Num.zero).
Qed.

Lemma OP_VERIFY_pushed (m al : Stack.t) (fl : option bool) (v : Value)
    (x : number) :
  to_number v = inr x ->
  OP_VERIFY (mkState (m ++ [v]) al fl)
  = if Num.eqb x Num.zero
    then error (Message "Verification failed") (mkState (m ++ [v]) al fl)
    else NewState (mkState m al fl).
Proof.
  intro Hx. unfold OP_VERIFY. cbn [main]. pass_guard.
  unfold try_catch, deepCopy. rewrite (verify_top_pushed _ _ _ _ _ _ Hx).
  now destruct (Num.eqb x Num.zero).
Qed.

Lemma to_number_one : to_number (VNum Num.one) = inr Num.one.
Proof. reflexivity. Qed.

(** The two multi-signature checks run the same statements up to the
    push of 1. *)
Lemma multisig_then_verify (state ns s1 ns1 : State) :
  multisig_body state return_new_state ns = Normal (NewState s1) ns1 ->
  exists m al fl,
    s1 = mkState (m ++ [VNum Num.one]) al fl
    /\ multisig_body state (verify_top state) ns
       = Normal (NewState (mkState m al fl)) (mkState m al fl).
Proof.
  unfold multisig_body, bind.
  destruct (main_pop ns) as [n_pubkeys ns2|]; [|discriminate].
  destruct (num n_pubkeys ns2) as [num_pubkeys ns3|]; [|discriminate].
  destruct (main_size ns3) as [size ns4|]; [|discriminate].
  destruct (Num.ltb (Num.of_nat size) num_pubkeys); [discriminate|].
  destruct (pop_loop num_pubkeys ns4) as [u ns5|]; [|discriminate].
  destruct (main_size ns5) as [size2 ns6|]; [|discriminate].
  destruct (Nat.ltb size2 1); [discriminate|].
  destruct (main_pop ns6) as [n_sigs ns7|]; [|discriminate].
  destruct (num n_sigs ns7) as [num_sigs ns8|]; [|discriminate].
  destruct (main_size ns8) as [size3 ns9|]; [|discriminate].
  destruct (Num.ltb (Num.of_nat size3) num_sigs); [discriminate|].
  destruct (pop_loop num_sigs ns9) as [u2 ns10|]; [|discriminate].
  destruct (main_size ns10) as [size4 ns11|]; [|discriminate].
  destruct (Nat.ltb size4 1); [discriminate|].
  destruct (main_pop ns11) as [dummy ns12|]; [|discriminate].
  destruct ns12 as [m al fl].
  unfold main_push, return_new_state, Stack.push. cbn [main alt if_result].
  intros [= <- _]. exists m, al, fl. split; [reflexivity|].
  now rewrite (verify_top_pushed _ _ _ _ _ _ to_number_one).
Qed.

(** X16.  An opcode that ends with a verification does what the plain
    opcode followed by [OP_VERIFY] does, when the plain opcode
    succeeds; only the state that a failed verification hands back
    differs: it is the state from before the opcode. *)
Theorem verifying_is_plain_then_verify
    (plain checked : string) (f fv : OpcodeFunction) (state s1 : State) :
  In (plain, checked) verifying ->
  lookup opcodeList plain = Some f ->
  lookup opcodeList checked = Some fv ->
  f state = NewState s1 ->
  fv state
  = match OP_VERIFY s1 with
    | NewState s2 => NewState s2
    | StateError e _ => StateError e state
    end.
Proof.
  intros Hin Hf Hfv.
  unfold verifying in Hin. cbn [In] in Hin.
  destruct state as [m al fl].
  destruct Hin as [Hin|[Hin|[Hin|[Hin|[]]]]];
    injection Hin as <- <-; injection Hf as <-; injection Hfv as <-.
  - unfold OP_EQUAL, OP_EQUALVERIFY. cbn [main].
    destruct (Nat.ltb (Stack.size m) 2) eqn:G; [discriminate|].
    destruct m as [|a m _] using rev_ind; [discriminate G|].
    destruct m as [|b m _] using rev_ind; [discriminate G|].
    run_steps. unfold return_new_state. intros [= <-].
    rewrite (verify_top_pushed _ _ _ _ _ _ (to_number_bool _)).
    rewrite (OP_VERIFY_pushed _ _ _ _ _ (to_number_bool _)).
    now destruct (Num.eqb _ Num.zero).
  - unfold OP_NUMEQUAL, OP_NUMEQUALVERIFY. cbn [main].
    destruct (Nat.ltb (Stack.size m) 2) eqn:G; [discriminate|].
    destruct m as [|a m _] using rev_ind; [discriminate G|].
    destruct m as [|b m _] using rev_ind; [discriminate G|].
    unfold try_catch, deepCopy. rewrite !run_pop.
    destruct (to_number a) as [ea|num_a] eqn:Ea;
      [unfold bind, num, call; rewrite Ea; discriminate|].
    rewrite !(run_num _ _ _ _ Ea).
    destruct (to_number b) as [eb|num_b] eqn:Eb;
      [unfold bind, num, call; rewrite Eb; discriminate|].
    rewrite !(run_num _ _ _ _ Eb).
    rewrite !run_push. unfold return_new_state. intros [= <-].
    rewrite (verify_top_pushed _ _ _ _ _ _ (to_number_bool _)).
    rewrite (OP_VERIFY_pushed _ _ _ _ _ (to_number_bool _)).
    now destruct (Num.eqb _ Num.zero).
  - unfold OP_CHECKSIG, OP_CHECKSIGVERIFY. cbn [main].
    destruct (Nat.ltb (Stack.size m) 2) eqn:G; [discriminate|].
    destruct m as [|a m _] using rev_ind; [discriminate G|].
    destruct m as [|b m _] using rev_ind; [discriminate G|].
    run_steps. unfold return_new_state. intros [= <-].
    rewrite (verify_top_pushed _ _ _ _ _ _ to_number_one).
    now rewrite (OP_VERIFY_pushed _ _ _ _ _ to_number_one).
  - unfold OP_CHECKMULTISIG, OP_CHECKMULTISIGVERIFY. cbn [main].
    destruct (Nat.ltb (Stack.size m) 1) eqn:G; [discriminate|].
    unfold try_catch, deepCopy.
    destruct (multisig_body (mkState m al fl) return_new_state (mkState m al fl))
      as [r ns1|] eqn:E; [|discriminate].
    intros ->.
    apply multisig_then_verify in E as (m' & al' & fl' & -> & ->).
    now rewrite (OP_VERIFY_pushed _ _ _ _ _ to_number_one).
Qed.

End Verifying.

(* ===================================================================== *)
(** ** What every opcode of the table leaves alone *)
(* ===================================================================== *)

Section ErrorFrame.
Context {B : Builtins}.

Lemma errs_with_bind {A} (state : State) (c : Body A) (k : A -> Body OpResult) :
  (forall a, errs_with state (k a)) -> errs_with state (bind c k).
Proof.
  intros Hk ns r ns' e s'. unfold bind.
  destruct (c ns) as [a ns1|x]; [|discriminate].
  apply Hk.
Qed.

Lemma errs_with_error (e : ErrorValue) (state : State) :
  errs_with state (ret (error e state)).
Proof. intros ns r ns' e' s' [= <- _] [= _ <-]. reflexivity. Qed.

Lemma errs_with_new_state (state : State) : errs_with state return_new_state.
Proof. intros ns r ns' e s' [= <- _]. discriminate. Qed.

Lemma try_catch_error (state new_state s' : State) (e : ErrorValue)
    (body : Body OpResult) :
  errs_with state body ->
  try_catch state new_state body = StateError e s' ->
  s' = state.
Proof.
  intros Hb. unfold try_catch.
  destruct (body new_state) as [r ns'|x] eqn:E.
  - intros ->. eapply Hb; eauto.
  - now intros [= _ <-].
Qed.

Ltac error_frame :=
  repeat first
    [ apply errs_with_error
    | apply errs_with_new_state
    | apply errs_with_bind; intro
    | match goal with
      | |- errs_with _ (if ?c then _ else _) => destruct c
      | |- errs_with _ (let (_, _) := ?p in _) => destruct p
      | |- errs_with _ (match ?p with _ => _ end) => destruct p
      end ].

Lemma errs_with_verify_top (state : State) : errs_with state (verify_top state).
Proof. unfold verify_top. error_frame. Qed.

Lemma errs_with_multisig (state : State) (k : Body OpResult) :
  errs_with state k -> errs_with state (multisig_body state k).
Proof. intro Hk. unfold multisig_body. error_frame. exact Hk. Qed.

(** X17.  Whatever makes an opcode of the table fail (a guard, an
    exception of the stack, a value that is not a number, a failed
    verification), the error it returns carries the state it was given. *)
Theorem error_carries_input_state
    (name : string) (f : OpcodeFunction) (state s' : State) (e : ErrorValue) :
  lookup opcodeList name = Some f ->
  f state = StateError e s' ->
  s' = state.
Proof.
  intros Hf.
  apply lookup_In in Hf. unfold opcodeList in Hf.
  repeat (destruct Hf as [Hf | Hf];
          [ injection Hf as _ <-;
            unfold OP_0NOTEQUAL, OP_1ADD, OP_1SUB, OP_2DROP, OP_2DUP,
              OP_2OVER, OP_2ROT, OP_2SWAP, OP_3DUP, OP_ABS, OP_ADD,
              OP_BOOLAND, OP_BOOLOR, OP_CAT, OP_CHECKMULTISIG,
              OP_CHECKMULTISIGVERIFY, OP_CHECKSIG, OP_CHECKSIGADD,
              OP_CHECKSIGVERIFY, OP_DEPTH, OP_DROP, OP_DUP, OP_ELSE,
              OP_ENDIF, OP_EQUAL, OP_EQUALVERIFY, OP_FROMALTSTACK,
              OP_GREATERTHAN,
              OP_GREATERTHANOREQUAL, OP_HASH, OP_IF, OP_IFDUP,
              OP_LESSTHAN, OP_LESSTHANOREQUAL, OP_MAX, OP_MIN, OP_NEGATE,
              OP_NIP, OP_NOP, OP_NOT, OP_NOTIF, OP_NUMEQUAL,
              OP_NUMEQUALVERIFY, OP_NUMNOTEQUAL, OP_OVER, OP_PICK,
              OP_ROLL, OP_ROT, OP_SIZE, OP_SUB, OP_SWAP, OP_TOALTSTACK,
              OP_TUCK, OP_VERIFY, OP_WITHIN, error, deepCopy;
            repeat match goal with
              | |- context [if ?c then StateError _ _ else _] => destruct c
              | |- context [match if_result ?s with _ => _ end] =>
                  destruct (if_result s)
              end;
            first
              [ discriminate
              | now intros [= _ <-]
              | apply try_catch_error;
                first [ apply errs_with_multisig; error_frame
                      | apply errs_with_verify_top
                      | error_frame ] ]
          | ]).
  destruct Hf.
Qed.

End ErrorFrame.

Section FlagFrame.
Context {B : Builtins}.

Lemma keeps_flag_ret {A} (a : A) : keeps_flag (ret a).
Proof. intros ns a' ns' [= _ <-]. reflexivity. Qed.

Lemma keeps_flag_bind {A C} (c : Body A) (k : A -> Body C) :
  keeps_flag c -> (forall a, keeps_flag (k a)) -> keeps_flag (bind c k).
Proof.
  intros Hc Hk ns x ns'. unfold bind.
  destruct (c ns) as [a ns1|e] eqn:E; [|discriminate].
  intro H. apply Hk in H. apply Hc in E. congruence.
Qed.

Lemma keeps_flag_call {A} (r : Exception + A) : keeps_flag (call r).
Proof. intros ns a ns'. unfold call. destruct r; [discriminate|]. now intros [= _ <-]. Qed.

Lemma keeps_flag_main_pop : keeps_flag main_pop.
Proof.
  intros ns a ns'. unfold main_pop.
  destruct (Stack.pop (main ns)) as [e|[v items]]; [discriminate|].
  now intros [= _ <-].
Qed.

Lemma keeps_flag_alt_pop : keeps_flag alt_pop.
Proof.
  intros ns a ns'. unfold alt_pop.
  destruct (Stack.pop (alt ns)) as [e|[v items]]; [discriminate|].
  now intros [= _ <-].
Qed.

Lemma keeps_flag_main_push (v : Value) : keeps_flag (main_push v).
Proof. intros ns a ns'. unfold main_push. now intros [= _ <-]. Qed.

Lemma keeps_flag_alt_push (v : Value) : keeps_flag (alt_push v).
Proof. intros ns a ns'. unfold alt_push. now intros [= _ <-]. Qed.

Lemma keeps_flag_main_peek : keeps_flag main_peek.
Proof. intros ns a ns'. unfold main_peek. apply keeps_flag_call. Qed.

Lemma keeps_flag_main_peekNth (k : number) : keeps_flag (main_peekNth k).
Proof. intros ns a ns'. unfold main_peekNth. apply keeps_flag_call. Qed.

Lemma keeps_flag_main_size : keeps_flag main_size.
Proof. intros ns a ns'. unfold main_size. now intros [= _ <-]. Qed.

Lemma keeps_flag_num (v : Value) : keeps_flag (num v).
Proof. apply keeps_flag_call. Qed.

Lemma keeps_flag_for_lt {A} (body : A -> Body A) (bound : number) :
  (forall acc, keeps_flag (body acc)) ->
  forall fuel i acc, keeps_flag (for_lt fuel i bound body acc).
Proof.
  intros Hb. induction fuel as [|fuel IH]; intros i acc; simpl.
  - apply keeps_flag_ret.
  - destruct (Num.ltb (Num.of_nat i) bound).
    + apply keeps_flag_bind; [apply Hb | intro; apply IH].
    + apply keeps_flag_ret.
Qed.

Lemma returns_flag_bind {A} (c : Body A) (k : A -> Body OpResult) :
  keeps_flag c -> (forall a, returns_flag (k a)) -> returns_flag (bind c k).
Proof.
  intros Hc Hk ns r ns' s'. unfold bind.
  destruct (c ns) as [a ns1|e] eqn:E; [|discriminate].
  intros H Hr. apply Hc in E. rewrite <- E. eapply Hk; eauto.
Qed.

Lemma returns_flag_error (e : ErrorValue) (state : State) :
  returns_flag (ret (error e state)).
Proof. intros ns r ns' s' [= <- _]. discriminate. Qed.

Lemma returns_flag_new_state : returns_flag return_new_state.
Proof. intros ns r ns' s' [= <- _] [= <-]. reflexivity. Qed.

Lemma try_catch_flag (state new_state s' : State) (body : Body OpResult) :
  returns_flag body ->
  try_catch state new_state body = NewState s' ->
  if_result s' = if_result new_state.
Proof.
  intros Hb. unfold try_catch.
  destruct (body new_state) as [r ns'|e] eqn:E; [|discriminate].
  intros ->. eapply Hb; eauto.
Qed.

Create HintDb flag_frame.
Hint Resolve keeps_flag_ret keeps_flag_call keeps_flag_main_pop
  keeps_flag_alt_pop keeps_flag_main_push keeps_flag_alt_push
  keeps_flag_main_peek keeps_flag_main_peekNth
  keeps_flag_main_size keeps_flag_num
  returns_flag_error returns_flag_new_state : flag_frame.

Ltac flag_frame :=
  repeat first
    [ solve [auto with flag_frame]
    | apply returns_flag_bind; [|intro]
    | apply keeps_flag_bind; [|intro]
    | apply keeps_flag_for_lt; intro
    | match goal with
      | |- returns_flag (if ?c then _ else _) => destruct c
      | |- keeps_flag (if ?c then _ else _) => destruct c
      | |- keeps_flag (let (_, _) := ?p in _) => destruct p
      end ].

Lemma returns_flag_verify_top (state : State) : returns_flag (verify_top state).
Proof. unfold verify_top. flag_frame. Qed.

Lemma keeps_flag_pop_loop (count : number) : keeps_flag (pop_loop count).
Proof. unfold pop_loop. flag_frame. Qed.

Lemma returns_flag_multisig (state : State) (k : Body OpResult) :
  returns_flag k -> returns_flag (multisig_body state k).
Proof.
  intro Hk. unfold multisig_body.
  pose proof keeps_flag_pop_loop. flag_frame.
Qed.

Hint Resolve returns_flag_verify_top keeps_flag_pop_loop returns_flag_multisig
  : flag_frame.

(** X18.  Only the four conditionals assign [if_result]: every other
    opcode of the table that succeeds returns a state with the
    [if_result] of its input. *)
Theorem if_result_unchanged
    (name : string) (f : OpcodeFunction) (state new_state : State) :
  lookup opcodeList name = Some f ->
  ~ In name conditionals ->
  f state = NewState new_state ->
  if_result new_state = if_result state.
Proof.
  intros Hf Hc.
  apply lookup_In in Hf. unfold opcodeList in Hf.
  repeat (destruct Hf as [Hf | Hf];
          [ injection Hf as <- <-;
            first
              [ exfalso; apply Hc; unfold conditionals; cbn [In]; tauto
              | unfold OP_0NOTEQUAL, OP_1ADD, OP_1SUB, OP_2DROP, OP_2DUP,
                  OP_2OVER, OP_2ROT, OP_2SWAP, OP_3DUP, OP_ABS, OP_ADD,
                  OP_BOOLAND, OP_BOOLOR, OP_CAT, OP_CHECKMULTISIG,
                  OP_CHECKMULTISIGVERIFY, OP_CHECKSIG, OP_CHECKSIGADD,
                  OP_CHECKSIGVERIFY, OP_DEPTH, OP_DROP, OP_DUP,
                  OP_EQUAL, OP_EQUALVERIFY, OP_FROMALTSTACK, OP_GREATERTHAN,
                  OP_GREATERTHANOREQUAL, OP_HASH, OP_IFDUP,
                  OP_LESSTHAN, OP_LESSTHANOREQUAL, OP_MAX, OP_MIN, OP_NEGATE,
                  OP_NIP, OP_NOP, OP_NOT, OP_NUMEQUAL,
                  OP_NUMEQUALVERIFY, OP_NUMNOTEQUAL, OP_OVER, OP_PICK,
                  OP_ROLL, OP_ROT, OP_SIZE, OP_SUB, OP_SWAP, OP_TOALTSTACK,
                  OP_TUCK, OP_VERIFY, OP_WITHIN, error, deepCopy;
                repeat match goal with
                  | |- context [if ?c then StateError _ _ else _] => destruct c
                  end;
                first
                  [ discriminate
                  | now intros [= <-]
                  | apply try_catch_flag; flag_frame ] ]
          | ]).
  destruct Hf.
Qed.

End FlagFrame.

Section DepthFrame.
Context {B : Builtins}.
Local Open Scope Z_scope.

Lemma shifts_ret {A} (a : A) : shifts 0 (ret a).
Proof. intros ns a' ns' [= _ <-]. lia. Qed.

Lemma shifts_bind {A C} (d1 d2 d : Z) (c : Body A) (k : A -> Body C) :
  shifts d1 c -> (forall a, shifts d2 (k a)) -> d = d1 + d2 ->
  shifts d (bind c k).
Proof.
  intros Hc Hk -> ns x ns'. unfold bind.
  destruct (c ns) as [a ns1|e] eqn:E; [|discriminate].
  intro H. apply Hk in H. apply Hc in E. lia.
Qed.

Lemma shifts_call {A} (r : Exception + A) : shifts 0 (call r).
Proof.
  intros ns a ns'. unfold call. destruct r; [discriminate|].
  intros [= _ <-]. lia.
Qed.

Lemma pop_size (items rest : list Value) (v : Value) :
  Stack.pop items = inr (v, rest) ->
  Z.of_nat (Stack.size rest) = Z.of_nat (Stack.size items) - 1.
Proof.
  destruct items as [|x l _] using rev_ind.
  - rewrite pop_empty. discriminate.
  - rewrite pop_snoc. intros [= _ <-].
    unfold Stack.size. rewrite length_snoc. lia.
Qed.

Lemma shifts_main_pop : shifts (-1) main_pop.
Proof.
  intros ns a ns'. unfold main_pop.
  destruct (Stack.pop (main ns)) as [e|[v items]] eqn:E; [discriminate|].
  intros [= _ <-]. cbn [main]. apply pop_size in E. lia.
Qed.

Lemma shifts_alt_pop : shifts 0 alt_pop.
Proof.
  intros ns a ns'. unfold alt_pop.
  destruct (Stack.pop (alt ns)) as [e|[v items]]; [discriminate|].
  intros [= _ <-]. cbn [main]. lia.
Qed.

Lemma shifts_main_push (v : Value) : shifts 1 (main_push v).
Proof.
  intros ns a ns'. unfold main_push. intros [= _ <-]. cbn [main].
  unfold Stack.push, Stack.size. rewrite length_snoc. lia.
Qed.

Lemma shifts_alt_push (v : Value) : shifts 0 (alt_push v).
Proof. intros ns a ns'. unfold alt_push. intros [= _ <-]. cbn [main]. lia. Qed.

Lemma shifts_main_peek : shifts 0 main_peek.
Proof. intros ns a ns'. unfold main_peek. apply shifts_call. Qed.

Lemma shifts_main_peekNth (k : number) : shifts 0 (main_peekNth k).
Proof. intros ns a ns'. unfold main_peekNth. apply shifts_call. Qed.

Lemma shifts_main_size : shifts 0 main_size.
Proof. intros ns a ns'. unfold main_size. intros [= _ <-]. lia. Qed.

Lemma shifts_set_if_result (b : bool) : shifts 0 (set_if_result b).
Proof. intros ns a ns'. unfold set_if_result. intros [= _ <-]. cbn [main]. lia. Qed.

Lemma shifts_num (v : Value) : shifts 0 (num v).
Proof. apply shifts_call. Qed.

Lemma returns_shifted_bind {A} (d1 d2 d : Z) (c : Body A)
    (k : A -> Body OpResult) :
  shifts d1 c -> (forall a, returns_shifted d2 (k a)) -> d = d1 + d2 ->
  returns_shifted d (bind c k).
Proof.
  intros Hc Hk -> ns r ns' s'. unfold bind.
  destruct (c ns) as [a ns1|e] eqn:E; [|discriminate].
  intros H Hr. apply Hc in E. pose proof (Hk a ns1 r ns' s' H Hr). lia.
Qed.

Lemma returns_shifted_error (d : Z) (e : ErrorValue) (state : State) :
  returns_shifted d (ret (error e state)).
Proof. intros ns r ns' s' [= <- _]. discriminate. Qed.

Lemma returns_shifted_new_state : returns_shifted 0 return_new_state.
Proof. intros ns r ns' s' [= <- _] [= <-]. lia. Qed.

Lemma try_catch_shifted (d : Z) (state new_state s' : State)
    (body : Body OpResult) :
  returns_shifted d body ->
  try_catch state new_state body = NewState s' ->
  Z.of_nat (Stack.size (main s')) = Z.of_nat (Stack.size (main new_state)) + d.
Proof.
  intros Hb. unfold try_catch.
  destruct (body new_state) as [r ns'|e] eqn:E; [|discriminate].
  intros ->. eapply Hb; eauto.
Qed.

Ltac depth_step :=
  first
    [ apply shifts_ret | apply shifts_call | apply shifts_main_pop
    | apply shifts_alt_pop | apply shifts_main_push | apply shifts_alt_push
    | apply shifts_main_peek | apply shifts_main_peekNth
    | apply shifts_main_size | apply shifts_set_if_result | apply shifts_num
    | apply returns_shifted_error | apply returns_shifted_new_state ].

Ltac depth_frame :=
  first
    [ depth_step
    | eapply returns_shifted_bind; [depth_frame | intro; depth_frame | ]
    | eapply shifts_bind; [depth_frame | intro; depth_frame | ]
    | match goal with
      | |- returns_shifted _ (if ?c then _ else _) => destruct c; depth_frame
      | |- shifts _ (if ?c then _ else _) => destruct c; depth_frame
      end ].

Lemma returns_shifted_verify_top (state : State) :
  returns_shifted (-1) (verify_top state).
Proof. unfold verify_top. depth_frame; reflexivity. Qed.

(** X19.  Each opcode of [stack_effect] that succeeds changes the depth
    of the main stack by the amount the table gives it. *)
Theorem depth_changes_by_stack_effect
    (name : string) (d : Z) (f : OpcodeFunction) (state new_state : State) :
  In (name, d) stack_effect ->
  lookup opcodeList name = Some f ->
  f state = NewState new_state ->
  Z.of_nat (Stack.size (main new_state))
  = Z.of_nat (Stack.size (main state)) + d.
Proof.
  intros Hin Hf.
  unfold stack_effect in Hin.
  repeat (destruct Hin as [Hin | Hin];
          [ injection Hin as <- <-; injection Hf as <-;
            unfold OP_0NOTEQUAL, OP_1ADD, OP_1SUB, OP_2DROP, OP_2DUP,
              OP_2OVER, OP_2ROT, OP_2SWAP, OP_3DUP, OP_ABS, OP_ADD,
              OP_BOOLAND, OP_BOOLOR, OP_CAT, OP_CHECKSIG, OP_CHECKSIGADD,
              OP_CHECKSIGVERIFY, OP_DEPTH, OP_DROP, OP_DUP, OP_ELSE,
              OP_ENDIF, OP_EQUAL, OP_EQUALVERIFY, OP_FROMALTSTACK,
              OP_GREATERTHAN, OP_GREATERTHANOREQUAL, OP_HASH, OP_IF,
              OP_LESSTHAN, OP_LESSTHANOREQUAL, OP_MAX, OP_MIN, OP_NEGATE,
              OP_NIP, OP_NOP, OP_NOT, OP_NOTIF, OP_NUMEQUAL,
              OP_NUMEQUALVERIFY, OP_NUMNOTEQUAL, OP_OVER, OP_PICK,
              OP_ROT, OP_SIZE, OP_SUB, OP_SWAP, OP_TOALTSTACK,
              OP_TUCK, OP_VERIFY, OP_WITHIN, error, deepCopy;
            repeat match goal with
              | |- context [if ?c then StateError _ _ else _] => destruct c
              | |- context [match if_result ?s with _ => _ end] =>
                  destruct (if_result s)
              end;
            first
              [ discriminate
              | intros [= <-]; cbn [main]; unfold Stack.push, Stack.size;
                rewrite ?length_snoc; lia
              | apply try_catch_shifted;
                first [ apply returns_shifted_verify_top
                      | depth_frame; reflexivity ] ]
          | ]).
  destruct Hin.
Qed.

End DepthFrame.

(* ===================================================================== *)
(** ** The normalizer and the driver *)
(* ===================================================================== *)

Section Normalizer.

Lemma convertNop_cases (opcode : string) :
  (In (Lex.trim opcode) ignored_family /\ convertNop opcode = "OP_NOP")
  \/ (~ In (Lex.trim opcode) ignored_family /\ convertNop opcode = opcode).
Proof.
  unfold convertNop, ignored_family.
  generalize (Lex.trim opcode). intro t. cbv zeta. cbn [In].
  repeat match goal with
  | |- context [String.eqb ?a ?b] =>
      destruct (String.eqb_spec a b);
      [left; split; [subst t; tauto | reflexivity] | cbn [orb]]
  end.
  right. split; [intuition congruence | reflexivity].
Qed.

Lemma convertHash_cases (opcode : string) :
  (In (Lex.trim opcode) hash_family /\ convertHash opcode = "OP_HASH")
  \/ (~ In (Lex.trim opcode) hash_family /\ convertHash opcode = opcode).
Proof.
  unfold convertHash, hash_family.
  generalize (Lex.trim opcode). intro t. cbv zeta. cbn [In].
  repeat match goal with
  | |- context [String.eqb ?a ?b] =>
      destruct (String.eqb_spec a b);
      [left; split; [subst t; tauto | reflexivity] | cbn [orb]]
  end.
  right. split; [intuition congruence | reflexivity].
Qed.

Lemma families_apart (t : string) :
  In t hash_family -> In t ignored_family -> False.
Proof.
  unfold hash_family, ignored_family. cbn [In].
  intros [<-|[<-|[<-|[<-|[<-|[]]]]]] H;
    repeat (destruct H as [H|H]; [discriminate H|]); exact H.
Qed.

Lemma trim_OP_NOP : Lex.trim "OP_NOP" = "OP_NOP".
Proof. reflexivity. Qed.

Lemma trim_OP_HASH : Lex.trim "OP_HASH" = "OP_HASH".
Proof. reflexivity. Qed.

Lemma OP_NOP_in_no_family :
  ~ In "OP_NOP" hash_family /\ ~ In "OP_NOP" ignored_family.
Proof.
  split; unfold hash_family, ignored_family; cbn [In]; intro H;
    repeat (destruct H as [H|H]; [discriminate H|]); exact H.
Qed.

Lemma OP_HASH_in_no_family :
  ~ In "OP_HASH" hash_family /\ ~ In "OP_HASH" ignored_family.
Proof.
  split; unfold hash_family, ignored_family; cbn [In]; intro H;
    repeat (destruct H as [H|H]; [discriminate H|]); exact H.
Qed.

(** X20.  The two renamings of the normalizer do not interfere: each is
    idempotent, and they give the same text in either order. *)
Theorem renamings_commute (opcode : string) :
  convertNop (convertNop opcode) = convertNop opcode
  /\ convertHash (convertHash opcode) = convertHash opcode
  /\ convertHash (convertNop opcode) = convertNop (convertHash opcode).
Proof.
  destruct (convertNop_cases opcode) as [[In1 E1]|[In1 E1]];
    destruct (convertHash_cases opcode) as [[In2 E2]|[In2 E2]].
  - destruct (families_apart _ In2 In1).
  - repeat split; rewrite ?E1, ?E2, ?E1, ?E2; reflexivity.
  - repeat split; rewrite ?E1, ?E2, ?E1, ?E2; reflexivity.
  - repeat split; rewrite ?E1, ?E2, ?E1, ?E2; reflexivity.
Qed.

Lemma numbered_ops (opcode : string) (c : convertedOp) :
  convertNumbers opcode = Some (inr c) ->
  (val c <> None /\ (op c = "OP_NUMBER" \/ op c = "OP_PUSHBYTES"))
  \/ c = mkOp opcode None.
Proof.
  unfold convertNumbers.
  destruct (if Lex.has_mnemonic opcode then lookup named_constants opcode
            else None) as [n|].
  - intros [= <-]. left. split; [discriminate | left; reflexivity].
  - destruct (Lex.has_number opcode).
    + destruct (Lex.eval opcode) as [[e|num]|]; try discriminate.
      destruct (Z.leb (Num.radix2_length num) 4160); intros [= <-].
      * left. split; [discriminate | right; reflexivity].
      * right. reflexivity.
    + intros [= <-]. right. reflexivity.
Qed.

(** X21.  The text that the normalizer hands to the driver is never one
    of the names it renames: it is [OP_NUMBER], [OP_PUSHBYTES], or a text
    that, trimmed, is outside the hash family and the ignored family. *)
Theorem normalized_op_is_canonical (opcode : string) (c : convertedOp) :
  convertOpcode opcode = Some (inr c) ->
  ~ In (Lex.trim (op c)) hash_family
  /\ ~ In (Lex.trim (op c)) ignored_family.
Proof.
  unfold convertOpcode. intro H.
  pose proof OP_NOP_in_no_family as [NH NI].
  pose proof OP_HASH_in_no_family as [HH HI].
  destruct (numbered_ops _ _ H) as [[_ [E|E]]| ->].
  - rewrite E. split; unfold hash_family, ignored_family; cbn [In]; intro K;
      repeat (destruct K as [K|K]; [discriminate K|]); exact K.
  - rewrite E. split; unfold hash_family, ignored_family; cbn [In]; intro K;
      repeat (destruct K as [K|K]; [discriminate K|]); exact K.
  - cbn [op].
    destruct (convertNop_cases opcode) as [[In1 E1]|[In1 E1]];
      destruct (convertHash_cases (convertNop opcode)) as [[In2 E2]|[In2 E2]];
      rewrite ?E2; rewrite ?E1 in *; rewrite ?trim_OP_NOP, ?trim_OP_HASH in *;
      auto.
Qed.

End Normalizer.

(* ===================================================================== *)
(** ** Every token of a line is evaluated *)
(* ===================================================================== *)

Section Tokens.
Context {B : Builtins}.

Lemma span_taken (p : ascii -> bool) (l : list ascii) :
  List.forallb p (fst (Lex.span p l)) = true.
Proof.
  induction l as [|c l IH]; [reflexivity|].
  cbn [Lex.span]. destruct (p c) eqn:Hc; [|reflexivity].
  destruct (Lex.span p l) as [taken after]. cbn [fst List.forallb] in *.
  now rewrite Hc, IH.
Qed.

Lemma search_found (alts : option ascii -> list ascii -> option (list ascii))
    (l : list ascii) :
  forall prev m,
  Lex.search alts prev l = Some m -> exists prev' l', alts prev' l' = Some m.
Proof.
  induction l as [|c l IH]; intros prev m; cbn [Lex.search].
  - destruct (alts prev []) as [m'|] eqn:E; [|discriminate].
    intros [= <-]. eauto.
  - destruct (alts prev (c :: l)) as [m'|] eqn:E.
    + intros [= <-]. eauto.
    + apply IH.
Qed.

Lemma alt_mnemonic_shape (l m : list ascii) :
  Lex.alt_mnemonic l = Some m ->
  exists w, m = "O"%char :: "P"%char :: "_"%char :: w
            /\ List.forallb Lex.is_word w = true.
Proof.
  unfold Lex.alt_mnemonic.
  destruct l as [|c1 [|c2 [|c3 rest]]];
    try (destruct c1 as [[] [] [] [] [] [] [] []]; discriminate);
    try discriminate.
  - destruct c1 as [[] [] [] [] [] [] [] []]; try discriminate.
    destruct c2 as [[] [] [] [] [] [] [] []]; discriminate.
  - destruct c1 as [[] [] [] [] [] [] [] []]; try discriminate.
    destruct c2 as [[] [] [] [] [] [] [] []]; try discriminate.
    destruct c3 as [[] [] [] [] [] [] [] []]; try discriminate.
    pose proof (span_taken Lex.is_word rest) as Hw.
    destruct (Lex.span Lex.is_word rest) as [w after]. cbn [fst] in Hw.
    destruct w as [|x w]; [discriminate|].
    intros [= <-]. eauto.
Qed.

Lemma digits_then_boundary_shape (digit : ascii -> bool) (l ds : list ascii) :
  Lex.digits_then_boundary digit l = Some ds ->
  ds <> [] /\ List.forallb digit ds = true.
Proof.
  unfold Lex.digits_then_boundary.
  pose proof (span_taken digit l) as Hd.
  destruct (Lex.span digit l) as [taken after]. cbn [fst] in Hd.
  destruct taken as [|x taken]; [discriminate|].
  destruct after as [|c after].
  - intros [= <-]. split; [discriminate | exact Hd].
  - destruct (Lex.is_word c); [discriminate|].
    intros [= <-]. split; [discriminate | exact Hd].
Qed.

Lemma alt_prefixed_shape (lead : bool) (p : ascii) (digit : ascii -> bool)
    (prev : option ascii) (l m : list ascii) :
  Lex.alt_prefixed lead p digit prev l = Some m ->
  exists c ds,
    m = "0"%char :: c :: ds
    /\ (Ascii.eqb c p || Nat.eqb (Lex.code c + 32) (Lex.code p))%bool = true
    /\ ds <> [] /\ List.forallb digit ds = true.
Proof.
  unfold Lex.alt_prefixed.
  destruct l as [|c0 [|c rest]];
    try (destruct c0 as [[] [] [] [] [] [] [] []]; discriminate);
    try discriminate.
  destruct c0 as [[] [] [] [] [] [] [] []]; try discriminate.
  destruct (Ascii.eqb c p || Nat.eqb (Lex.code c + 32) (Lex.code p))%bool eqn:Hc;
    [|discriminate].
  cbn [andb].
  destruct (negb lead || Lex.word_boundary prev ("0"%char :: c :: rest))%bool;
    [|discriminate].
  destruct (Lex.digits_then_boundary digit rest) as [ds|] eqn:Hds;
    [|discriminate].
  apply digits_then_boundary_shape in Hds as [Hne Hd].
  intros [= <-]. exists c, ds. auto.
Qed.

Lemma alt_decimal_shape (prev : option ascii) (l ds : list ascii) :
  Lex.alt_decimal prev l = Some ds ->
  ds <> [] /\ List.forallb Lex.is_digit ds = true.
Proof.
  unfold Lex.alt_decimal.
  destruct (Lex.word_boundary prev l); [|discriminate].
  apply digits_then_boundary_shape.
Qed.

Lemma prefixed_literal (c : ascii) (ds : list ascii) (octal : bool) :
  ds <> [] ->
  (if octal
   then (Ascii.eqb c "o" || Nat.eqb (Lex.code c + 32) (Lex.code "o"))%bool
   else (Ascii.eqb c "x" || Nat.eqb (Lex.code c + 32) (Lex.code "x"))%bool)
  = true ->
  List.forallb (if octal then Lex.is_octal else Lex.is_hex) ds = true ->
  Lex.literal_value (string_of_list_ascii ("0"%char :: c :: ds)) <> None.
Proof.
  intros Hne Hc Hd. unfold Lex.literal_value.
  rewrite list_ascii_of_string_of_list_ascii.
  destruct ds as [|d ds]; [now contradiction Hne|].
  destruct octal.
  - assert (Ho : (Ascii.eqb c "o" || Ascii.eqb c "O")%bool = true).
    { destruct c as [[] [] [] [] [] [] [] []]; try discriminate Hc; reflexivity. }
    destruct ((Ascii.eqb c "x" || Ascii.eqb c "X")
              && List.forallb Lex.is_hex (d :: ds))%bool; [discriminate|].
    rewrite Ho, Hd. discriminate.
  - assert (Hx : (Ascii.eqb c "x" || Ascii.eqb c "X")%bool = true).
    { destruct c as [[] [] [] [] [] [] [] []]; try discriminate Hc; reflexivity. }
    rewrite Hx, Hd. discriminate.
Qed.

Lemma decimal_literal (ds : list ascii) :
  ds <> [] -> List.forallb Lex.is_digit ds = true ->
  Lex.literal_value (string_of_list_ascii ds) <> None.
Proof.
  intros Hne Hd. unfold Lex.literal_value.
  rewrite list_ascii_of_string_of_list_ascii.
  destruct ds as [|c0 r]; [now contradiction Hne|].
  pose proof Hd as Hall.
  cbn [List.forallb] in Hd. apply andb_prop in Hd as [H0 Hr].
  destruct c0 as [[] [] [] [] [] [] [] []]; try discriminate H0;
    try (rewrite Hall; discriminate).
  destruct r as [|c1 r1]; [discriminate|].
  pose proof Hr as Hall1.
  cbn [List.forallb] in Hr. apply andb_prop in Hr as [H1 Hr1].
  destruct r1 as [|d r2].
  - destruct (Lex.is_octal c1); [discriminate|].
    rewrite H1. discriminate.
  - destruct ((Ascii.eqb c1 "x" || Ascii.eqb c1 "X")
              && List.forallb Lex.is_hex (d :: r2))%bool; [discriminate|].
    destruct ((Ascii.eqb c1 "o" || Ascii.eqb c1 "O")
              && List.forallb Lex.is_octal (d :: r2))%bool; [discriminate|].
    destruct (List.forallb Lex.is_octal (c1 :: d :: r2)); [discriminate|].
    rewrite Hall1. discriminate.
Qed.

(** The token of a line is a name that starts with [OP_] or an integer
    literal. *)
Lemma line_token_shape (lineText token : string) :
  Lex.line_token lineText = Some token ->
  Lex.unbound_name token = true \/ Lex.literal_value token <> None.
Proof.
  unfold Lex.line_token.
  destruct (Lex.search Lex.line_pattern None (list_ascii_of_string lineText))
    as [m|] eqn:E; [|discriminate].
  intros [= <-].
  apply search_found in E as (prev & l & E).
  unfold Lex.line_pattern, Lex.first_of in E.
  destruct (Lex.alt_mnemonic l) as [m1|] eqn:E1.
  - injection E as <-. left.
    apply alt_mnemonic_shape in E1 as (w & -> & Hw).
    unfold Lex.unbound_name. rewrite list_ascii_of_string_of_list_ascii.
    exact Hw.
  - right. destruct (Lex.alt_prefixed true "o" Lex.is_octal prev l) as [m2|] eqn:E2.
    + injection E as <-.
      apply alt_prefixed_shape in E2 as (c & ds & -> & Hc & Hne & Hd).
      now apply (prefixed_literal c ds true).
    + destruct (Lex.alt_prefixed true "x" Lex.is_hex prev l) as [m3|] eqn:E3.
      * injection E as <-.
        apply alt_prefixed_shape in E3 as (c & ds & -> & Hc & Hne & Hd).
        now apply (prefixed_literal c ds false).
      * apply alt_decimal_shape in E as [Hne Hd].
        now apply decimal_literal.
Qed.

Lemma shaped_is_converted (opcode : string) :
  Lex.unbound_name opcode = true \/ Lex.literal_value opcode <> None ->
  convertNumbers opcode <> None.
Proof.
  intro H. unfold convertNumbers. cbv zeta.
  destruct (if Lex.has_mnemonic opcode then lookup named_constants opcode
            else None); [discriminate|].
  destruct (Lex.has_number opcode); [|discriminate].
  unfold Lex.eval.
  destruct (Lex.literal_value opcode) as [v|].
  - destruct (Z.leb (Num.radix2_length (Num.of_Z v)) 4160); discriminate.
  - destruct H as [H|H]; [rewrite H; discriminate | now contradiction H].
Qed.

(** [eval] is never reached on a text outside the model: the
    normalizer returns or throws on the token of every line. *)
Lemma token_is_evaluated (lineText token : string) :
  Lex.line_token lineText = Some token -> convertOpcode token <> None.
Proof.
  intro H. apply line_token_shape in H. unfold convertOpcode.
  destruct (convertNop_cases token) as [[_ E1]|[_ E1]]; rewrite E1.
  - vm_compute. discriminate.
  - destruct (convertHash_cases token) as [[_ E2]|[_ E2]]; rewrite E2.
    + vm_compute. discriminate.
    + now apply shaped_is_converted.
Qed.

Lemma dispatch_has_an_outcome (c : convertedOp) (g : GlobalState) :
  dispatch c g <> None.
Proof.
  unfold dispatch, finish.
  destruct (lookup opcodeList (op c)) as [f|]; [|discriminate].
  destruct (String.eqb (op c) "OP_IF" || String.eqb (op c) "OP_NOTIF")%bool.
  - destruct (f (innerState g)); discriminate.
  - destruct (String.eqb (op c) "OP_ELSE"); [discriminate|].
    destruct (String.eqb (op c) "OP_ENDIF").
    + destruct (f (innerState g)); discriminate.
    + destruct (shouldContinue g); [|discriminate].
      destruct (f (innerState g)); discriminate.
Qed.

(** On every line [processLine] returns or throws within the model. *)
Lemma processLine_has_an_outcome (lineText : string) (g : GlobalState) :
  processLine lineText g <> None.
Proof.
  unfold processLine.
  destruct (Lex.line_token lineText) as [token|] eqn:E; [|discriminate].
  pose proof (token_is_evaluated _ _ E) as H.
  destruct (convertOpcode token) as [[e|c]|];
    [discriminate | apply dispatch_has_an_outcome | now contradiction H].
Qed.

End Tokens.

Section DriverFacts.
Context {B : Builtins}.

Lemma no_entry_OP_NUMBER : lookup opcodeList "OP_NUMBER" = None.
Proof. reflexivity. Qed.

Lemma no_entry_OP_PUSHBYTES : lookup opcodeList "OP_PUSHBYTES" = None.
Proof. reflexivity. Qed.

(** X22.  A line whose token normalizes to a number (a named constant
    or a literal) changes nothing: the table of opcodes has no entry
    for [OP_NUMBER] or [OP_PUSHBYTES], so the state built by the custom
    opcode is dropped, and the global state is left as it was. *)
Theorem number_lines_change_nothing
    (lineText token : string) (c : convertedOp) (g : GlobalState) :
  Lex.line_token lineText = Some token ->
  convertOpcode token = Some (inr c) ->
  val c <> None ->
  processLine lineText g = Some (Returns (Ok true), g).
Proof.
  intros Htok Hconv Hval.
  unfold processLine. rewrite Htok, Hconv. unfold dispatch.
  unfold convertOpcode in Hconv.
  destruct (numbered_ops _ _ Hconv) as [[_ [E|E]]| ->].
  - rewrite E, no_entry_OP_NUMBER. reflexivity.
  - rewrite E, no_entry_OP_PUSHBYTES. reflexivity.
  - now contradiction Hval.
Qed.

(** X23.  When the opcode that a line runs returns an error, the driver
    throws that error, clears [shouldContinue] and keeps the interpreter
    state of before the line.  [OP_IF] and [OP_NOTIF] are run whatever
    [shouldContinue] is, the other opcodes only while it is set. *)
Theorem opcode_error_stops_the_script
    (lineText token : string) (c : convertedOp) (g : GlobalState)
    (f : OpcodeFunction) (e : ErrorValue) (s' : State) :
  Lex.line_token lineText = Some token ->
  convertOpcode token = Some (inr c) ->
  lookup opcodeList (op c) = Some f ->
  op c <> "OP_ELSE" ->
  shouldContinue g = true \/ op c = "OP_IF" \/ op c = "OP_NOTIF" ->
  f (innerState g) = StateError e s' ->
  exists render : bool,
    processLine lineText g
    = Some (Throws e, mkGlobal false render (innerState g)).
Proof.
  intros Htok Hconv Hf Helse Hrun Herr.
  unfold processLine. rewrite Htok, Hconv. unfold dispatch. rewrite Hf.
  apply String.eqb_neq in Helse.
  destruct (String.eqb (op c) "OP_IF" || String.eqb (op c) "OP_NOTIF")%bool
    eqn:Hif.
  - rewrite Herr. exists false. reflexivity.
  - rewrite Helse.
    destruct (String.eqb (op c) "OP_ENDIF").
    + rewrite Herr. exists false. reflexivity.
    + destruct Hrun as [Hc|[E|E]].
      * rewrite Hc, Herr. exists true. reflexivity.
      * rewrite E in Hif. discriminate Hif.
      * rewrite E in Hif. discriminate Hif.
Qed.

(** X24.  While [shouldContinue] is set, a line whose opcode is not a
    conditional and succeeds replaces the interpreter state by the
    result of the opcode, and returns [Ok(true)]. *)
Theorem opcode_result_becomes_state
    (lineText token : string) (c : convertedOp) (g : GlobalState)
    (f : OpcodeFunction) (s' : State) :
  Lex.line_token lineText = Some token ->
  convertOpcode token = Some (inr c) ->
  lookup opcodeList (op c) = Some f ->
  ~ In (op c) conditionals ->
  shouldContinue g = true ->
  f (innerState g) = NewState s' ->
  processLine lineText g = Some (Returns (Ok true), mkGlobal true true s').
Proof.
  intros Htok Hconv Hf Hcond Hc Hok.
  unfold processLine. rewrite Htok, Hconv. unfold dispatch. rewrite Hf.
  unfold conditionals in Hcond. cbn [In] in Hcond.
  destruct (String.eqb_spec (op c) "OP_IF") as [E|_]; [intuition congruence|].
  destruct (String.eqb_spec (op c) "OP_NOTIF") as [E|_]; [intuition congruence|].
  destruct (String.eqb_spec (op c) "OP_ELSE") as [E|_]; [intuition congruence|].
  destruct (String.eqb_spec (op c) "OP_ENDIF") as [E|_]; [intuition congruence|].
  cbn [orb]. rewrite Hc, Hok. unfold finish. cbn [shouldContinue shouldRender].
  reflexivity.
Qed.

End DriverFacts.

(* ===================================================================== *)
(** ** The editor loop *)
(* ===================================================================== *)

Section EditorLoop.
Context {B : Builtins}.

(** What the loop keeps true of the decorations it adds from line
    [current] on, with [count] lines to go. *)
Lemma script_lines_invariant (document : list string) :
  forall (count current : nat) (g : GlobalState) (ds : list Decoration),
  script_lines document count current g = Some ds ->
  Forall (fun d =>
            current <= line d < current + count
            /\ exists text,
                 List.nth_error document (line d) = Some text
                 /\ String.prefix "//" (Lex.trim text) = false
                 /\ isWhitespaceString (Lex.trim text) = false) ds
  /\ (forall before d after,
        ds = before ++ d :: after ->
        (color d = red -> after = [])
        /\ Forall (fun d' => line d' < line d /\ color d' = gray) before).
Proof.
  induction count as [|count IH]; intros current g ds; cbn [script_lines].
  - intros [= <-]. split; [constructor|].
    intros [|x before] d after H; discriminate H.
  - destruct (List.nth_error document current) as [text|] eqn:Htext;
      [|discriminate].
    cbv zeta.
    destruct (String.prefix "//" (Lex.trim text)) eqn:Hcomment;
      [|destruct (isWhitespaceString (Lex.trim text)) eqn:Hblank];
      cbn [negb andb].
    + intro H. apply IH in H as [Hall Hord]. split; [|exact Hord].
      eapply Forall_impl; [|exact Hall].
      intros d [Hr Hd]. split; [lia | exact Hd].
    + intro H. apply IH in H as [Hall Hord]. split; [|exact Hord].
      eapply Forall_impl; [|exact Hall].
      intros d [Hr Hd]. split; [lia | exact Hd].
    + destruct (processLine (Lex.trim text) g) as [[[[ok]|e|[message]] g']|];
        [| | |discriminate].
      * destruct (script_lines document count (S current) g') as [more|] eqn:Hmore;
          [|discriminate].
        apply IH in Hmore as [Hall Hord].
        assert (Hall' : Forall (fun d =>
                  current <= line d < current + S count
                  /\ exists text,
                       List.nth_error document (line d) = Some text
                       /\ String.prefix "//" (Lex.trim text) = false
                       /\ isWhitespaceString (Lex.trim text) = false) more).
        { eapply Forall_impl; [|exact Hall].
          intros d [Hr Hd]. split; [lia | exact Hd]. }
        destruct (shouldContinue g'); intros [= <-]; cbn [app].
        -- split.
           ++ constructor; [|exact Hall']. cbn [line].
              split; [lia|]. exists text. auto.
           ++ intros [|x before] d after H; cbn [app] in H.
              ** injection H as <- <-. split; [discriminate | constructor].
              ** injection H as <- ->.
                 destruct (Hord _ _ _ eq_refl) as [Hred Hbefore].
                 split; [exact Hred|].
                 constructor; [|exact Hbefore]. cbn [line color].
                 split; [|reflexivity].
                 rewrite Forall_forall in Hall.
                 assert (Hd : In d (before ++ d :: after))
                   by (apply in_or_app; right; left; reflexivity).
                 apply Hall in Hd. lia.
        -- split; [exact Hall' | exact Hord].
      * intros [= <-]. split.
        -- constructor; [|constructor]. cbn [line].
           split; [lia|]. exists text. auto.
        -- intros [|x before] d after H; cbn [app] in H.
           ++ injection H as <- <-. split; [reflexivity | constructor].
           ++ injection H as _ H. destruct before; discriminate H.
      * intros [= <-]. split.
        -- constructor; [|constructor]. cbn [line].
           split; [lia|]. exists text. auto.
        -- intros [|x before] d after H; cbn [app] in H.
           ++ injection H as <- <-. split; [reflexivity | constructor].
           ++ injection H as _ H. destruct before; discriminate H.
Qed.

(** X25.  [handleScript] stops at the first line that fails: every
    decoration before another one is gray and on an earlier line, and
    nothing follows a red one. *)
Theorem script_stops_at_first_error
    (document : list string) (startLineNum stopLineNum offset : nat)
    (before after : list Decoration) (d : Decoration) :
  handleScript document startLineNum stopLineNum offset
  = Some (before ++ d :: after) ->
  (color d = red -> after = [])
  /\ Forall (fun d' => line d' < line d /\ color d' = gray) before.
Proof.
  unfold handleScript.
  destruct (List.nth_error document (startLineNum + offset)) as [firstLine|];
    [|discriminate].
  destruct (parseCommentForStacks firstLine) as [stacks|].
  - cbv zeta. intro H.
    apply script_lines_invariant in H as [_ Hord].
    exact (Hord _ _ _ eq_refl).
  - intros [= H]. destruct before; discriminate H.
Qed.

(** X26.  Every decoration of [handleScript] is on a line after the
    header and before [stopLineNum], and the text of that line,
    trimmed, is neither a [//] comment nor blank. *)
Theorem decorations_are_on_script_lines
    (document : list string) (startLineNum stopLineNum offset : nat)
    (ds : list Decoration) (d : Decoration) :
  handleScript document startLineNum stopLineNum offset = Some ds ->
  In d ds ->
  startLineNum + offset < line d < stopLineNum
  /\ exists text,
       List.nth_error document (line d) = Some text
       /\ String.prefix "//" (Lex.trim text) = false
       /\ isWhitespaceString (Lex.trim text) = false.
Proof.
  unfold handleScript.
  destruct (List.nth_error document (startLineNum + offset)) as [firstLine|];
    [|discriminate].
  destruct (parseCommentForStacks firstLine) as [stacks|].
  - cbv zeta. intros H Hin.
    apply script_lines_invariant in H as [Hall _].
    rewrite Forall_forall in Hall. apply Hall in Hin as [Hr Hd].
    split; [lia | exact Hd].
  - intros [= <-] [].
Qed.

End EditorLoop.

Section Headers.
Context {B : Builtins}.

Lemma list_ascii_of_string_app (s t : string) :
  list_ascii_of_string (s ++ t)
  = list_ascii_of_string s ++ list_ascii_of_string t.
Proof. induction s as [|c s IH]; cbn; [reflexivity | now rewrite IH]. Qed.

Lemma span_stops (p : ascii -> bool) (u : list ascii) (c : ascii)
    (rest : list ascii) :
  List.forallb p u = true -> p c = false ->
  Lex.span p (u ++ c :: rest) = (u, c :: rest).
Proof.
  intros Hu Hc. induction u as [|x u IH]; cbn [app Lex.span].
  - now rewrite Hc.
  - cbn [List.forallb] in Hu. apply andb_prop in Hu as [Hx Hu].
    now rewrite Hx, (IH Hu).
Qed.

Lemma span_all (p : ascii -> bool) (u : list ascii) :
  List.forallb p u = true -> Lex.span p u = (u, []).
Proof.
  intros Hu. induction u as [|x u IH]; cbn [Lex.span]; [reflexivity|].
  cbn [List.forallb] in Hu. apply andb_prop in Hu as [Hx Hu].
  now rewrite Hx, (IH Hu).
Qed.

Lemma starts_bare_cons (l : list ascii) :
  starts_bare l = true ->
  exists c r, l = c :: r /\ Lex.is_space c = false.
Proof.
  destruct l as [|c r]; [discriminate|]. cbn. intro H.
  exists c, r. split; [reflexivity|]. now destruct (Lex.is_space c).
Qed.

Lemma drop_space_bare (l : list ascii) :
  starts_bare l = true -> Lex.drop_space l = l.
Proof.
  intro H. apply starts_bare_cons in H as (c & r & -> & Hc).
  cbn. now rewrite Hc.
Qed.

Lemma trim_bare (l : list ascii) :
  starts_bare l = true -> starts_bare (List.rev l) = true ->
  Lex.trim (string_of_list_ascii l) = string_of_list_ascii l.
Proof.
  intros Hh Hl. unfold Lex.trim.
  rewrite list_ascii_of_string_of_list_ascii.
  now rewrite (drop_space_bare _ Hh), (drop_space_bare _ Hl), rev_involutive.
Qed.

Lemma item_text_parts (s : string) :
  item_text s = true ->
  starts_bare (list_ascii_of_string s) = true
  /\ starts_bare (List.rev (list_ascii_of_string s)) = true
  /\ List.forallb plain (list_ascii_of_string s) = true.
Proof.
  unfold item_text. cbv zeta. intro H.
  apply andb_prop in H as [H H3]. apply andb_prop in H as [H1 H2]. auto.
Qed.

Lemma trim_item (s : string) : item_text s = true -> Lex.trim s = s.
Proof.
  intro H. apply item_text_parts in H as (H1 & H2 & _).
  rewrite <- (string_of_list_ascii_of_string s) at 1.
  rewrite (trim_bare _ H1 H2). apply string_of_list_ascii_of_string.
Qed.

Lemma item_not_empty (s : string) :
  item_text s = true -> Nat.ltb 0 (String.length s) = true.
Proof.
  intro H. apply item_text_parts in H as (H1 & _ & _).
  destruct s; [discriminate H1 | reflexivity].
Qed.

Lemma span_cons (p : ascii -> bool) (c : ascii) (rest : list ascii) :
  Lex.span p (c :: rest)
  = if p c then let (taken, after) := Lex.span p rest in (c :: taken, after)
    else ([], c :: rest).
Proof. reflexivity. Qed.

Lemma split_from_cons (skip : nat) (piece : list ascii) (c : ascii)
    (rest : list ascii) :
  Header.split_from skip piece (c :: rest)
  = match skip with
    | S k => Header.split_from k piece rest
    | O =>
        match Header.separator_length (c :: rest) with
        | Some (S n) =>
            string_of_list_ascii (List.rev piece)
            :: Header.split_from n [] rest
        | _ => Header.split_from 0 (c :: piece) rest
        end
    end.
Proof. reflexivity. Qed.

(** Inside an item the separator does not match. *)
Lemma no_separator_inside (u tail : list ascii) :
  List.forallb plain u = true ->
  starts_bare (List.rev u) = true ->
  Header.separator_length (u ++ tail) = None.
Proof.
  unfold Header.separator_length.
  induction u as [|c u IH]; intros Hp Hl; [discriminate Hl|].
  cbn [List.forallb] in Hp. apply andb_prop in Hp as [Hc Hp].
  cbn [app Lex.span].
  destruct (Lex.is_space c) eqn:Hs.
  - destruct u as [|c' u'].
    + cbn in Hl. rewrite Hs in Hl. discriminate Hl.
    + assert (Hl' : starts_bare (List.rev (c' :: u')) = true).
      { cbn [List.rev] in Hl |- *.
        destruct (List.rev u' ++ [c']) as [|x r] eqn:E.
        - destruct (List.rev u'); discriminate E.
        - exact Hl. }
      specialize (IH Hp Hl').
      destruct (Lex.span Lex.is_space ((c' :: u') ++ tail)) as [before r].
      destruct r as [|x r']; [reflexivity|].
      destruct (Ascii.eqb_spec x ","%char) as [->|Hx].
      * destruct (Lex.span Lex.is_space r'). discriminate IH.
      * destruct x as [[] [] [] [] [] [] [] []]; try reflexivity.
        now contradiction Hx.
  - unfold plain in Hc. apply andb_prop in Hc as [Hc _].
    destruct (Ascii.eqb_spec c ","%char) as [->|Hx]; [discriminate Hc|].
    destruct c as [[] [] [] [] [] [] [] []]; try reflexivity.
    now contradiction Hx.
Qed.

Lemma split_walk (u : list ascii) :
  forall piece tail,
  List.forallb plain u = true ->
  (u = [] \/ starts_bare (List.rev u) = true) ->
  Header.split_from 0 piece (u ++ tail)
  = Header.split_from 0 (List.rev u ++ piece) tail.
Proof.
  induction u as [|c u IH]; intros piece tail Hp Hl; [reflexivity|].
  destruct Hl as [Hl|Hl]; [discriminate Hl|].
  change ((c :: u) ++ tail) with (c :: (u ++ tail)).
  rewrite split_from_cons.
  change (c :: (u ++ tail)) with ((c :: u) ++ tail).
  rewrite (no_separator_inside _ tail Hp Hl).
  cbn [List.forallb] in Hp. apply andb_prop in Hp as [_ Hp].
  rewrite IH.
  - cbn [List.rev]. now rewrite <- app_assoc.
  - exact Hp.
  - destruct u as [|c' u']; [left; reflexivity | right].
    cbn [List.rev] in Hl |- *.
    destruct (List.rev u' ++ [c']) as [|x r] eqn:E.
    + destruct (List.rev u'); discriminate E.
    + exact Hl.
Qed.

Lemma separator_comma_space (next : list ascii) :
  starts_bare next = true ->
  Header.separator_length (","%char :: " "%char :: next) = Some 2.
Proof.
  intro H. apply starts_bare_cons in H as (c & r & -> & Hc).
  unfold Header.separator_length.
  rewrite span_cons. change (Lex.is_space ","%char) with false. cbv iota.
  rewrite span_cons. change (Lex.is_space " "%char) with true. cbv iota.
  rewrite span_cons, Hc. reflexivity.
Qed.

Lemma split_separator (piece next : list ascii) :
  starts_bare next = true ->
  Header.split_from 0 piece (","%char :: " "%char :: next)
  = string_of_list_ascii (List.rev piece) :: Header.split_from 0 [] next.
Proof.
  intro H.
  rewrite split_from_cons, (separator_comma_space _ H).
  now rewrite split_from_cons.
Qed.

Lemma concat_starts_bare (s : string) (rest : list string) :
  item_text s = true ->
  starts_bare (list_ascii_of_string (String.concat ", " (s :: rest))) = true.
Proof.
  intro H. apply item_text_parts in H as (H1 & _ & _).
  apply starts_bare_cons in H1 as (c & r & E & Hc).
  cbn [String.concat]. destruct rest as [|s2 rest].
  - rewrite E. cbn. now rewrite Hc.
  - rewrite list_ascii_of_string_app, E. cbn. now rewrite Hc.
Qed.

Lemma concat_ends_bare (ss : list string) :
  ss <> [] ->
  List.forallb item_text ss = true ->
  starts_bare
    (List.rev (list_ascii_of_string (String.concat ", " ss))) = true.
Proof.
  induction ss as [|s rest IH]; intros Hne Hall; [now contradiction Hne|].
  cbn [List.forallb] in Hall. apply andb_prop in Hall as [Hs Hall].
  destruct rest as [|s2 rest].
  - cbn [String.concat]. now apply item_text_parts in Hs as (_ & H2 & _).
  - change (String.concat ", " (s :: s2 :: rest))
      with (s ++ ", " ++ String.concat ", " (s2 :: rest))%string.
    rewrite !list_ascii_of_string_app, !rev_app_distr.
    specialize (IH ltac:(discriminate) Hall).
    apply starts_bare_cons in IH as (c & r & -> & Hc).
    cbn. now rewrite Hc.
Qed.

Lemma concat_plain (ss : list string) :
  List.forallb item_text ss = true ->
  List.forallb Header.not_closing
    (list_ascii_of_string (String.concat ", " ss)) = true.
Proof.
  induction ss as [|s rest IH]; intro Hall; [reflexivity|].
  cbn [List.forallb] in Hall. apply andb_prop in Hall as [Hs Hall].
  assert (Hp : List.forallb Header.not_closing (list_ascii_of_string s) = true).
  { apply item_text_parts in Hs as (_ & _ & H3).
    rewrite forallb_forall in H3 |- *. intros x Hx. apply H3 in Hx.
    unfold plain in Hx. now apply andb_prop in Hx as [_ Hx]. }
  destruct rest as [|s2 rest]; [exact Hp|].
  change (String.concat ", " (s :: s2 :: rest))
    with (s ++ ", " ++ String.concat ", " (s2 :: rest))%string.
  rewrite !list_ascii_of_string_app, !forallb_app, Hp, (IH Hall).
  reflexivity.
Qed.

Lemma split_items (ss : list string) :
  ss <> [] ->
  List.forallb item_text ss = true ->
  Header.split (list_ascii_of_string (String.concat ", " ss)) = ss.
Proof.
  unfold Header.split.
  induction ss as [|s rest IH]; intros Hne Hall; [now contradiction Hne|].
  cbn [List.forallb] in Hall. apply andb_prop in Hall as [Hs Hall].
  pose proof (item_text_parts _ Hs) as (H1 & H2 & H3).
  destruct rest as [|s2 rest].
  - cbn [String.concat].
    rewrite <- (app_nil_r (list_ascii_of_string s)).
    rewrite split_walk by auto.
    cbn [Header.split_from]. rewrite app_nil_r, rev_involutive.
    now rewrite string_of_list_ascii_of_string.
  - change (String.concat ", " (s :: s2 :: rest))
      with (s ++ ", " ++ String.concat ", " (s2 :: rest))%string.
    rewrite !list_ascii_of_string_app.
    rewrite split_walk by auto.
    change (list_ascii_of_string ", ") with [","%char; " "%char].
    cbn [app]. rewrite split_separator.
    + rewrite app_nil_r, rev_involutive, string_of_list_ascii_of_string.
      f_equal. apply IH; [discriminate | exact Hall].
    + cbn [List.forallb] in Hall. apply andb_prop in Hall as [Hs2 _].
      now apply concat_starts_bare.
Qed.

Lemma push_items (ss : list string) :
  List.forallb item_text ss = true ->
  forall items : Stack.t,
  List.fold_left
    (fun items item =>
       if Nat.ltb 0 (String.length (Lex.trim item))
       then Stack.push items (VStr (Lex.trim item))
       else items) ss items
  = items ++ List.map VStr ss.
Proof.
  induction ss as [|s rest IH]; intros Hall items; cbn [List.fold_left List.map].
  - now rewrite app_nil_r.
  - cbn [List.forallb] in Hall. apply andb_prop in Hall as [Hs Hall].
    rewrite (trim_item _ Hs), (item_not_empty _ Hs), (IH Hall).
    unfold Stack.push. now rewrite <- app_assoc.
Qed.

Lemma print_texts (ss : list string) :
  print (List.map VStr ss) = ("[" ++ String.concat ", " ss ++ "]")%string.
Proof.
  unfold print. rewrite map_map. cbn [joined String_].
  now rewrite map_id.
Qed.

Lemma no_separator_free_bracket (body after : list ascii) :
  List.forallb Header.not_closing body = true ->
  Header.bracket_group ("["%char :: body ++ "]"%char :: after)
  = Some (body, after).
Proof.
  intro H. unfold Header.bracket_group.
  now rewrite (span_stops _ _ "]"%char after H eq_refl).
Qed.

(** X27.  [processStack] reads a stack of item texts back from what
    [print] writes for it. *)
Theorem processStack_reads_print (ss : list string) :
  List.forallb item_text ss = true ->
  processStack (print (List.map VStr ss)) = List.map VStr ss.
Proof.
  intro Hall. rewrite print_texts. unfold processStack.
  rewrite !list_ascii_of_string_app.
  change (list_ascii_of_string "[") with ["["%char].
  change (list_ascii_of_string "]") with ["]"%char].
  cbn [app Header.first_match].
  rewrite (no_separator_free_bracket _ [] (concat_plain _ Hall)).
  destruct ss as [|s rest]; [reflexivity|].
  assert (Hne : s :: rest <> []) by discriminate.
  pose proof Hall as Hs. cbn [List.forallb] in Hs.
  apply andb_prop in Hs as [Hs _].
  rewrite (trim_bare _ (concat_starts_bare s rest Hs)
             (concat_ends_bare _ Hne Hall)).
  rewrite string_of_list_ascii_of_string.
  assert (Hlen : Nat.ltb 0 (String.length (String.concat ", " (s :: rest))) = true).
  { pose proof (concat_starts_bare s rest Hs) as H.
    destruct (String.concat ", " (s :: rest)); [discriminate H | reflexivity]. }
  rewrite Hlen, (split_items _ Hne Hall), (push_items _ Hall).
  reflexivity.
Qed.

End Headers.

Section HeaderParsing.
Context {B : Builtins}.

Lemma string_of_list_ascii_app (l r : list ascii) :
  string_of_list_ascii (l ++ r)
  = (string_of_list_ascii l ++ string_of_list_ascii r)%string.
Proof. induction l as [|c l IH]; cbn; [reflexivity | now rewrite IH]. Qed.

Lemma group_text_print (items : Stack.t) :
  Header.group_text
    (list_ascii_of_string (String.concat ", " (List.map joined items)))
  = print items.
Proof.
  unfold Header.group_text, print.
  change ("["%char :: ?l ++ ["]"%char]) with (["["%char] ++ l ++ ["]"%char]).
  rewrite !string_of_list_ascii_app, string_of_list_ascii_of_string.
  reflexivity.
Qed.

Lemma print_as_list (items : Stack.t) :
  list_ascii_of_string (print items)
  = "["%char
    :: list_ascii_of_string (String.concat ", " (List.map joined items))
    ++ ["]"%char].
Proof. unfold print. now rewrite !list_ascii_of_string_app. Qed.

Lemma bracket_free_parts (s : string) :
  bracket_free s = true ->
  List.forallb not_opening (list_ascii_of_string s) = true
  /\ List.forallb Header.not_closing (list_ascii_of_string s) = true.
Proof.
  unfold bracket_free. intro H. rewrite forallb_forall in H.
  split; apply forallb_forall; intros c Hc; apply H in Hc;
    apply andb_prop in Hc as [H1 H2]; assumption.
Qed.

Lemma body_bracket_free (items : Stack.t) :
  List.forallb (fun v => bracket_free (joined v)) items = true ->
  bracket_free (String.concat ", " (List.map joined items)) = true.
Proof.
  induction items as [|v rest IH]; intro H; [reflexivity|].
  cbn [List.forallb] in H. apply andb_prop in H as [Hv H].
  cbn [List.map]. destruct rest as [|v2 rest]; [exact Hv|].
  change (String.concat ", " (joined v :: List.map joined (v2 :: rest)))
    with (joined v ++ ", " ++ String.concat ", " (List.map joined (v2 :: rest)))%string.
  unfold bracket_free in *.
  rewrite !list_ascii_of_string_app, !forallb_app, Hv, (IH H).
  reflexivity.
Qed.

Lemma skip_space_bracket (gap rest : list ascii) :
  List.forallb Lex.is_space gap = true ->
  Header.skip_space (gap ++ "["%char :: rest) = "["%char :: rest.
Proof.
  intro H. unfold Header.skip_space.
  now rewrite (span_stops _ _ "["%char rest H eq_refl).
Qed.

Lemma skip_space_cons (c : ascii) (l : list ascii) :
  Header.skip_space (c :: l)
  = if Lex.is_space c then Header.skip_space l else c :: l.
Proof.
  unfold Header.skip_space. rewrite span_cons.
  destruct (Lex.is_space c); [|reflexivity].
  now destruct (Lex.span Lex.is_space l).
Qed.

Lemma bracket_group_other (c : ascii) (l : list ascii) :
  not_opening c = true -> Header.bracket_group (c :: l) = None.
Proof.
  unfold not_opening. intro H.
  destruct (Ascii.eqb_spec c "["%char) as [->|Hc]; [discriminate H|].
  destruct c as [[] [] [] [] [] [] [] []]; try reflexivity.
  now contradiction Hc.
Qed.

Lemma first_match_here {A} (p : list ascii -> option A) (l : list ascii) (m : A) :
  p l = Some m -> Header.first_match p l = Some m.
Proof. intro H. destruct l; cbn [Header.first_match]; now rewrite H. Qed.

Lemma first_match_cons {A} (p : list ascii -> option A) (c : ascii)
    (l : list ascii) :
  Header.first_match p (c :: l)
  = match p (c :: l) with
    | Some m => Some m
    | None => Header.first_match p l
    end.
Proof. reflexivity. Qed.

(** Before the first opening bracket a pattern that starts with white
    space and a stack matches as it does at that bracket, or not at
    all. *)
Lemma lead_is_passed {A} (p : list ascii -> option A) (lead text : list ascii) :
  (forall l, p l = p (Header.skip_space l)) ->
  (forall c l, not_opening c = true -> Lex.is_space c = false ->
               p (c :: l) = None) ->
  List.forallb not_opening lead = true ->
  Header.first_match p (lead ++ "["%char :: text)
  = Header.first_match p ("["%char :: text).
Proof.
  intros Hskip Hother. induction lead as [|c lead IH]; intro H; [reflexivity|].
  cbn [List.forallb] in H. apply andb_prop in H as [Hc H].
  specialize (IH H).
  change ((c :: lead) ++ "["%char :: text)
    with (c :: (lead ++ "["%char :: text)).
  assert (Hhere : p (c :: (lead ++ "["%char :: text))
                  = p (lead ++ "["%char :: text)
                  \/ p (c :: (lead ++ "["%char :: text)) = None).
  { destruct (Lex.is_space c) eqn:Hs.
    - left. rewrite Hskip, skip_space_cons, Hs. symmetry. apply Hskip.
    - right. now apply Hother. }
  rewrite first_match_cons.
  destruct Hhere as [E|E]; rewrite E.
  - destruct (p (lead ++ "["%char :: text)) as [m|] eqn:Hp; [|exact IH].
    rewrite <- IH. symmetry. now apply first_match_here.
  - exact IH.
Qed.

Lemma two_stacks_at_skip (l : list ascii) :
  Header.two_stacks_at l = Header.two_stacks_at (Header.skip_space l).
Proof.
  unfold Header.two_stacks_at.
  assert (E : Header.skip_space (Header.skip_space l) = Header.skip_space l).
  { induction l as [|c l IH]; [reflexivity|].
    rewrite skip_space_cons. destruct (Lex.is_space c) eqn:Hs; [exact IH|].
    now rewrite skip_space_cons, Hs. }
  now rewrite E.
Qed.

Lemma single_stack_at_skip (l : list ascii) :
  Header.single_stack_at l = Header.single_stack_at (Header.skip_space l).
Proof.
  unfold Header.single_stack_at.
  assert (E : Header.skip_space (Header.skip_space l) = Header.skip_space l).
  { induction l as [|c l IH]; [reflexivity|].
    rewrite skip_space_cons. destruct (Lex.is_space c) eqn:Hs; [exact IH|].
    now rewrite skip_space_cons, Hs. }
  now rewrite E.
Qed.

Lemma two_stacks_at_other (c : ascii) (l : list ascii) :
  not_opening c = true -> Lex.is_space c = false ->
  Header.two_stacks_at (c :: l) = None.
Proof.
  intros Hc Hs. unfold Header.two_stacks_at.
  now rewrite skip_space_cons, Hs, (bracket_group_other _ _ Hc).
Qed.

Lemma single_stack_at_other (c : ascii) (l : list ascii) :
  not_opening c = true -> Lex.is_space c = false ->
  Header.single_stack_at (c :: l) = None.
Proof.
  intros Hc Hs. unfold Header.single_stack_at.
  now rewrite skip_space_cons, Hs, (bracket_group_other _ _ Hc).
Qed.

(** X28.  [parseCommentForStacks] finds the two stacks that [print]
    wrote: after any text without an opening bracket, the main stack,
    an optional comma, white space and the alt stack are read back as
    the two printed texts. *)
Theorem printed_stacks_are_parsed
    (lead gap : string) (comma : bool) (m a : Stack.t) :
  List.forallb not_opening (list_ascii_of_string lead) = true ->
  List.forallb Lex.is_space (list_ascii_of_string gap) = true ->
  List.forallb (fun v => bracket_free (joined v)) m = true ->
  List.forallb (fun v => bracket_free (joined v)) a = true ->
  parseCommentForStacks
    (lead ++ print m ++ (if comma then "," else EmptyString) ++ gap ++ print a)
  = Some (Header.mk (print m) (print a)).
Proof.
  intros Hlead Hgap Hm Ha.
  apply body_bracket_free, bracket_free_parts in Hm as [_ Hm].
  apply body_bracket_free, bracket_free_parts in Ha as [_ Ha].
  unfold parseCommentForStacks. cbv zeta.
  rewrite !list_ascii_of_string_app, !print_as_list.
  set (bm := list_ascii_of_string (String.concat ", " (List.map joined m))) in *.
  set (ba := list_ascii_of_string (String.concat ", " (List.map joined a))) in *.
  cbn [app]. rewrite <- app_assoc. cbn [app].
  rewrite (lead_is_passed _ _ _ two_stacks_at_skip two_stacks_at_other Hlead).
  rewrite (first_match_here _ _ (Header.group_text bm, Header.group_text ba)).
  - subst bm ba. now rewrite !group_text_print.
  - unfold Header.two_stacks_at.
    rewrite skip_space_cons. change (Lex.is_space "["%char) with false.
    cbv iota. rewrite (no_separator_free_bracket _ _ Hm).
    assert (E : Header.skip_space
                  match list_ascii_of_string (if comma then "," else EmptyString)
                        ++ list_ascii_of_string gap ++ "["%char :: ba ++ ["]"%char]
                  with
                  | ","%char :: r => r
                  | _ => list_ascii_of_string (if comma then "," else EmptyString)
                         ++ list_ascii_of_string gap
                         ++ "["%char :: ba ++ ["]"%char]
                  end
                = "["%char :: ba ++ ["]"%char]).
    { destruct comma; cbn [list_ascii_of_string app].
      - now apply skip_space_bracket.
      - destruct (list_ascii_of_string gap) as [|c g] eqn:Eg.
        + cbn [app]. now rewrite skip_space_cons.
        + cbn [app]. cbn [List.forallb] in Hgap.
          apply andb_prop in Hgap as [Hc Hg].
          destruct (Ascii.eqb_spec c ","%char) as [->|Hx]; [discriminate Hc|].
          assert (Hsame : match c with
                          | ","%char => g ++ "["%char :: ba ++ ["]"%char]
                          | _ => c :: g ++ "["%char :: ba ++ ["]"%char]
                          end = c :: g ++ "["%char :: ba ++ ["]"%char]).
          { destruct c as [[] [] [] [] [] [] [] []]; try reflexivity.
            now contradiction Hx. }
          rewrite Hsame.
          change (c :: g ++ "["%char :: ba ++ ["]"%char])
            with ((c :: g) ++ "["%char :: ba ++ ["]"%char]).
          apply skip_space_bracket. cbn [List.forallb]. now rewrite Hc, Hg. }
    cbv zeta. rewrite E.
    now rewrite (no_separator_free_bracket _ [] Ha).
Qed.

Lemma openings_app (l r : list ascii) :
  openings (l ++ r) = openings l + openings r.
Proof. unfold openings. now rewrite filter_app, length_app. Qed.

Lemma openings_none (l : list ascii) :
  List.forallb not_opening l = true -> openings l = 0.
Proof.
  unfold openings. induction l as [|c l IH]; intro H; [reflexivity|].
  cbn [List.forallb] in H. apply andb_prop in H as [Hc H].
  cbn [List.filter]. unfold not_opening in Hc.
  rewrite Ascii.eqb_sym. destruct (Ascii.eqb c "["%char); [discriminate Hc|].
  now apply IH.
Qed.

Lemma span_parts (p : ascii -> bool) (l : list ascii) :
  l = fst (Lex.span p l) ++ snd (Lex.span p l).
Proof.
  induction l as [|c l IH]; [reflexivity|].
  rewrite span_cons. destruct (p c); [|reflexivity].
  destruct (Lex.span p l) as [taken after]. cbn [fst snd app] in *.
  now rewrite <- IH.
Qed.

Lemma openings_skip_space (l : list ascii) :
  openings (Header.skip_space l) <= openings l.
Proof.
  unfold Header.skip_space.
  rewrite (span_parts Lex.is_space l) at 2. rewrite openings_app. lia.
Qed.

Lemma openings_bracket_group (l inner after : list ascii) :
  Header.bracket_group l = Some (inner, after) ->
  1 + openings after <= openings l.
Proof.
  unfold Header.bracket_group.
  destruct l as [|c rest]; [discriminate|].
  destruct (Ascii.eqb_spec c "["%char) as [->|Hc].
  - pose proof (span_parts Header.not_closing rest) as E.
    destruct (Lex.span Header.not_closing rest) as [taken after0].
    cbn [fst snd] in E.
    destruct after0 as [|x after']; [discriminate|].
    intros [= <- <-]. rewrite E.
    change ("["%char :: taken ++ x :: after')
      with (["["%char] ++ taken ++ [x] ++ after').
    rewrite !openings_app. change (openings ["["%char]) with 1. lia.
  - destruct c as [[] [] [] [] [] [] [] []]; try discriminate.
    now contradiction Hc.
Qed.

Lemma two_stacks_need_two_openings (l : list ascii) (r : string * string) :
  Header.two_stacks_at l = Some r -> 2 <= openings l.
Proof.
  unfold Header.two_stacks_at.
  destruct (Header.bracket_group (Header.skip_space l)) as [[first after]|] eqn:E1;
    [|discriminate].
  cbv zeta.
  destruct (Header.bracket_group
              (Header.skip_space
                 match after with
                 | ","%char :: r0 => r0
                 | _ => after
                 end)) as [[second after2]|] eqn:E2; [|discriminate].
  intros _.
  apply openings_bracket_group in E1, E2.
  pose proof (openings_skip_space l).
  pose proof (openings_skip_space
                match after with
                | ","%char :: r0 => r0
                | _ => after
                end).
  assert (openings match after with
                   | ","%char :: r0 => r0
                   | _ => after
                   end <= openings after).
  { destruct after as [|x r0]; [lia|].
    destruct (Ascii.eqb_spec x ","%char) as [->|Hx].
    - change (","%char :: r0) with ([","%char] ++ r0).
      rewrite openings_app. lia.
    - destruct x as [[] [] [] [] [] [] [] []]; try lia.
      now contradiction Hx. }
  lia.
Qed.

Lemma first_match_needs {A} (p : list ascii -> option A) (n : nat) :
  (forall l r, p l = Some r -> n <= openings l) ->
  forall l r, Header.first_match p l = Some r -> n <= openings l.
Proof.
  intros Hp. induction l as [|c l IH]; intros r.
  - cbn [Header.first_match].
    destruct (p []) as [m|] eqn:E; [|discriminate].
    intros _. exact (Hp _ _ E).
  - rewrite first_match_cons.
    destruct (p (c :: l)) as [m|] eqn:E.
    + intros _. exact (Hp _ _ E).
    + intro H. apply IH in H.
      change (c :: l) with ([c] ++ l). rewrite openings_app. lia.
Qed.

(** X29.  A comment with a single printed stack gives that stack as
    the main stack and the text of the empty stack as the alt stack,
    which [processStack] reads as no item. *)
Theorem single_stack_leaves_alt_empty
    (lead trail : string) (m : Stack.t) :
  List.forallb not_opening (list_ascii_of_string lead) = true ->
  List.forallb not_opening (list_ascii_of_string trail) = true ->
  List.forallb (fun v => bracket_free (joined v)) m = true ->
  parseCommentForStacks (lead ++ print m ++ trail)
  = Some (Header.mk (print m) "[]")
  /\ processStack "[]" = Stack.empty.
Proof.
  intros Hlead Htrail Hm. split; [|reflexivity].
  apply body_bracket_free, bracket_free_parts in Hm as [Hmo Hmc].
  unfold parseCommentForStacks. cbv zeta.
  rewrite !list_ascii_of_string_app, !print_as_list.
  set (bm := list_ascii_of_string (String.concat ", " (List.map joined m))) in *.
  cbn [app]. rewrite <- app_assoc. cbn [app].
  destruct (Header.first_match Header.two_stacks_at
              (list_ascii_of_string lead
               ++ "["%char :: bm ++ "]"%char :: list_ascii_of_string trail))
    as [r|] eqn:E.
  - apply (first_match_needs _ 2 two_stacks_need_two_openings) in E.
    change ("["%char :: bm ++ "]"%char :: list_ascii_of_string trail)
      with (["["%char] ++ bm ++ ["]"%char] ++ list_ascii_of_string trail) in E.
    rewrite !openings_app in E.
    rewrite (openings_none _ Hlead), (openings_none _ Hmo),
      (openings_none _ Htrail) in E.
    change (openings ["["%char]) with 1 in E.
    change (openings ["]"%char]) with 0 in E. lia.
  - rewrite (lead_is_passed _ _ _ single_stack_at_skip single_stack_at_other Hlead).
    rewrite (first_match_here _ _ (Header.group_text bm)).
    + subst bm. now rewrite group_text_print.
    + unfold Header.single_stack_at.
      rewrite skip_space_cons. change (Lex.is_space "["%char) with false.
      cbv iota. now rewrite (no_separator_free_bracket _ _ Hmc).
Qed.

End HeaderParsing.

(* ===================================================================== *)
(** ** The further properties at concrete inputs *)
(* ===================================================================== *)

Lemma peekNth_by_depth_witness :
  (Z.of_nat (List.length three_items) < 2 ^ 32)%Z
  /\ (Z.abs (-2) < 2 ^ 32)%Z
  /\ Stack.peekNth three_items (Num.of_Z (-2)) = inr VUndefined
  /\ Stack.peek three_items = Stack.peekNth three_items (Num.of_Z 0).
Proof.
  split; [reflexivity|]. split; [reflexivity|].
  apply (peekNth_by_depth three_items (-2)); reflexivity.
Defined.

Lemma drop_undoes_dup_witness :
  (Z.of_nat (List.length ([] ++ one_two)) < 2 ^ 32)%Z
  /\ OP_DUP (mkState ([] ++ one_two) [] None)
     = NewState (mkState ([] ++ [VStr "1"; VStr "2"; VStr "2"]) [] None)
  /\ OP_DROP (mkState ([] ++ [VStr "1"; VStr "2"; VStr "2"]) [] None)
     = NewState (mkState ([] ++ one_two) [] None)
  /\ OP_2DUP (mkState ([] ++ one_two) [] None)
     = NewState (mkState ([] ++ [VStr "1"; VStr "2"; VStr "1"; VStr "2"]) [] None)
  /\ OP_2DROP (mkState ([] ++ [VStr "1"; VStr "2"; VStr "1"; VStr "2"]) [] None)
     = NewState (mkState ([] ++ one_two) [] None).
Proof.
  split; [reflexivity|].
  apply (drop_undoes_dup [] [] None (VStr "1") (VStr "2")). reflexivity.
Defined.

Lemma tuck_is_swap_over_witness :
  (Z.of_nat (List.length ([] ++ one_two)) < 2 ^ 32 - 1)%Z
  /\ exists s1,
       OP_SWAP (mkState ([] ++ one_two) [] None) = NewState s1
       /\ OP_OVER s1 = OP_TUCK (mkState ([] ++ one_two) [] None)
       /\ OP_TUCK (mkState ([] ++ one_two) [] None)
          = NewState (mkState ([] ++ [VStr "2"; VStr "1"; VStr "2"]) [] None).
Proof.
  split; [reflexivity|].
  apply (tuck_is_swap_over [] [] None (VStr "1") (VStr "2")). reflexivity.
Defined.

Lemma not_not_is_0notequal_witness :
  main seven = [] ++ [VStr "7"]
  /\ to_number (VStr "7") = inr (Num.of_Z 7)
  /\ exists s1,
       OP_NOT seven = NewState s1
       /\ OP_NOT s1 = OP_0NOTEQUAL seven
       /\ OP_0NOTEQUAL seven
          = NewState (mkState ([] ++ [bool_number (Num.neqb (Num.of_Z 7) Num.zero)])
                        (alt seven) (if_result seven)).
Proof.
  split; [reflexivity|]. split; [reflexivity|].
  apply (not_not_is_0notequal seven [] (VStr "7") (Num.of_Z 7)); reflexivity.
Defined.

Lemma if_then_endif_witness :
  main seven = [] ++ [VStr "7"]
  /\ to_number (VStr "7") = inr (Num.of_Z 7)
  /\ exists s1,
       OP_IF seven = NewState s1
       /\ if_result s1 = Some (Num.neqb (Num.of_Z 7) Num.zero)
       /\ OP_ENDIF s1 = NewState (mkState [] (alt seven) None).
Proof.
  split; [reflexivity|]. split; [reflexivity|].
  apply (if_then_endif seven [] (VStr "7") (Num.of_Z 7)); reflexivity.
Defined.

Lemma pick_by_depth_witness :
  main pick_second = [VStr "a"; VStr "b"] ++ [VStr "1"]
  /\ to_number (VStr "1") = inr (Num.of_Z 1)
  /\ (Z.of_nat (List.length [VStr "a"; VStr "b"]) < 2 ^ 32)%Z
  /\ (Z.abs 1 < 2 ^ 32)%Z
  /\ OP_PICK pick_second
     = NewState (mkState ([VStr "a"; VStr "b"] ++ [VStr "a"]) [] None).
Proof.
  split; [reflexivity|]. split; [reflexivity|].
  split; [reflexivity|]. split; [reflexivity|].
  apply (pick_by_depth pick_second [VStr "a"; VStr "b"] (VStr "1") 1);
    reflexivity.
Defined.

Lemma roll_moves_to_top_witness :
  main roll_second = [VStr "a"] ++ [VStr "b"] ++ [VStr "c"] ++ [VStr "1"]
  /\ to_number (VStr "1") = inr (Num.of_nat (List.length [VStr "c"]))
  /\ (Z.of_nat (List.length ([VStr "a"] ++ [VStr "b"] ++ [VStr "c"])) < 2 ^ 32)%Z
  /\ OP_ROLL roll_second
     = NewState (mkState ([VStr "a"] ++ [VStr "c"] ++ [VStr "b"]) [] None).
Proof.
  split; [reflexivity|]. split; [reflexivity|]. split; [reflexivity|].
  apply (roll_moves_to_top roll_second [VStr "a"] [VStr "c"] (VStr "b") (VStr "1"));
    reflexivity.
Defined.

Lemma multisig_consumes_operands_witness :
  main two_of_three
  = [VStr "x"] ++ [VStr "0"] ++ [VStr "s1"; VStr "s2"] ++ [VStr "2"]
    ++ [VStr "k1"; VStr "k2"; VStr "k3"] ++ [VStr "3"]
  /\ to_number (VStr "3")
     = inr (Num.of_nat (List.length [VStr "k1"; VStr "k2"; VStr "k3"]))
  /\ to_number (VStr "2") = inr (Num.of_nat (List.length [VStr "s1"; VStr "s2"]))
  /\ (Z.of_nat (List.length (main two_of_three)) < 2 ^ 32)%Z
  /\ OP_CHECKMULTISIG two_of_three
     = NewState (mkState ([VStr "x"] ++ [VNum Num.one]) [] None)
  /\ OP_CHECKMULTISIGVERIFY two_of_three
     = NewState (mkState [VStr "x"] [] None).
Proof.
  split; [reflexivity|]. split; [reflexivity|].
  split; [reflexivity|]. split; [reflexivity|].
  apply (multisig_consumes_operands two_of_three [VStr "x"]
           [VStr "s1"; VStr "s2"] [VStr "k1"; VStr "k2"; VStr "k3"]
           (VStr "0") (VStr "2") (VStr "3"));
    reflexivity.
Defined.

Lemma binary_numeric_on_integers_witness :
  In ("OP_MIN", fun l r => Z.min l r) integer_binary
  /\ lookup opcodeList "OP_MIN" = Some OP_MIN
  /\ main ten_three = [] ++ [VStr "10"; VStr "3"]
  /\ to_number (VStr "3") = inr (Num.of_Z 3)
  /\ to_number (VStr "10") = inr (Num.of_Z 10)
  /\ Safe.safe 3 /\ Safe.safe 10 /\ Safe.safe (Z.min 10 3)
  /\ OP_MIN ten_three
     = NewState (mkState ([] ++ [VNum (Num.of_Z (Z.min 10 3))]) [] None).
Proof.
  assert (Hin : In ("OP_MIN", fun l r => Z.min l r) integer_binary)
    by (do 8 right; left; reflexivity).
  split; [exact Hin|]. split; [reflexivity|]. split; [reflexivity|].
  split; [reflexivity|]. split; [reflexivity|].
  split; [reflexivity|]. split; [reflexivity|]. split; [reflexivity|].
  apply (binary_numeric_on_integers "OP_MIN" (fun l r => Z.min l r) OP_MIN
           ten_three [] (VStr "3") (VStr "10") 3 10);
    [exact Hin | reflexivity ..].
Defined.

Lemma unary_numeric_on_integers_witness :
  In ("OP_NEGATE", fun x => (- x)%Z) integer_unary
  /\ lookup opcodeList "OP_NEGATE" = Some OP_NEGATE
  /\ main five = [] ++ [VStr "5"]
  /\ to_number (VStr "5") = inr (Num.of_Z 5)
  /\ Safe.safe 5 /\ Safe.safe (- 5)
  /\ ("OP_NEGATE" = "OP_NEGATE" -> 5%Z <> 0%Z)
  /\ OP_NEGATE five
     = NewState (mkState ([] ++ [VNum (Num.of_Z (- 5))]) [] None).
Proof.
  assert (Hin : In ("OP_NEGATE", fun x => (- x)%Z) integer_unary)
    by (do 2 right; left; reflexivity).
  split; [exact Hin|]. split; [reflexivity|]. split; [reflexivity|].
  split; [reflexivity|]. split; [reflexivity|]. split; [reflexivity|].
  split; [intros _; discriminate|].
  apply (unary_numeric_on_integers "OP_NEGATE" (fun x => (- x)%Z) OP_NEGATE
           five [] (VStr "5") 5);
    [exact Hin | reflexivity | reflexivity | reflexivity | reflexivity
    | reflexivity | intros _; discriminate].
Defined.

Lemma negate_flips_the_sign_of_zero_witness :
  main zero_on_top = [] ++ [VStr "0"]
  /\ to_number (VStr "0") = inr (S754_zero false)
  /\ OP_NEGATE zero_on_top
     = NewState (mkState ([] ++ [VNum (S754_zero (negb false))]) [] None).
Proof.
  split; [reflexivity|]. split; [reflexivity|].
  apply (negate_flips_the_sign_of_zero zero_on_top [] (VStr "0") false);
    reflexivity.
Defined.

Lemma within_on_integers_witness :
  main five_in_one_ten = [] ++ [VStr "5"; VStr "1"; VStr "10"]
  /\ to_number (VStr "5") = inr (Num.of_Z 5)
  /\ to_number (VStr "1") = inr (Num.of_Z 1)
  /\ to_number (VStr "10") = inr (Num.of_Z 10)
  /\ Safe.safe 5 /\ Safe.safe 1 /\ Safe.safe 10
  /\ OP_WITHIN five_in_one_ten
     = NewState (mkState
                   ([] ++ [VNum (Num.of_Z
                                   (truth_Z ((1 <=? 5)%Z && (5 <? 10)%Z)))])
                   [] None).
Proof.
  split; [reflexivity|]. split; [reflexivity|]. split; [reflexivity|].
  split; [reflexivity|]. split; [reflexivity|]. split; [reflexivity|].
  split; [reflexivity|].
  apply (within_on_integers five_in_one_ten [] (VStr "5") (VStr "1") (VStr "10")
           5 1 10);
    reflexivity.
Defined.

Lemma verifying_is_plain_then_verify_witness :
  In ("OP_EQUAL", "OP_EQUALVERIFY") verifying
  /\ lookup opcodeList "OP_EQUAL" = Some OP_EQUAL
  /\ lookup opcodeList "OP_EQUALVERIFY" = Some OP_EQUALVERIFY
  /\ OP_EQUAL two_texts = NewState (state_of [VNum Num.zero] [])
  /\ OP_EQUALVERIFY two_texts
     = match OP_VERIFY (state_of [VNum Num.zero] []) with
       | NewState s2 => NewState s2
       | StateError e _ => StateError e two_texts
       end.
Proof.
  assert (Hin : In ("OP_EQUAL", "OP_EQUALVERIFY") verifying)
    by (left; reflexivity).
  split; [exact Hin|]. split; [reflexivity|]. split; [reflexivity|].
  split; [reflexivity|].
  apply (verifying_is_plain_then_verify "OP_EQUAL" "OP_EQUALVERIFY"
           OP_EQUAL OP_EQUALVERIFY two_texts (state_of [VNum Num.zero] []));
    [exact Hin | reflexivity | reflexivity | reflexivity].
Defined.

Lemma error_carries_input_state_witness :
  lookup opcodeList "OP_ADD" = Some OP_ADD
  /\ OP_ADD one_and_text
     = StateError (Caught (ResultException "Invalid number")) one_and_text
  /\ one_and_text = one_and_text.
Proof.
  split; [reflexivity|]. split; [reflexivity|].
  apply (error_carries_input_state "OP_ADD" OP_ADD one_and_text one_and_text
           (Caught (ResultException "Invalid number")));
    reflexivity.
Defined.

Lemma if_result_unchanged_witness :
  lookup opcodeList "OP_DUP" = Some OP_DUP
  /\ ~ In "OP_DUP" conditionals
  /\ OP_DUP in_taken_branch
     = NewState (mkState [VStr "3"; VStr "3"] [] (Some true))
  /\ if_result (mkState [VStr "3"; VStr "3"] [] (Some true))
     = if_result in_taken_branch.
Proof.
  assert (Hout : ~ In "OP_DUP" conditionals).
  { unfold conditionals. cbn [In]. intro H.
    repeat (destruct H as [H|H]; [discriminate H|]). exact H. }
  split; [reflexivity|]. split; [exact Hout|]. split; [reflexivity|].
  apply (if_result_unchanged "OP_DUP" OP_DUP in_taken_branch
           (mkState [VStr "3"; VStr "3"] [] (Some true)));
    [reflexivity | exact Hout | reflexivity].
Defined.

Lemma depth_changes_by_stack_effect_witness :
  In ("OP_2DUP", 2%Z) stack_effect
  /\ lookup opcodeList "OP_2DUP" = Some OP_2DUP
  /\ OP_2DUP three_four
     = NewState (state_of [VStr "3"; VStr "4"; VStr "3"; VStr "4"] [])
  /\ Z.of_nat (Stack.size
                 (main (state_of [VStr "3"; VStr "4"; VStr "3"; VStr "4"] [])))
     = (Z.of_nat (Stack.size (main three_four)) + 2)%Z.
Proof.
  assert (Hin : In ("OP_2DUP", 2%Z) stack_effect)
    by (do 4 right; left; reflexivity).
  split; [exact Hin|]. split; [reflexivity|]. split; [reflexivity|].
  apply (depth_changes_by_stack_effect "OP_2DUP" 2 OP_2DUP three_four
           (state_of [VStr "3"; VStr "4"; VStr "3"; VStr "4"] []));
    [exact Hin | reflexivity | reflexivity].
Defined.

Lemma normalized_op_is_canonical_witness :
  convertOpcode "OP_SHA256" = Some (inr (mkOp "OP_HASH" None))
  /\ ~ In (Lex.trim (op (mkOp "OP_HASH" None))) hash_family
  /\ ~ In (Lex.trim (op (mkOp "OP_HASH" None))) ignored_family.
Proof.
  split; [reflexivity|].
  apply (normalized_op_is_canonical "OP_SHA256" (mkOp "OP_HASH" None)).
  reflexivity.
Defined.

Lemma number_lines_change_nothing_witness :
  Lex.line_token "OP_2" = Some "OP_2"
  /\ convertOpcode "OP_2"
     = Some (inr (mkOp "OP_NUMBER" (Some (Num.of_Z 2))))
  /\ val (mkOp "OP_NUMBER" (Some (Num.of_Z 2))) <> None
  /\ processLine "OP_2" (running three_four)
     = Some (Returns (Ok true), running three_four).
Proof.
  split; [reflexivity|]. split; [reflexivity|]. split; [discriminate|].
  apply (number_lines_change_nothing "OP_2" "OP_2"
           (mkOp "OP_NUMBER" (Some (Num.of_Z 2))) (running three_four));
    [reflexivity | reflexivity | discriminate].
Defined.

Lemma opcode_error_stops_the_script_witness :
  Lex.line_token "OP_ADD" = Some "OP_ADD"
  /\ convertOpcode "OP_ADD" = Some (inr (mkOp "OP_ADD" None))
  /\ lookup opcodeList (op (mkOp "OP_ADD" None)) = Some OP_ADD
  /\ op (mkOp "OP_ADD" None) <> "OP_ELSE"
  /\ shouldContinue (running one_and_text) = true
  /\ OP_ADD (innerState (running one_and_text))
     = StateError (Caught (ResultException "Invalid number")) one_and_text
  /\ exists render : bool,
       processLine "OP_ADD" (running one_and_text)
       = Some (Throws (Caught (ResultException "Invalid number")),
               mkGlobal false render (innerState (running one_and_text))).
Proof.
  split; [reflexivity|]. split; [reflexivity|]. split; [reflexivity|].
  split; [discriminate|]. split; [reflexivity|]. split; [reflexivity|].
  apply (opcode_error_stops_the_script "OP_ADD" "OP_ADD" (mkOp "OP_ADD" None)
           (running one_and_text) OP_ADD
           (Caught (ResultException "Invalid number")) one_and_text);
    [reflexivity | reflexivity | reflexivity | discriminate
    | left; reflexivity | reflexivity].
Defined.

Lemma opcode_result_becomes_state_witness :
  Lex.line_token "OP_SWAP" = Some "OP_SWAP"
  /\ convertOpcode "OP_SWAP" = Some (inr (mkOp "OP_SWAP" None))
  /\ lookup opcodeList (op (mkOp "OP_SWAP" None)) = Some OP_SWAP
  /\ ~ In (op (mkOp "OP_SWAP" None)) conditionals
  /\ shouldContinue (running three_four) = true
  /\ OP_SWAP (innerState (running three_four))
     = NewState (state_of [VStr "4"; VStr "3"] [])
  /\ processLine "OP_SWAP" (running three_four)
     = Some (Returns (Ok true),
             mkGlobal true true (state_of [VStr "4"; VStr "3"] [])).
Proof.
  assert (Hout : ~ In (op (mkOp "OP_SWAP" None)) conditionals).
  { unfold conditionals. cbn [In op]. intro H.
    repeat (destruct H as [H|H]; [discriminate H|]). exact H. }
  split; [reflexivity|]. split; [reflexivity|]. split; [reflexivity|].
  split; [exact Hout|]. split; [reflexivity|]. split; [reflexivity|].
  apply (opcode_result_becomes_state "OP_SWAP" "OP_SWAP" (mkOp "OP_SWAP" None)
           (running three_four) OP_SWAP (state_of [VStr "4"; VStr "3"] []));
    [reflexivity | reflexivity | reflexivity | exact Hout
    | reflexivity | reflexivity].
Defined.

Lemma script_stops_at_first_error_witness :
  handleScript failing_script 0 5 0 = Some ([after_swap] ++ failed_add :: [])
  /\ (color failed_add = red -> @nil Decoration = [])
  /\ Forall (fun d' => line d' < line failed_add /\ color d' = gray)
       [after_swap].
Proof.
  split; [vm_compute; reflexivity|].
  apply (script_stops_at_first_error failing_script 0 5 0
           [after_swap] [] failed_add).
  vm_compute; reflexivity.
Defined.

Lemma decorations_are_on_script_lines_witness :
  handleScript failing_script 0 5 0 = Some [after_swap; failed_add]
  /\ In after_swap [after_swap; failed_add]
  /\ 0 + 0 < line after_swap < 5
  /\ exists text,
       List.nth_error failing_script (line after_swap) = Some text
       /\ String.prefix "//" (Lex.trim text) = false
       /\ isWhitespaceString (Lex.trim text) = false.
Proof.
  split; [vm_compute; reflexivity|]. split; [left; reflexivity|].
  apply (decorations_are_on_script_lines failing_script 0 5 0
           [after_swap; failed_add] after_swap);
    [vm_compute; reflexivity | left; reflexivity].
Defined.

Lemma processStack_reads_print_witness :
  List.forallb item_text printed_items = true
  /\ print (List.map VStr printed_items) = "[a, b c, 0x1f]"
  /\ processStack (print (List.map VStr printed_items))
     = List.map VStr printed_items.
Proof.
  split; [reflexivity|]. split; [reflexivity|].
  apply (processStack_reads_print printed_items). reflexivity.
Defined.

Lemma printed_stacks_are_parsed_witness :
  List.forallb not_opening (list_ascii_of_string " =>  ") = true
  /\ List.forallb Lex.is_space (list_ascii_of_string " ") = true
  /\ List.forallb (fun v => bracket_free (joined v)) one_two = true
  /\ List.forallb (fun v => bracket_free (joined v)) [VStr "3"] = true
  /\ parseCommentForStacks
       (" =>  " ++ print one_two ++ EmptyString ++ " " ++ print [VStr "3"])
     = Some (Header.mk (print one_two) (print [VStr "3"])).
Proof.
  split; [reflexivity|]. split; [reflexivity|].
  split; [reflexivity|]. split; [reflexivity|].
  apply (printed_stacks_are_parsed " =>  " " " false one_two [VStr "3"]);
    reflexivity.
Defined.

Lemma single_stack_leaves_alt_empty_witness :
  List.forallb not_opening (list_ascii_of_string "// ") = true
  /\ List.forallb not_opening (list_ascii_of_string EmptyString) = true
  /\ List.forallb (fun v => bracket_free (joined v)) one_two = true
  /\ parseCommentForStacks ("// " ++ print one_two ++ EmptyString)
     = Some (Header.mk (print one_two) "[]")
  /\ processStack "[]" = Stack.empty.
Proof.
  split; [reflexivity|]. split; [reflexivity|]. split; [reflexivity|].
  apply (single_stack_leaves_alt_empty "// " EmptyString one_two);
    reflexivity.
Defined.

Lemma number_never_passes_through_witness :
  convertNumbers "0x1f"
  = Some (inr (mkOp "OP_PUSHBYTES" (Some (Num.of_Z 31))))
  /\ Lex.has_number "0x1f" = true
  /\ ((exists n, mkOp "OP_PUSHBYTES" (Some (Num.of_Z 31))
                 = mkOp "OP_NUMBER" (Some n))
      \/ (exists num, Lex.eval "0x1f" = Some (inr num)
                      /\ mkOp "OP_PUSHBYTES" (Some (Num.of_Z 31))
                         = mkOp "OP_PUSHBYTES" (Some num))).
Proof.
  split; [vm_compute; reflexivity|]. split; [reflexivity|].
  apply (Rounded.number_never_passes_through "0x1f"
           (mkOp "OP_PUSHBYTES" (Some (Num.of_Z 31))));
    [vm_compute; reflexivity | reflexivity].
Defined.
